(** * Cpp23-Syntax-diagrams: the grammar catalog, the rule filter and the
      SVG export boundary

    A shallow embedding of
      - [src/app/App.tsx]                         ([filterNames]),
      - [src/shared/railroad/diagramToSvg.ts]     ([diagramToSvgString]),
      - [src/features/grammar/cppGrammar.ts]      (both shipped versions of
        the catalog: [rules], [SECTION_RULES], [createRuleDiagram],
        [getRuleNames]),
      - [src/features/grammar/ebnfDefinitions.ts] ([EBNF_DEFINITIONS],
        [getEbnfDefinition], [getEbnfRuleNames]).

    The strings the filter works on are JavaScript strings: sequences of
    16-bit code units.  The literals of the catalog and the messages of the
    engine are pure ASCII and are written as Rocq strings. *)

From Stdlib Require Import ZArith NArith Bool Ascii String List Lia.
From stdpp Require Import base list strings.

Local Open Scope string_scope.

(** ** Literals and messages *)

Module Text.

(** [q] occurs in [s] as a contiguous run ([RegExp.prototype.test] for a
    pattern without operators). *)
Fixpoint includes (s q : string) : bool :=
  String.prefix q s ||
  match s with
  | EmptyString => false
  | String _ s' => includes s' q
  end.

(** ToBoolean on a string: only the empty string is falsy. *)
Definition truthy (s : string) : bool :=
  match s with EmptyString => false | _ => true end.

(** The two characters that cannot be spelled inside a literal. *)
Definition dq : string := String (ascii_of_nat 34) EmptyString.
Definition bslash : string := String (ascii_of_nat 92) EmptyString.

End Text.

(** ** The fragment of JavaScript strings the filter uses *)

Module JsString.

(** A string value is a sequence of UTF-16 code units. *)
Definition jsstring : Type := list N.

(** A literal of the source as a string value. *)
Definition units (s : string) : jsstring :=
  List.map N_of_ascii (list_ascii_of_string s).

Definition ascii_only (s : jsstring) : bool :=
  forallb (fun c => c <? 128)%N s.

Definition lower_unit (c : N) : N :=
  if ((65 <=? c) && (c <=? 90))%N then (c + 32)%N else c.

(** [String.prototype.toLowerCase].  On a string of ASCII code units it
    folds A-Z, one unit at a time.  On any other string it is the Unicode
    case mapping of the engine (which may change the length and look at the
    context of a letter): the parameter [unicode]. *)
Definition toLowerCase (unicode : jsstring -> jsstring) (s : jsstring)
  : jsstring :=
  if ascii_only s then List.map lower_unit s else unicode s.

(** WhiteSpace and LineTerminator, the code points stripped by [trim]:
    TAB, LF, VT, FF, CR, SP, NBSP, U+1680, U+2000..U+200A, LS, PS, U+202F,
    U+205F, U+3000 and ZWNBSP.  All of them are single code units. *)
Definition white_space : list N :=
  [9; 10; 11; 12; 13; 32; 160; 5760;
   8192; 8193; 8194; 8195; 8196; 8197; 8198; 8199; 8200; 8201; 8202;
   8232; 8233; 8239; 8287; 12288; 65279]%N.

Definition isWhiteSpace (c : N) : bool := existsb (N.eqb c) white_space.

Fixpoint trimStart (s : jsstring) : jsstring :=
  match s with
  | [] => []
  | c :: s' => if isWhiteSpace c then trimStart s' else s
  end.

Fixpoint trimEnd (s : jsstring) : jsstring :=
  match s with
  | [] => []
  | c :: s' =>
      match trimEnd s' with
      | [] => if isWhiteSpace c then [] else [c]
      | t => c :: t
      end
  end.

(** [String.prototype.trim] *)
Definition trim (s : jsstring) : jsstring := trimStart (trimEnd s).

(** Empty or only white space. *)
Definition blank (s : jsstring) : bool := forallb isWhiteSpace s.

Fixpoint startsWith (s q : jsstring) {struct q} : bool :=
  match q, s with
  | [], _ => true
  | _ :: _, [] => false
  | c :: q', d :: s' => (c =? d)%N && startsWith s' q'
  end.

(** [String.prototype.includes]: [q] occurs in [s] as a contiguous run. *)
Fixpoint includes (s q : jsstring) : bool :=
  startsWith s q ||
  match s with
  | [] => false
  | _ :: s' => includes s' q
  end.

(** ToBoolean on a string: only the empty string is falsy. *)
Definition truthy (s : jsstring) : bool :=
  match s with [] => false | _ => true end.

End JsString.

(** ** [App.tsx]: the rule filter *)

Module App.
Import JsString.

(** [filterNames], with the component state [query] made explicit. *)
Definition filterNames (unicode : jsstring -> jsstring)
  (query : jsstring) (names : list jsstring) : list jsstring :=
  let q := toLowerCase unicode (trim query) in
  if negb (truthy q) then names
  else List.filter (fun n => includes (toLowerCase unicode n) q) names.

(** The spec's words: [n] contains [q] case-insensitively when, both
    lower-cased, [q] is a contiguous run of [n]. *)
Definition contains_ci (unicode : jsstring -> jsstring) (n q : jsstring)
  : Prop :=
  exists pre suf,
    toLowerCase unicode n = (pre ++ toLowerCase unicode q ++ suf)%list.

(** How often a name occurs in a list. *)
Definition copies (n : jsstring) (names : list jsstring) : nat :=
  length (List.filter (fun x => bool_decide (x = n)) names).

End App.


(** ** [diagramToSvg.ts]: the export boundary

    [diagramToSvgString] takes [any].  A JavaScript value is modelled by what
    the function can observe of it: its type tag, its truthiness, the values
    of its properties (own or inherited, read without side effects: accessor
    properties and proxies are outside the model), whether a key is [in] it,
    and what happens when it is called.  A call may read and write mutable
    state, may return and may throw; a method is modelled already bound to
    the object it was read from. *)

Module Svg.

Section Boundary.

(** The mutable state that calls into the argument may read and write. *)
Variable World : Type.

Inductive value : Type :=
| VUndefined
| VNull
| VBool (b : bool)
| VNumber (nonzero : bool) (text : string)
    (* a number, by its truthiness and by the text [String(n)] gives *)
| VString (s : string)
| VSymbol (description : string)
| VBigInt (nonzero : bool) (text : string)
    (* a BigInt, by its truthiness and by the text [String(n)] gives *)
| VObject (get : string -> value) (has : string -> bool)
          (call : option (World -> outcome * World))
    (* [call] is [None] for an object that is not a function *)
with outcome : Type :=
| Return (v : value)
| Throws (e : value).

(** Errors raised by the engine itself; their wording is the engine's. *)
Inductive RuntimeError :=
| NotDefined (identifier : string)
| NotAFunction
| CannotReadProperty (key : string)
| CannotConvertToPrimitive
| CannotConvertSymbol.

Definition error_name (r : RuntimeError) : string :=
  match r with
  | NotDefined _ => "ReferenceError"
  | _ => "TypeError"
  end.

(** The host: the engine's wording of its errors and the global
    [XMLSerializer], when there is one, by what
    [new XMLSerializer().serializeToString(el)] does. *)
Record Host : Type := {
  wording : RuntimeError -> string;
  XMLSerializer : option (value -> World -> outcome * World)
}.

Variable host : Host.

(** Computations that thread the state and may throw any value. *)
Definition M (A : Type) : Type := World -> (A + value) * World.

Definition ret {A} (a : A) : M A := fun w => (inl a, w).

Definition throw {A} (e : value) : M A := fun w => (inr e, w).

Definition bind {A B} (m : M A) (k : A -> M B) : M B :=
  fun w =>
    match m w with
    | (inl a, w') => k a w'
    | (inr e, w') => (inr e, w')
    end.

Definition try_catch {A} (body : M A) (handler : value -> M A) : M A :=
  fun w =>
    match body w with
    | (inl a, w') => (inl a, w')
    | (inr e, w') => handler e w'
    end.

Local Notation "x <- m ;; k" := (bind m (fun x => k))
  (at level 100, m at next level, right associativity).

Definition typeof (v : value) : string :=
  match v with
  | VUndefined => "undefined"
  | VNull => "object"
  | VBool _ => "boolean"
  | VNumber _ _ => "number"
  | VString _ => "string"
  | VSymbol _ => "symbol"
  | VBigInt _ _ => "bigint"
  | VObject _ _ None => "object"
  | VObject _ _ (Some _) => "function"
  end.

(** ToBoolean *)
Definition truthy (v : value) : bool :=
  match v with
  | VUndefined | VNull => false
  | VBool b => b
  | VNumber nonzero _ => nonzero
  | VString s => Text.truthy s
  | VSymbol _ => true
  | VBigInt nonzero _ => nonzero
  | VObject _ _ _ => true
  end.

Definition nullish (v : value) : bool :=
  match v with
  | VUndefined | VNull => true
  | _ => false
  end.

Definition is_primitive (v : value) : bool :=
  match v with
  | VObject _ _ _ => false
  | _ => true
  end.

Definition is_symbol (v : value) : bool :=
  match v with
  | VSymbol _ => true
  | _ => false
  end.

(** The text [String(v)] gives for a primitive [v]; for a Symbol, its
    descriptive string. *)
Definition prim_text (v : value) : string :=
  match v with
  | VUndefined => "undefined"
  | VNull => "null"
  | VBool true => "true"
  | VBool false => "false"
  | VNumber _ text => text
  | VString s => s
  | VSymbol description => "Symbol(" ++ description ++ ")"
  | VBigInt _ text => text
  | VObject _ _ _ => EmptyString
  end.

(** A function object without properties of its own that returns [s]. *)
Definition function_returning (s : string) : value :=
  VObject (fun _ => VUndefined) (fun _ => false)
          (Some (fun w => (Return (VString s), w))).

(** The error object the engine throws: [message], [name] and the inherited
    [Error.prototype.toString]. *)
Definition error_object (r : RuntimeError) : value :=
  VObject
    (fun k =>
       if String.eqb k "message" then VString (wording host r)
       else if String.eqb k "name" then VString (error_name r)
       else if String.eqb k "toString" then
         function_returning (error_name r ++ ": " ++ wording host r)
       else VUndefined)
    (fun k => String.eqb k "message" || String.eqb k "name"
              || String.eqb k "toString")
    None.

(** [v.k] on a value that is neither [null] nor [undefined].  Of the
    prototypes of the primitive wrappers only [toString] is modelled. *)
Definition read (v : value) (k : string) : value :=
  match v with
  | VObject get _ _ => get k
  | VUndefined | VNull => VUndefined
  | _ => if String.eqb k "toString" then function_returning (prim_text v)
         else VUndefined
  end.

(** [v.k] *)
Definition Get (v : value) (k : string) : M value :=
  if nullish v then throw (error_object (CannotReadProperty k))
  else ret (read v k).

(** [k in v], for an object [v] *)
Definition HasProperty (v : value) (k : string) : bool :=
  match v with
  | VObject _ has _ => has k
  | _ => false
  end.

(** [f()] *)
Definition Call (f : value) : M value :=
  match f with
  | VObject _ _ (Some body) =>
      fun w =>
        match body w with
        | (Return v, w') => (inl v, w')
        | (Throws e, w') => (inr e, w')
        end
  | _ => throw (error_object NotAFunction)
  end.

(** OrdinaryToPrimitive with hint string: [toString], then [valueOf]. *)
Definition try_method (o : value) (k : string) (otherwise : M value) : M value :=
  method <- Get o k ;;
  if String.eqb (typeof method) "function" then
    r <- Call method ;;
    if is_primitive r then ret r else otherwise
  else otherwise.

Definition ToPrimitive (o : value) : M value :=
  try_method o "toString"
    (try_method o "valueOf"
       (throw (error_object CannotConvertToPrimitive))).

(** The abstract operation ToString, which a template literal applies to
    each substitution: a Symbol cannot be converted. *)
Definition ToString (v : value) : M string :=
  p <- (if is_primitive v then ret v else ToPrimitive v) ;;
  if is_symbol p then throw (error_object CannotConvertSymbol)
  else ret (prim_text p).

(** [String(v)]: a Symbol gives its descriptive string, any other value goes
    through ToString. *)
Definition String_ (v : value) : M string :=
  if is_symbol v then ret (prim_text v) else ToString v.

(** [new XMLSerializer().serializeToString(el)] *)
Definition serializeToString (el : value) : M value :=
  match XMLSerializer host with
  | None => throw (error_object (NotDefined "XMLSerializer"))
  | Some serialize =>
      fun w =>
        match serialize el w with
        | (Return v, w') => (inl v, w')
        | (Throws e, w') => (inr e, w')
        end
  end.

(** The body of the [try] block. *)
Definition exportSvg (diagram : value) : M value :=
  toSVG <- Get diagram "toSVG" ;;
  if String.eqb (typeof toSVG) "function" then
    svg <- (toSVG <- Get diagram "toSVG" ;; Call toSVG) ;;
    if String.eqb (typeof svg) "string" then ret svg
    else if truthy svg && String.eqb (typeof svg) "object"
            && HasProperty svg "nodeType" then
      let el := svg in
      outerHTML <- Get el "outerHTML" ;;
      if nullish outerHTML then serializeToString el else ret outerHTML
    else ret (VString "<!-- toSVG() returned unexpected value -->")
  else
    toString <- Get diagram "toString" ;;
    if String.eqb (typeof toString) "function" then
      r <- (toString <- Get diagram "toString" ;; Call toString) ;;
      s <- String_ r ;;
      ret (VString s)
    else ret (VString "<!-- Diagram does not support toSVG/toString -->").

(** The [catch] block: [`<!-- Render error: ${e?.message ?? String(e)} -->`] *)
Definition renderError (e : value) : M value :=
  message <- (if nullish e then ret VUndefined else Get e "message") ;;
  shown <- (if nullish message then s <- String_ e ;; ret (VString s)
            else ret message) ;;
  s <- ToString shown ;;
  ret (VString ("<!-- Render error: " ++ s ++ " -->")).

Definition diagramToSvgString (diagram : value) : M value :=
  if negb (truthy diagram) then ret (VString "<!-- empty diagram -->")
  else try_catch (exportSvg diagram) renderError.

(** What the code takes for a DOM node. *)
Definition looks_like_node (svg : value) : bool :=
  truthy svg && String.eqb (typeof svg) "object" && HasProperty svg "nodeType".

(** A value none of whose calls, however deep, reads or writes the state:
    the "fixed diagram value" of the determinism property. *)
Inductive stateless : value -> Prop :=
| stateless_primitive v :
    is_primitive v = true -> stateless v
| stateless_object get has :
    (forall k, stateless (get k)) ->
    stateless (VObject get has None)
| stateless_function get has body r :
    (forall k, stateless (get k)) ->
    (forall w, body w = (r, w)) ->
    stateless_outcome r ->
    stateless (VObject get has (Some body))
with stateless_outcome : outcome -> Prop :=
| stateless_return v : stateless v -> stateless_outcome (Return v)
| stateless_throws e : stateless e -> stateless_outcome (Throws e).

Definition stateless_serializer : Prop :=
  match XMLSerializer host with
  | None => True
  | Some serialize =>
      forall el, stateless el ->
        exists r, (forall w, serialize el w = (r, w)) /\ stateless_outcome r
  end.

(** A computation that gives the same result in every state and leaves the
    state as it found it. *)
Definition steady {A} (P : A -> Prop) (m : M A) : Prop :=
  exists r, (forall w, m w = (r, w)) /\
            match r with inl a => P a | inr e => stateless e end.

(** An exception value whose text the [catch] block can always produce: a
    primitive, or an object whose [message] is a primitive other than
    [null], [undefined] and a Symbol (every [Error] instance is one). *)
Definition conventional_error (e : value) : bool :=
  is_primitive e ||
  (is_primitive (read e "message") && negb (nullish (read e "message"))
   && negb (is_symbol (read e "message"))).

(** Text of a conventional error in the marker. *)
Definition error_text (e : value) : string :=
  if is_primitive e then prim_text e else prim_text (read e "message").

End Boundary.

Arguments Host World : clear implicits.
Arguments wording {World} _ _.
Arguments XMLSerializer {World} _.
Arguments typeof {World} v.
Arguments truthy {World} v.
Arguments nullish {World} v.
Arguments is_primitive {World} v.
Arguments is_symbol {World} v.
Arguments prim_text {World} v.
Arguments function_returning {World} s.
Arguments error_object {World} host r.
Arguments read {World} v k.
Arguments Get {World} host v k _.
Arguments HasProperty {World} v k.
Arguments Call {World} host f _.
Arguments try_method {World} host o k otherwise _.
Arguments ToPrimitive {World} host o _.
Arguments ToString {World} host v _.
Arguments String_ {World} host v _.
Arguments serializeToString {World} host el _.
Arguments exportSvg {World} host diagram _.
Arguments renderError {World} host e _.
Arguments diagramToSvgString {World} host diagram _.
Arguments looks_like_node {World} svg.
Arguments stateless {World} _.
Arguments stateless_outcome {World} _.
Arguments stateless_serializer {World} host.
Arguments steady {World A} P m.
Arguments conventional_error {World} e.
Arguments error_text {World} e.
Arguments ret {World A} a _.
Arguments throw {World A} e _.
Arguments bind {World A B} m k _.
Arguments try_catch {World A} body handler _.
Arguments VUndefined {World}.
Arguments VNull {World}.
Arguments VBool {World} b.
Arguments VNumber {World} nonzero text.
Arguments VString {World} s.
Arguments VSymbol {World} description.
Arguments VBigInt {World} nonzero text.
Arguments VObject {World} get has call.
Arguments Return {World} v.
Arguments Throws {World} e.

(** *** Sample arguments *)

(** An object that is not a function, by the list of its properties. *)
Definition object_of {World} (props : list (string * value World)) : value World :=
  VObject
    (fun k =>
       match find (fun p => String.eqb (fst p) k) props with
       | Some p => snd p
       | None => VUndefined
       end)
    (fun k => existsb (fun p => String.eqb (fst p) k) props)
    None.

(** A function without properties, by its body. *)
Definition method {World} (body : World -> outcome World * World) : value World :=
  VObject (fun _ => VUndefined) (fun _ => false) (Some body).

Definition returning {World} (v : value World) : value World :=
  method (fun w => (Return v, w)).

Definition throwing {World} (e : value World) : value World :=
  method (fun w => (Throws e, w)).

(** A host without [XMLSerializer], with the wording of V8. *)
Definition node_host (World : Type) : Host World := {|
  wording r :=
    match r with
    | NotDefined identifier => identifier ++ " is not defined"
    | NotAFunction => "is not a function"
    | CannotReadProperty key =>
        "Cannot read properties of undefined (reading '" ++ key ++ "')"
    | CannotConvertToPrimitive => "Cannot convert object to primitive value"
    | CannotConvertSymbol => "Cannot convert a Symbol value to a string"
    end;
  XMLSerializer := None
|}.

(** A diagram the library has rendered: [toSVG()] returns markup. *)
Definition rendered_diagram {World} : value World :=
  object_of [
    ("toSVG", returning (VString "<svg class=railroad-diagram></svg>"));
    ("toString", returning (VString "[object Object]"))
  ].

(** [toSVG()] returns a number; [toString()] would return text. *)
Definition odd_diagram {World} : value World :=
  object_of [
    ("toSVG", returning (VNumber true "42"));
    ("toString", returning (VString "Diagram"))
  ].

(** [toSVG()] throws [Object.create(null)]. *)
Definition bare_thrower {World} : value World :=
  object_of [ ("toSVG", throwing (object_of [])) ].

(** [toSVG()] throws [{ message: Symbol("why") }]. *)
Definition symbol_thrower {World} : value World :=
  object_of [ ("toSVG", throwing (object_of [("message", VSymbol "why")])) ].

(** [toSVG()] numbers its renderings with a counter kept in the state. *)
Definition counting_diagram : value nat :=
  object_of [
    ("toSVG",
     method (fun n =>
       (Return (VString (if Nat.even n then "<svg id=even></svg>"
                         else "<svg id=odd></svg>")),
        S n)))
  ].

End Svg.


(** ** [Map]: insertion-ordered, one entry per key *)

Module JsMap.

Definition t (V : Type) : Type := list (string * V).

Definition empty {V} : t V := [].

(** [m.set(k, v)]: a known key keeps its place and takes the new value, a
    new key goes last. *)
Fixpoint set {V} (k : string) (v : V) (m : t V) : t V :=
  match m with
  | [] => [(k, v)]
  | (k', v') :: m' =>
      if String.eqb k' k then (k', v) :: m' else (k', v') :: set k v m'
  end.

(** [m.get(k)], [None] standing for [undefined]. *)
Fixpoint get {V} (k : string) (m : t V) : option V :=
  match m with
  | [] => None
  | (k', v) :: m' => if String.eqb k' k then Some v else get k m'
  end.

(** [m.keys()] *)
Definition keys {V} (m : t V) : list string := map fst m.

(** A run of [set] statements, first to last. *)
Definition sets {V} (entries : list (string * V)) (m : t V) : t V :=
  fold_left (fun m e => set (fst e) (snd e) m) entries m.

End JsMap.

(** ** The railroad-diagram primitives

    [@prantlf/railroad-diagrams] is an external library.  Its objects are
    modelled as cells of a heap, one per constructed object, holding the
    primitive that built the object and the arguments it was given; an
    address stands for the identity of the object.  Which arguments a
    constructor accepts, how the library was built and how the engine words
    the error for a class called without [new] are parameters. *)

Module Railroad.
Import Text.

Set Warnings "-register-all".

(** The exports [RR.Diagram], [RR.Sequence], ... of the library. *)
Inductive Primitive : Type :=
| RR_Diagram | RR_Sequence | RR_Choice | RR_Optional | RR_OneOrMore
| RR_ZeroOrMore | RR_Terminal | RR_NonTerminal | RR_Stack | RR_Comment.

Definition primitive_name (p : Primitive) : string :=
  match p with
  | RR_Diagram => "Diagram"
  | RR_Sequence => "Sequence"
  | RR_Choice => "Choice"
  | RR_Optional => "Optional"
  | RR_OneOrMore => "OneOrMore"
  | RR_ZeroOrMore => "ZeroOrMore"
  | RR_Terminal => "Terminal"
  | RR_NonTerminal => "NonTerminal"
  | RR_Stack => "Stack"
  | RR_Comment => "Comment"
  end.

Definition addr : Type := nat.

(** What the grammar passes to a primitive: a number, a string or an object
    built earlier. *)
Inductive arg : Type :=
| ANumber (n : Z)
| AString (s : string)
| AObject (a : addr).

Inductive cell : Type :=
| Cell (class : Primitive) (args : list arg).

Definition heap : Type := list cell.

Inductive exn : Type :=
| TypeError (message : string)
| RangeError (message : string).

(** Computations on the heap that may throw. *)
Definition H (A : Type) : Type := heap -> (A + exn) * heap.

Definition ret {A} (a : A) : H A := fun h => (inl a, h).

Definition throw {A} (e : exn) : H A := fun h => (inr e, h).

Definition bind {A B} (m : H A) (k : A -> H B) : H B :=
  fun h =>
    match m h with
    | (inl a, h') => k a h'
    | (inr e, h') => (inr e, h')
    end.

Definition try_catch {A} (body : H A) (handler : exn -> H A) : H A :=
  fun h =>
    match body h with
    | (inl a, h') => (inl a, h')
    | (inr e, h') => handler e h'
    end.

Local Notation "x <- m ;; k" := (bind m (fun x => k))
  (at level 100, m at next level, right associativity).

(** The library has shipped in builds where the primitives are factory
    functions and in builds where they are ES classes. *)
Inductive LibraryBuild : Type := FactoryFunctions | ClassConstructors.

Definition is_object (x : arg) : bool :=
  match x with AObject _ => true | _ => false end.

(** What the grammar depends on without holding it: the build of the
    library, the message of the [TypeError] the engine throws when the class
    [Ctor] is called without [new] (the wording is the engine's), and the
    verdict of a constructor on its arguments ([None]: accepted). *)
Record Library : Type := {
  build : LibraryBuild;
  class_call_message : Primitive -> string;
  check_arguments : Primitive -> list arg -> option exn
}.

(** Modelled from the spec: running a constructor of the library checks the
    arguments and, when they pass, makes one new object and nothing else
    (section 4.1: constructing a node has no side effects). *)
Definition run_constructor (lib : Library) (p : Primitive) (args : list arg)
  : H addr :=
  match check_arguments lib p args with
  | Some e => throw e
  | None => fun h => (inl (length h), (h ++ [Cell p args])%list)
  end.

(** The tree of wrapped-primitive calls a factory body spells out:
    [Diagram a] is the call [Diagram(...a)] of the wrapper
    [const Diagram = (...a) => callOrNew(RR.Diagram, ...a)], and so on for
    the other primitives; [construct] below evaluates such a tree. *)
Inductive DiagramNode : Type :=
| Diagram (a : list DiagramNode)
| Sequence (a : list DiagramNode)
| Choice (normal : Z) (a : list DiagramNode)
| Optional (item : DiagramNode)
| OneOrMore (item : DiagramNode)
| ZeroOrMore (item : DiagramNode)
| Terminal (text : string)
| NonTerminal (text : string)
| Stack (a : list DiagramNode)
| Comment (text : string).

Section Wrappers.

Variable lib : Library.

(** [Ctor(...args)]: a class constructor refuses to be called without
    [new], before any of its code has run. *)
Definition call_plain (Ctor : Primitive) (args : list arg) : H addr :=
  match build lib with
  | FactoryFunctions => run_constructor lib Ctor args
  | ClassConstructors => throw (TypeError (class_call_message lib Ctor))
  end.

(** [new Ctor(...args)]: the constructor is run; so is, under [new], a
    factory function. *)
Definition call_new (Ctor : Primitive) (args : list arg) : H addr :=
  run_constructor lib Ctor args.

(** [callOrNew] of [cppGrammar.ts] *)
Definition callOrNew (Ctor : Primitive) (args : list arg) : H addr :=
  try_catch (call_plain Ctor args)
    (fun e =>
       match e with
       | TypeError message =>
           if includes message "without 'new'" then call_new Ctor args
           else throw e
       | _ => throw e
       end).

(** Evaluation of such a tree of calls: the arguments first, left to right,
    then the wrapped primitive. *)
Fixpoint construct (t : DiagramNode) : H addr :=
  let construct_all :=
    fix construct_all (ts : list DiagramNode) : H (list arg) :=
      match ts with
      | [] => ret []
      | t :: ts =>
          a <- construct t ;;
          rest <- construct_all ts ;;
          ret (AObject a :: rest)
      end in
  match t with
  | Diagram a => args <- construct_all a ;; callOrNew RR_Diagram args
  | Sequence a => args <- construct_all a ;; callOrNew RR_Sequence args
  | Choice normal a =>
      args <- construct_all a ;; callOrNew RR_Choice (ANumber normal :: args)
  | Optional item => a <- construct item ;; callOrNew RR_Optional [AObject a]
  | OneOrMore item => a <- construct item ;; callOrNew RR_OneOrMore [AObject a]
  | ZeroOrMore item => a <- construct item ;; callOrNew RR_ZeroOrMore [AObject a]
  | Terminal text => callOrNew RR_Terminal [AString text]
  | NonTerminal text => callOrNew RR_NonTerminal [AString text]
  | Stack a => args <- construct_all a ;; callOrNew RR_Stack args
  | Comment text => callOrNew RR_Comment [AString text]
  end.

Fixpoint construct_all (ts : list DiagramNode) : H (list arg) :=
  match ts with
  | [] => ret []
  | t :: ts =>
      a <- construct t ;;
      rest <- construct_all ts ;;
      ret (AObject a :: rest)
  end.

(** Calling a factory: its body is evaluated afresh. *)
Definition invoke (factory : unit -> DiagramNode) : H addr :=
  construct (factory tt).

End Wrappers.

Fixpoint all_some {A} (l : list (option A)) : option (list A) :=
  match l with
  | [] => Some []
  | Some x :: l' =>
      match all_some l' with
      | Some xs => Some (x :: xs)
      | None => None
      end
  | None :: _ => None
  end.

(** The tree rooted at an object, read back from the heap. *)
Fixpoint reify (fuel : nat) (h : heap) (a : addr) : option DiagramNode :=
  match fuel with
  | O => None
  | S fuel =>
      let child (x : arg) :=
        match x with
        | AObject b => reify fuel h b
        | _ => None
        end in
      let children (xs : list arg) := all_some (map child xs) in
      match h !! a with
      | Some (Cell RR_Diagram items) => option_map Diagram (children items)
      | Some (Cell RR_Sequence items) => option_map Sequence (children items)
      | Some (Cell RR_Choice (ANumber normal :: items)) =>
          option_map (Choice normal) (children items)
      | Some (Cell RR_Optional [item]) => option_map Optional (child item)
      | Some (Cell RR_OneOrMore [item]) => option_map OneOrMore (child item)
      | Some (Cell RR_ZeroOrMore [item]) => option_map ZeroOrMore (child item)
      | Some (Cell RR_Terminal [AString text]) => Some (Terminal text)
      | Some (Cell RR_NonTerminal [AString text]) => Some (NonTerminal text)
      | Some (Cell RR_Stack items) => option_map Stack (children items)
      | Some (Cell RR_Comment [AString text]) => Some (Comment text)
      | _ => None
      end
  end.

(** Every object of a heap has a smaller address than the heap is long, and
    the arguments of an object are older than the object. *)
Definition read_tree (h : heap) (a : addr) : option DiagramNode :=
  reify (length h) h a.

(** Number of calls in a tree, which is the number of objects it builds. *)
Fixpoint size (t : DiagramNode) : nat :=
  match t with
  | Diagram a | Sequence a | Stack a | Choice _ a =>
      S (list_sum (map size a))
  | Optional item | OneOrMore item | ZeroOrMore item => S (size item)
  | Terminal _ | NonTerminal _ | Comment _ => 1
  end.

(** [built h a t]: in [h] and in every heap that extends it, the object at
    [a] is the root of the tree [t]. *)
Definition built (h : heap) (a : addr) (t : DiagramNode) : Prop :=
  forall more fuel, size t <= fuel -> reify fuel (h ++ more)%list a = Some t.

(** Whether [callOrNew] gets to run the constructor [p] of a library: a
    factory function is simply called; a class is reached only through the
    retry, that is when the engine's message matches [/without 'new'/]. *)
Definition callable (lib : Library) (p : Primitive) : bool :=
  match build lib with
  | FactoryFunctions => true
  | ClassConstructors => includes (class_call_message lib p) "without 'new'"
  end.

(** The calls the library documents: a non-empty list of nodes for
    [Diagram], [Sequence] and [Stack]; an index and a list of nodes that has
    an item at that index for [Choice]; one node for [Optional],
    [OneOrMore] and [ZeroOrMore]; one string for [Terminal], [NonTerminal]
    and [Comment]. *)
Definition ordinary (p : Primitive) (args : list arg) : bool :=
  match p, args with
  | RR_Choice, ANumber normal :: items =>
      forallb is_object items
      && (0 <=? normal)%Z && (normal <? Z.of_nat (length items))%Z
  | RR_Choice, _ => false
  | (RR_Diagram | RR_Sequence | RR_Stack), items =>
      match items with [] => false | _ => forallb is_object items end
  | (RR_Optional | RR_OneOrMore | RR_ZeroOrMore), [AObject _] => true
  | (RR_Terminal | RR_NonTerminal | RR_Comment), [AString _] => true
  | _, _ => false
  end.

(** A library the grammar can use: [callOrNew] reaches every constructor,
    and the constructors accept the documented calls. *)
Definition usable (lib : Library) : Prop :=
  (forall p, callable lib p = true) /\
  (forall p args, ordinary p args = true -> check_arguments lib p args = None).

(** The trees all of whose calls are documented ones. *)
Fixpoint valid (t : DiagramNode) : bool :=
  match t with
  | Diagram a | Sequence a | Stack a =>
      match a with [] => false | _ => forallb valid a end
  | Choice normal a =>
      (0 <=? normal)%Z && (normal <? Z.of_nat (length a))%Z && forallb valid a
  | Optional item | OneOrMore item | ZeroOrMore item => valid item
  | Terminal _ | NonTerminal _ | Comment _ => true
  end.

(** What a call of [construct] that returns has done, started from [h]: it
    has added [size t] objects after those of [h], and the object it
    returns is new and is the root of [t]. *)
Definition construct_spec (lib : Library) (t : DiagramNode) : Prop :=
  forall h a h',
    construct lib t h = (inl a, h') ->
    exists cells,
      h' = (h ++ cells)%list /\
      length cells = size t /\
      length h <= a < length h' /\
      built h' a t.

Definition construct_all_spec (lib : Library) (ts : list DiagramNode)
  : Prop :=
  forall h args h',
    construct_all lib ts h = (inl args, h') ->
    exists addrs cells,
      args = map AObject addrs /\
      h' = (h ++ cells)%list /\
      length cells = list_sum (map size ts) /\
      Forall2 (built h') addrs ts.

(** A tree of documented calls is built from every heap. *)
Definition construct_returns (lib : Library) (t : DiagramNode) : Prop :=
  valid t = true -> forall h, exists a h', construct lib t h = (inl a, h').

(** *** Sample libraries *)

(** A library that accepts the documented calls and no other. *)
Definition documented_calls (p : Primitive) (args : list arg) : option exn :=
  if ordinary p args then None
  else Some (TypeError (primitive_name p ++ "(): malformed arguments")).

(** The wording of V8, of SpiderMonkey and of JavaScriptCore. *)
Definition v8_message (p : Primitive) : string :=
  "Class constructor " ++ primitive_name p ++ " cannot be invoked without 'new'".

Definition spidermonkey_message (p : Primitive) : string :=
  "class constructors must be invoked with 'new'".

Definition javascriptcore_message (p : Primitive) : string :=
  "Cannot call a class constructor without |new|".

Definition library (b : LibraryBuild) (message : Primitive -> string)
  : Library :=
  {| build := b; class_call_message := message;
     check_arguments := documented_calls |}.

(** The library built as classes, on SpiderMonkey. *)
Definition classes_on_spidermonkey : Library :=
  library ClassConstructors spidermonkey_message.

(** The shape of a tree: variant kinds and child counts, labels and default
    indices forgotten. *)
Inductive Shape : Type :=
| ShapeOf (kind : Primitive) (children : list Shape).

Fixpoint shape (t : DiagramNode) : Shape :=
  match t with
  | Diagram a => ShapeOf RR_Diagram (map shape a)
  | Sequence a => ShapeOf RR_Sequence (map shape a)
  | Choice _ a => ShapeOf RR_Choice (map shape a)
  | Optional item => ShapeOf RR_Optional [shape item]
  | OneOrMore item => ShapeOf RR_OneOrMore [shape item]
  | ZeroOrMore item => ShapeOf RR_ZeroOrMore [shape item]
  | Terminal _ => ShapeOf RR_Terminal []
  | NonTerminal _ => ShapeOf RR_NonTerminal []
  | Stack a => ShapeOf RR_Stack (map shape a)
  | Comment _ => ShapeOf RR_Comment []
  end.

(** Induction on a tree of calls, with the hypothesis on every argument. *)
Section Induction.

Variable P : DiagramNode -> Prop.
Hypothesis HDiagram : forall a, Forall P a -> P (Diagram a).
Hypothesis HSequence : forall a, Forall P a -> P (Sequence a).
Hypothesis HChoice : forall n a, Forall P a -> P (Choice n a).
Hypothesis HOptional : forall t, P t -> P (Optional t).
Hypothesis HOneOrMore : forall t, P t -> P (OneOrMore t).
Hypothesis HZeroOrMore : forall t, P t -> P (ZeroOrMore t).
Hypothesis HTerminal : forall s, P (Terminal s).
Hypothesis HNonTerminal : forall s, P (NonTerminal s).
Hypothesis HStack : forall a, Forall P a -> P (Stack a).
Hypothesis HComment : forall s, P (Comment s).

Fixpoint DiagramNode_nested_ind (t : DiagramNode) : P t :=
  let all :=
    fix all (ts : list DiagramNode) : Forall P ts :=
      match ts with
      | [] => @List.Forall_nil _ P
      | t :: ts => @List.Forall_cons _ P t ts (DiagramNode_nested_ind t) (all ts)
      end in
  match t with
  | Diagram a => HDiagram a (all a)
  | Sequence a => HSequence a (all a)
  | Choice n a => HChoice n a (all a)
  | Optional t => HOptional t (DiagramNode_nested_ind t)
  | OneOrMore t => HOneOrMore t (DiagramNode_nested_ind t)
  | ZeroOrMore t => HZeroOrMore t (DiagramNode_nested_ind t)
  | Terminal s => HTerminal s
  | NonTerminal s => HNonTerminal s
  | Stack a => HStack a (all a)
  | Comment s => HComment s
  end.

End Induction.

End Railroad.


(** ** [cpp-syntax-diagrams.ts]: the first version of the catalog
    (src/unnamed/part_001) *)

Module CppSyntaxDiagrams.
Import Text Railroad.

Set Warnings "-register-all".

Definition T (s : string) : DiagramNode := Terminal s.
Definition NT (s : string) : DiagramNode := NonTerminal s.
Definition K (s : string) : DiagramNode := Terminal s. (* Keyword *)

Definition RuleName : Type := string.

(** [const rules = new Map<string, () => any>()] after the [rules.set]
    statements of the module have run, in source order. *)
Definition rules : JsMap.t (unit -> DiagramNode) :=
  JsMap.sets [

  (* ===== A.2 Keywords [gram.key] ===== *)

  ("typedef-name", fun _ =>
    Diagram [
      Choice 0 [
        NT "identifier";
        NT "simple-template-id"
      ]
    ]);

  ("namespace-name", fun _ =>
    Diagram [
      Choice 0 [
        NT "identifier";
        NT "namespace-alias"
      ]
    ]);

  ("namespace-alias", fun _ =>
    Diagram [NT "identifier"]);

  ("class-name", fun _ =>
    Diagram [
      Choice 0 [
        NT "identifier";
        NT "simple-template-id"
      ]
    ]);

  ("enum-name", fun _ =>
    Diagram [NT "identifier"]);

  ("template-name", fun _ =>
    Diagram [NT "identifier"]);


  (* ===== A.3 Lexical conventions [gram.lex] ===== *)

  ("n-char", fun _ =>
    Diagram [Comment "any char except } or new-line"]);

  ("n-char-sequence", fun _ =>
    Diagram [OneOrMore (NT "n-char")]);

  ("named-universal-character", fun _ =>
    Diagram [
      Sequence [T "\N{"; NT "n-char-sequence"; T "}"]
    ]);

  ("hex-quad", fun _ =>
    Diagram [
      Sequence [
        NT "hexadecimal-digit";
        NT "hexadecimal-digit";
        NT "hexadecimal-digit";
        NT "hexadecimal-digit"
      ]
    ]);

  ("simple-hexadecimal-digit-sequence", fun _ =>
    Diagram [OneOrMore (NT "hexadecimal-digit")]);

  ("universal-character-name", fun _ =>
    Diagram [
      Choice 0 [
        Sequence [T "\u"; NT "hex-quad"];
        Sequence [T "\U"; NT "hex-quad"; NT "hex-quad"];
        Sequence [T "\u{"; NT "simple-hexadecimal-digit-sequence"; T "}"];
        NT "named-universal-character"
      ]
    ]);

  ("preprocessing-token", fun _ =>
    Diagram [
      Choice 0 [
        NT "header-name";
        NT "import-keyword";
        NT "module-keyword";
        NT "export-keyword";
        NT "identifier";
        NT "pp-number";
        NT "character-literal";
        NT "user-defined-character-literal";
        NT "string-literal";
        NT "user-defined-string-literal";
        NT "preprocessing-op-or-punc";
        Comment "non-whitespace char"
      ]
    ]);

  ("token", fun _ =>
    Diagram [
      Choice 0 [
        NT "identifier";
        NT "keyword";
        NT "literal";
        NT "operator-or-punctuator"
      ]
    ]);

  ("header-name", fun _ =>
    Diagram [
      Choice 0 [
        Sequence [T "<"; NT "h-char-sequence"; T ">"];
        Sequence [T dq; NT "q-char-sequence"; T dq]
      ]
    ]);

  ("h-char-sequence", fun _ =>
    Diagram [OneOrMore (NT "h-char")]);

  ("h-char", fun _ =>
    Diagram [Comment "any char except new-line or >"]);

  ("q-char-sequence", fun _ =>
    Diagram [OneOrMore (NT "q-char")]);

  ("q-char", fun _ =>
    Diagram [Comment ("any char except new-line or " ++ dq)]);

  ("pp-number", fun _ =>
    Diagram [
      Sequence [
        Choice 0 [ NT "digit"; Sequence [T "."; NT "digit"]];
        ZeroOrMore (
          Choice 0 [
            NT "identifier-continue";
            Sequence [T "'"; NT "digit"];
            Sequence [T "'"; NT "nondigit"];
            Sequence [Choice 0 [ T "e"; T "E"; T "p"; T "P"]; NT "sign"];
            T "."
          ]
        )
      ]
    ]);

  ("identifier", fun _ =>
    Diagram [
      Sequence [
        NT "identifier-start";
        ZeroOrMore (NT "identifier-continue")
      ]
    ]);

  ("identifier-start", fun _ =>
    Diagram [
      Choice 0 [
        NT "nondigit";
        Comment "Unicode XID_Start"
      ]
    ]);

  ("identifier-continue", fun _ =>
    Diagram [
      Choice 0 [
        NT "digit";
        NT "nondigit";
        Comment "Unicode XID_Continue"
      ]
    ]);

  ("nondigit", fun _ =>
    Diagram [
      Choice 0 [
        T "a-z"; T "A-Z"; T "_"
      ]
    ]);

  ("digit", fun _ =>
    Diagram [
      Choice 0 [ T "0"; T "1"; T "2"; T "3"; T "4"; T "5"; T "6"; T "7"; T "8"; T "9"]
    ]);

  ("keyword", fun _ =>
    Diagram [
      Choice 0 [
        Comment "any identifier in Table 5";
        NT "import-keyword";
        NT "module-keyword";
        NT "export-keyword"
      ]
    ]);

  ("preprocessing-op-or-punc", fun _ =>
    Diagram [
      Choice 0 [
        NT "preprocessing-operator";
        NT "operator-or-punctuator"
      ]
    ]);

  ("preprocessing-operator", fun _ =>
    Diagram [
      Choice 0 [ T "#"; T "##"; T "%:"; T "%:%:"]
    ]);

  ("operator-or-punctuator", fun _ =>
    Diagram [
      Choice 0 [
        T "{"; T "}"; T "["; T "]"; T "("; T ")";
        T "<:"; T ":>"; T "<%"; T "%>"; T ";"; T ":"; T "...";
        T "?"; T "::"; T "."; T ".*"; T "->"; T "->*"; T "~";
        T "!"; T "+"; T "-"; T "*"; T "/"; T "%"; T "^"; T "&"; T "|";
        T "="; T "+="; T "-="; T "*="; T "/="; T "%="; T "^="; T "&="; T "|=";
        T "=="; T "!="; T "<"; T ">"; T "<="; T ">="; T "<=>"; T "&&"; T "||";
        T "<<"; T ">>"; T "<<="; T ">>="; T "++"; T "--"; T ",";
        K "and"; K "or"; K "xor"; K "not"; K "bitand"; K "bitor"; K "compl";
        K "and_eq"; K "or_eq"; K "xor_eq"; K "not_eq"
      ]
    ]);

  ("literal", fun _ =>
    Diagram [
      Choice 0 [
        NT "integer-literal";
        NT "character-literal";
        NT "floating-point-literal";
        NT "string-literal";
        NT "boolean-literal";
        NT "pointer-literal";
        NT "user-defined-literal"
      ]
    ]);

  ("integer-literal", fun _ =>
    Diagram [
      Sequence [
        Choice 0 [
          NT "binary-literal";
          NT "octal-literal";
          NT "decimal-literal";
          NT "hexadecimal-literal"
        ];
        Optional (NT "integer-suffix")
      ]
    ]);

  ("binary-literal", fun _ =>
    Diagram [
      Sequence [
        Choice 0 [ T "0b"; T "0B"];
        NT "binary-digit";
        ZeroOrMore (Sequence [Optional (T "'"); NT "binary-digit"])
      ]
    ]);

  ("octal-literal", fun _ =>
    Diagram [
      Choice 0 [
        T "0";
        Sequence [T "0"; OneOrMore (Sequence [Optional (T "'"); NT "octal-digit"])]
      ]
    ]);

  ("decimal-literal", fun _ =>
    Diagram [
      Sequence [
        NT "nonzero-digit";
        ZeroOrMore (Sequence [Optional (T "'"); NT "digit"])
      ]
    ]);

  ("hexadecimal-literal", fun _ =>
    Diagram [
      Sequence [NT "hexadecimal-prefix"; NT "hexadecimal-digit-sequence"]
    ]);

  ("binary-digit", fun _ =>
    Diagram [Choice 0 [ T "0"; T "1"]]);

  ("octal-digit", fun _ =>
    Diagram [Choice 0 [ T "0"; T "1"; T "2"; T "3"; T "4"; T "5"; T "6"; T "7"]]);

  ("nonzero-digit", fun _ =>
    Diagram [Choice 0 [ T "1"; T "2"; T "3"; T "4"; T "5"; T "6"; T "7"; T "8"; T "9"]]);

  ("hexadecimal-prefix", fun _ =>
    Diagram [Choice 0 [ T "0x"; T "0X"]]);

  ("hexadecimal-digit-sequence", fun _ =>
    Diagram [
      Sequence [
        NT "hexadecimal-digit";
        ZeroOrMore (Sequence [Optional (T "'"); NT "hexadecimal-digit"])
      ]
    ]);

  ("hexadecimal-digit", fun _ =>
    Diagram [
      Choice 0 [
        T "0"; T "1"; T "2"; T "3"; T "4"; T "5"; T "6"; T "7"; T "8"; T "9";
        T "a"; T "b"; T "c"; T "d"; T "e"; T "f";
        T "A"; T "B"; T "C"; T "D"; T "E"; T "F"
      ]
    ]);

  ("integer-suffix", fun _ =>
    Diagram [
      Choice 0 [
        Sequence [NT "unsigned-suffix"; Optional (Choice 0 [ NT "long-suffix"; NT "long-long-suffix"; NT "size-suffix"])];
        Sequence [NT "long-suffix"; Optional (NT "unsigned-suffix")];
        Sequence [NT "long-long-suffix"; Optional (NT "unsigned-suffix")];
        Sequence [NT "size-suffix"; Optional (NT "unsigned-suffix")]
      ]
    ]);

  ("unsigned-suffix", fun _ =>
    Diagram [Choice 0 [ T "u"; T "U"]]);

  ("long-suffix", fun _ =>
    Diagram [Choice 0 [ T "l"; T "L"]]);

  ("long-long-suffix", fun _ =>
    Diagram [Choice 0 [ T "ll"; T "LL"]]);

  ("size-suffix", fun _ =>
    Diagram [Choice 0 [ T "z"; T "Z"]]);

  ("character-literal", fun _ =>
    Diagram [
      Sequence [
        Optional (NT "encoding-prefix");
        T "'";
        NT "c-char-sequence";
        T "'"
      ]
    ]);

  ("encoding-prefix", fun _ =>
    Diagram [Choice 0 [ T "u8"; T "u"; T "U"; T "L"]]);

  ("c-char-sequence", fun _ =>
    Diagram [OneOrMore (NT "c-char")]);

  ("c-char", fun _ =>
    Diagram [
      Choice 0 [
        NT "basic-c-char";
        NT "escape-sequence";
        NT "universal-character-name"
      ]
    ]);

  ("basic-c-char", fun _ =>
    Diagram [Comment "any char except ', \, or new-line"]);

  ("escape-sequence", fun _ =>
    Diagram [
      Choice 0 [
        NT "simple-escape-sequence";
        NT "numeric-escape-sequence";
        NT "conditional-escape-sequence"
      ]
    ]);

  ("simple-escape-sequence", fun _ =>
    Diagram [
      Sequence [T bslash; NT "simple-escape-sequence-char"]
    ]);

  ("simple-escape-sequence-char", fun _ =>
    Diagram [
      Choice 0 [ T "'"; T dq; T "?"; T bslash; T "a"; T "b"; T "f"; T "n"; T "r"; T "t"; T "v"]
    ]);

  ("numeric-escape-sequence", fun _ =>
    Diagram [
      Choice 0 [
        NT "octal-escape-sequence";
        NT "hexadecimal-escape-sequence"
      ]
    ]);

  ("simple-octal-digit-sequence", fun _ =>
    Diagram [OneOrMore (NT "octal-digit")]);

  ("octal-escape-sequence", fun _ =>
    Diagram [
      Choice 0 [
        Sequence [T bslash; NT "octal-digit"];
        Sequence [T bslash; NT "octal-digit"; NT "octal-digit"];
        Sequence [T bslash; NT "octal-digit"; NT "octal-digit"; NT "octal-digit"];
        Sequence [T "\o{"; NT "simple-octal-digit-sequence"; T "}"]
      ]
    ]);

  ("hexadecimal-escape-sequence", fun _ =>
    Diagram [
      Choice 0 [
        Sequence [T "\x"; NT "simple-hexadecimal-digit-sequence"];
        Sequence [T "\x{"; NT "simple-hexadecimal-digit-sequence"; T "}"]
      ]
    ]);

  ("conditional-escape-sequence", fun _ =>
    Diagram [
      Sequence [T bslash; NT "conditional-escape-sequence-char"]
    ]);

  ("conditional-escape-sequence-char", fun _ =>
    Diagram [Comment "basic char not octal/escape/N/o/u/U/x"]);

  ("floating-point-literal", fun _ =>
    Diagram [
      Choice 0 [
        NT "decimal-floating-point-literal";
        NT "hexadecimal-floating-point-literal"
      ]
    ]);

  ("decimal-floating-point-literal", fun _ =>
    Diagram [
      Choice 0 [
        Sequence [NT "fractional-constant"; Optional (NT "exponent-part"); Optional (NT "floating-point-suffix")];
        Sequence [NT "digit-sequence"; NT "exponent-part"; Optional (NT "floating-point-suffix")]
      ]
    ]);

  ("hexadecimal-floating-point-literal", fun _ =>
    Diagram [
      Choice 0 [
        Sequence [NT "hexadecimal-prefix"; NT "hexadecimal-fractional-constant"; NT "binary-exponent-part"; Optional (NT "floating-point-suffix")];
        Sequence [NT "hexadecimal-prefix"; NT "hexadecimal-digit-sequence"; NT "binary-exponent-part"; Optional (NT "floating-point-suffix")]
      ]
    ]);

  ("fractional-constant", fun _ =>
    Diagram [
      Choice 0 [
        Sequence [Optional (NT "digit-sequence"); T "."; NT "digit-sequence"];
        Sequence [NT "digit-sequence"; T "."]
      ]
    ]);

  ("hexadecimal-fractional-constant", fun _ =>
    Diagram [
      Choice 0 [
        Sequence [Optional (NT "hexadecimal-digit-sequence"); T "."; NT "hexadecimal-digit-sequence"];
        Sequence [NT "hexadecimal-digit-sequence"; T "."]
      ]
    ]);

  ("exponent-part", fun _ =>
    Diagram [
      Sequence [Choice 0 [ T "e"; T "E"]; Optional (NT "sign"); NT "digit-sequence"]
    ]);

  ("binary-exponent-part", fun _ =>
    Diagram [
      Sequence [Choice 0 [ T "p"; T "P"]; Optional (NT "sign"); NT "digit-sequence"]
    ]);

  ("sign", fun _ =>
    Diagram [Choice 0 [ T "+"; T "-"]]);

  ("digit-sequence", fun _ =>
    Diagram [
      Sequence [NT "digit"; ZeroOrMore (Sequence [Optional (T "'"); NT "digit"])]
    ]);

  ("floating-point-suffix", fun _ =>
    Diagram [
      Choice 0 [
        T "f"; T "l"; T "f16"; T "f32"; T "f64"; T "f128"; T "bf16";
        T "F"; T "L"; T "F16"; T "F32"; T "F64"; T "F128"; T "BF16"
      ]
    ]);

  ("string-literal", fun _ =>
    Diagram [
      Choice 0 [
        Sequence [Optional (NT "encoding-prefix"); T dq; Optional (NT "s-char-sequence"); T dq];
        Sequence [Optional (NT "encoding-prefix"); T "R"; NT "raw-string"]
      ]
    ]);

  ("s-char-sequence", fun _ =>
    Diagram [OneOrMore (NT "s-char")]);

  ("s-char", fun _ =>
    Diagram [
      Choice 0 [
        NT "basic-s-char";
        NT "escape-sequence";
        NT "universal-character-name"
      ]
    ]);

  ("basic-s-char", fun _ =>
    Diagram [Comment ("any char except " ++ dq ++ ", \, or new-line")]);

  ("raw-string", fun _ =>
    Diagram [
      Sequence [
        T dq;
        Optional (NT "d-char-sequence");
        T "(";
        Optional (NT "r-char-sequence");
        T ")";
        Optional (NT "d-char-sequence");
        T dq
      ]
    ]);

  ("r-char-sequence", fun _ =>
    Diagram [OneOrMore (NT "r-char")]);

  ("r-char", fun _ =>
    Diagram [Comment ("any char except ) + d-char-seq + " ++ dq)]);

  ("d-char-sequence", fun _ =>
    Diagram [OneOrMore (NT "d-char")]);

  ("d-char", fun _ =>
    Diagram [Comment "basic char except space/parens/\/tabs/newline"]);

  ("boolean-literal", fun _ =>
    Diagram [Choice 0 [ K "false"; K "true"]]);

  ("pointer-literal", fun _ =>
    Diagram [K "nullptr"]);

  ("user-defined-literal", fun _ =>
    Diagram [
      Choice 0 [
        NT "user-defined-integer-literal";
        NT "user-defined-floating-point-literal";
        NT "user-defined-string-literal";
        NT "user-defined-character-literal"
      ]
    ]);

  ("user-defined-integer-literal", fun _ =>
    Diagram [
      Sequence [
        Choice 0 [ NT "decimal-literal"; NT "octal-literal"; NT "hexadecimal-literal"; NT "binary-literal"];
        NT "ud-suffix"
      ]
    ]);

  ("user-defined-floating-point-literal", fun _ =>
    Diagram [
      Choice 0 [
        Sequence [NT "fractional-constant"; Optional (NT "exponent-part"); NT "ud-suffix"];
        Sequence [NT "digit-sequence"; NT "exponent-part"; NT "ud-suffix"];
        Sequence [NT "hexadecimal-prefix"; NT "hexadecimal-fractional-constant"; NT "binary-exponent-part"; NT "ud-suffix"];
        Sequence [NT "hexadecimal-prefix"; NT "hexadecimal-digit-sequence"; NT "binary-exponent-part"; NT "ud-suffix"]
      ]
    ]);

  ("user-defined-string-literal", fun _ =>
    Diagram [Sequence [NT "string-literal"; NT "ud-suffix"]]);

  ("user-defined-character-literal", fun _ =>
    Diagram [Sequence [NT "character-literal"; NT "ud-suffix"]]);

  ("ud-suffix", fun _ =>
    Diagram [NT "identifier"]);


  (* ===== A.4 Basics [gram.basic] ===== *)

  ("translation-unit", fun _ =>
    Diagram [
      Choice 0 [
        Optional (NT "declaration-seq");
        Sequence [
          Optional (NT "global-module-fragment");
          NT "module-declaration";
          Optional (NT "declaration-seq");
          Optional (NT "private-module-fragment")
        ]
      ]
    ]);


  (* ===== A.5 Expressions [gram.expr] ===== *)

  ("primary-expression", fun _ =>
    Diagram [
      Choice 0 [
        NT "literal";
        K "this";
        Sequence [T "("; NT "expression"; T ")"];
        NT "id-expression";
        NT "lambda-expression";
        NT "fold-expression";
        NT "requires-expression"
      ]
    ]);

  ("id-expression", fun _ =>
    Diagram [
      Choice 0 [
        NT "unqualified-id";
        NT "qualified-id"
      ]
    ]);

  ("unqualified-id", fun _ =>
    Diagram [
      Choice 0 [
        NT "identifier";
        NT "operator-function-id";
        NT "conversion-function-id";
        NT "literal-operator-id";
        Sequence [T "~"; NT "type-name"];
        Sequence [T "~"; NT "decltype-specifier"];
        NT "template-id"
      ]
    ]);

  ("qualified-id", fun _ =>
    Diagram [
      Sequence [NT "nested-name-specifier"; Optional (K "template"); NT "unqualified-id"]
    ]);

  ("nested-name-specifier", fun _ =>
    Diagram [
      Sequence [
        Choice 0 [
          T "::";
          Sequence [NT "type-name"; T "::"];
          Sequence [NT "namespace-name"; T "::"];
          Sequence [NT "decltype-specifier"; T "::"]
        ];
        ZeroOrMore (
          Choice 0 [
            Sequence [NT "identifier"; T "::"];
            Sequence [Optional (K "template"); NT "simple-template-id"; T "::"]
          ]
        )
      ]
    ]);

  ("lambda-expression", fun _ =>
    Diagram [
      Choice 0 [
        Sequence [NT "lambda-introducer"; Optional (NT "attribute-specifier-seq"); NT "lambda-declarator"; NT "compound-statement"];
        Sequence [
          NT "lambda-introducer";
          T "<";
          NT "template-parameter-list";
          T ">";
          Optional (NT "requires-clause");
          Optional (NT "attribute-specifier-seq");
          NT "lambda-declarator";
          NT "compound-statement"
        ]
      ]
    ]);

  ("lambda-introducer", fun _ =>
    Diagram [
      Sequence [T "["; Optional (NT "lambda-capture"); T "]"]
    ]);

  ("lambda-declarator", fun _ =>
    Diagram [
      Choice 0 [
        Sequence [NT "lambda-specifier-seq"; Optional (NT "noexcept-specifier"); Optional (NT "attribute-specifier-seq"); Optional (NT "trailing-return-type")];
        Sequence [NT "noexcept-specifier"; Optional (NT "attribute-specifier-seq"); Optional (NT "trailing-return-type")];
        Optional (NT "trailing-return-type");
        Sequence [
          T "(";
          NT "parameter-declaration-clause";
          T ")";
          Optional (NT "lambda-specifier-seq");
          Optional (NT "noexcept-specifier");
          Optional (NT "attribute-specifier-seq");
          Optional (NT "trailing-return-type");
          Optional (NT "requires-clause")
        ]
      ]
    ]);

  ("lambda-specifier", fun _ =>
    Diagram [
      Choice 0 [ K "consteval"; K "constexpr"; K "mutable"; K "static"]
    ]);

  ("lambda-specifier-seq", fun _ =>
    Diagram [OneOrMore (NT "lambda-specifier")]);

  ("lambda-capture", fun _ =>
    Diagram [
      Choice 0 [
        NT "capture-default";
        NT "capture-list";
        Sequence [NT "capture-default"; T ","; NT "capture-list"]
      ]
    ]);

  ("capture-default", fun _ =>
    Diagram [Choice 0 [ T "&"; T "="]]);

  ("capture-list", fun _ =>
    Diagram [
      Sequence [NT "capture"; ZeroOrMore (Sequence [T ","; NT "capture"])]
    ]);

  ("capture", fun _ =>
    Diagram [
      Choice 0 [
        NT "simple-capture";
        NT "init-capture"
      ]
    ]);

  ("simple-capture", fun _ =>
    Diagram [
      Choice 0 [
        Sequence [NT "identifier"; Optional (T "...")];
        Sequence [T "&"; NT "identifier"; Optional (T "...")];
        K "this";
        Sequence [T "*"; K "this"]
      ]
    ]);

  ("init-capture", fun _ =>
    Diagram [
      Choice 0 [
        Sequence [Optional (T "..."); NT "identifier"; NT "initializer"];
        Sequence [T "&"; Optional (T "..."); NT "identifier"; NT "initializer"]
      ]
    ]);

  ("fold-expression", fun _ =>
    Diagram [
      Choice 0 [
        Sequence [T "("; NT "cast-expression"; NT "fold-operator"; T "..."; T ")"];
        Sequence [T "("; T "..."; NT "fold-operator"; NT "cast-expression"; T ")"];
        Sequence [T "("; NT "cast-expression"; NT "fold-operator"; T "..."; NT "fold-operator"; NT "cast-expression"; T ")"]
      ]
    ]);

  ("fold-operator", fun _ =>
    Diagram [
      Choice 0 [
        T "+"; T "-"; T "*"; T "/"; T "%"; T "^"; T "&"; T "|"; T "<<"; T ">>";
        T "+="; T "-="; T "*="; T "/="; T "%="; T "^="; T "&="; T "|="; T "<<="; T ">>="; T "=";
        T "=="; T "!="; T "<"; T ">"; T "<="; T ">="; T "&&"; T "||"; T ","; T ".*"; T "->*"
      ]
    ]);

  ("requires-expression", fun _ =>
    Diagram [
      Sequence [K "requires"; Optional (NT "requirement-parameter-list"); NT "requirement-body"]
    ]);

  ("requirement-parameter-list", fun _ =>
    Diagram [
      Sequence [T "("; NT "parameter-declaration-clause"; T ")"]
    ]);

  ("requirement-body", fun _ =>
    Diagram [
      Sequence [T "{"; NT "requirement-seq"; T "}"]
    ]);

  ("requirement-seq", fun _ =>
    Diagram [OneOrMore (NT "requirement")]);

  ("requirement", fun _ =>
    Diagram [
      Choice 0 [
        NT "simple-requirement";
        NT "type-requirement";
        NT "compound-requirement";
        NT "nested-requirement"
      ]
    ]);

  ("simple-requirement", fun _ =>
    Diagram [Sequence [NT "expression"; T ";"]]);

  ("type-requirement", fun _ =>
    Diagram [
      Sequence [K "typename"; Optional (NT "nested-name-specifier"); NT "type-name"; T ";"]
    ]);

  ("compound-requirement", fun _ =>
    Diagram [
      Sequence [
        T "{";
        NT "expression";
        T "}";
        Optional (K "noexcept");
        Optional (NT "return-type-requirement");
        T ";"
      ]
    ]);

  ("return-type-requirement", fun _ =>
    Diagram [Sequence [T "->"; NT "type-constraint"]]);

  ("nested-requirement", fun _ =>
    Diagram [Sequence [K "requires"; NT "constraint-expression"; T ";"]]);

  ("postfix-expression", fun _ =>
    Diagram [
      Choice 0 [
        NT "primary-expression";
        Sequence [NT "postfix-expression"; T "["; Optional (NT "expression-list"); T "]"];
        Sequence [NT "postfix-expression"; T "("; Optional (NT "expression-list"); T ")"];
        Sequence [NT "simple-type-specifier"; T "("; Optional (NT "expression-list"); T ")"];
        Sequence [NT "typename-specifier"; T "("; Optional (NT "expression-list"); T ")"];
        Sequence [NT "simple-type-specifier"; NT "braced-init-list"];
        Sequence [NT "typename-specifier"; NT "braced-init-list"];
        Sequence [NT "postfix-expression"; T "."; Optional (K "template"); NT "id-expression"];
        Sequence [NT "postfix-expression"; T "->"; Optional (K "template"); NT "id-expression"];
        Sequence [NT "postfix-expression"; T "++"];
        Sequence [NT "postfix-expression"; T "--"];
        Sequence [K "dynamic_cast"; T "<"; NT "type-id"; T ">"; T "("; NT "expression"; T ")"];
        Sequence [K "static_cast"; T "<"; NT "type-id"; T ">"; T "("; NT "expression"; T ")"];
        Sequence [K "reinterpret_cast"; T "<"; NT "type-id"; T ">"; T "("; NT "expression"; T ")"];
        Sequence [K "const_cast"; T "<"; NT "type-id"; T ">"; T "("; NT "expression"; T ")"];
        Sequence [K "typeid"; T "("; NT "expression"; T ")"];
        Sequence [K "typeid"; T "("; NT "type-id"; T ")"]
      ]
    ]);

  ("expression-list", fun _ =>
    Diagram [NT "initializer-list"]);

  ("unary-expression", fun _ =>
    Diagram [
      Choice 0 [
        NT "postfix-expression";
        Sequence [NT "unary-operator"; NT "cast-expression"];
        Sequence [T "++"; NT "cast-expression"];
        Sequence [T "--"; NT "cast-expression"];
        NT "await-expression";
        Sequence [K "sizeof"; NT "unary-expression"];
        Sequence [K "sizeof"; T "("; NT "type-id"; T ")"];
        Sequence [K "sizeof"; T "..."; T "("; NT "identifier"; T ")"];
        Sequence [K "alignof"; T "("; NT "type-id"; T ")"];
        NT "noexcept-expression";
        NT "new-expression";
        NT "delete-expression"
      ]
    ]);

  ("unary-operator", fun _ =>
    Diagram [Choice 0 [ T "*"; T "&"; T "+"; T "-"; T "!"; T "~"]]);

  ("await-expression", fun _ =>
    Diagram [Sequence [K "co_await"; NT "cast-expression"]]);

  ("noexcept-expression", fun _ =>
    Diagram [Sequence [K "noexcept"; T "("; NT "expression"; T ")"]]);

  ("new-expression", fun _ =>
    Diagram [
      Sequence [
        Optional (T "::");
        K "new";
        Optional (NT "new-placement");
        Choice 0 [ NT "new-type-id"; Sequence [T "("; NT "type-id"; T ")"]];
        Optional (NT "new-initializer")
      ]
    ]);

  ("new-placement", fun _ =>
    Diagram [Sequence [T "("; NT "expression-list"; T ")"]]);

  ("new-type-id", fun _ =>
    Diagram [Sequence [NT "type-specifier-seq"; Optional (NT "new-declarator")]]);

  ("new-declarator", fun _ =>
    Diagram [
      Choice 0 [
        Sequence [NT "ptr-operator"; Optional (NT "new-declarator")];
        NT "noptr-new-declarator"
      ]
    ]);

  ("noptr-new-declarator", fun _ =>
    Diagram [
      Sequence [
        T "[";
        Optional (NT "expression");
        T "]";
        Optional (NT "attribute-specifier-seq");
        ZeroOrMore (Sequence [T "["; NT "constant-expression"; T "]"; Optional (NT "attribute-specifier-seq")])
      ]
    ]);

  ("new-initializer", fun _ =>
    Diagram [
      Choice 0 [
        Sequence [T "("; Optional (NT "expression-list"); T ")"];
        NT "braced-init-list"
      ]
    ]);

  ("delete-expression", fun _ =>
    Diagram [
      Sequence [
        Optional (T "::");
        K "delete";
        Optional (Sequence [T "["; T "]"]);
        NT "cast-expression"
      ]
    ]);

  ("cast-expression", fun _ =>
    Diagram [
      Choice 0 [
        NT "unary-expression";
        Sequence [T "("; NT "type-id"; T ")"; NT "cast-expression"]
      ]
    ]);

  ("pm-expression", fun _ =>
    Diagram [
      Sequence [
        NT "cast-expression";
        ZeroOrMore (Sequence [Choice 0 [ T ".*"; T "->*"]; NT "cast-expression"])
      ]
    ]);

  ("multiplicative-expression", fun _ =>
    Diagram [
      Sequence [
        NT "pm-expression";
        ZeroOrMore (Sequence [Choice 0 [ T "*"; T "/"; T "%"]; NT "pm-expression"])
      ]
    ]);

  ("additive-expression", fun _ =>
    Diagram [
      Sequence [
        NT "multiplicative-expression";
        ZeroOrMore (Sequence [Choice 0 [ T "+"; T "-"]; NT "multiplicative-expression"])
      ]
    ]);

  ("shift-expression", fun _ =>
    Diagram [
      Sequence [
        NT "additive-expression";
        ZeroOrMore (Sequence [Choice 0 [ T "<<"; T ">>"]; NT "additive-expression"])
      ]
    ]);

  ("compare-expression", fun _ =>
    Diagram [
      Sequence [
        NT "shift-expression";
        ZeroOrMore (Sequence [T "<=>"; NT "shift-expression"])
      ]
    ]);

  ("relational-expression", fun _ =>
    Diagram [
      Sequence [
        NT "compare-expression";
        ZeroOrMore (Sequence [Choice 0 [ T "<"; T ">"; T "<="; T ">="]; NT "compare-expression"])
      ]
    ]);

  ("equality-expression", fun _ =>
    Diagram [
      Sequence [
        NT "relational-expression";
        ZeroOrMore (Sequence [Choice 0 [ T "=="; T "!="]; NT "relational-expression"])
      ]
    ]);

  ("and-expression", fun _ =>
    Diagram [
      Sequence [
        NT "equality-expression";
        ZeroOrMore (Sequence [T "&"; NT "equality-expression"])
      ]
    ]);

  ("exclusive-or-expression", fun _ =>
    Diagram [
      Sequence [
        NT "and-expression";
        ZeroOrMore (Sequence [T "^"; NT "and-expression"])
      ]
    ]);

  ("inclusive-or-expression", fun _ =>
    Diagram [
      Sequence [
        NT "exclusive-or-expression";
        ZeroOrMore (Sequence [T "|"; NT "exclusive-or-expression"])
      ]
    ]);

  ("logical-and-expression", fun _ =>
    Diagram [
      Sequence [
        NT "inclusive-or-expression";
        ZeroOrMore (Sequence [T "&&"; NT "inclusive-or-expression"])
      ]
    ]);

  ("logical-or-expression", fun _ =>
    Diagram [
      Sequence [
        NT "logical-and-expression";
        ZeroOrMore (Sequence [T "||"; NT "logical-and-expression"])
      ]
    ]);

  ("conditional-expression", fun _ =>
    Diagram [
      Choice 0 [
        NT "logical-or-expression";
        Sequence [NT "logical-or-expression"; T "?"; NT "expression"; T ":"; NT "assignment-expression"]
      ]
    ]);

  ("yield-expression", fun _ =>
    Diagram [
      Choice 0 [
        Sequence [K "co_yield"; NT "assignment-expression"];
        Sequence [K "co_yield"; NT "braced-init-list"]
      ]
    ]);

  ("throw-expression", fun _ =>
    Diagram [Sequence [K "throw"; Optional (NT "assignment-expression")]]);

  ("assignment-expression", fun _ =>
    Diagram [
      Choice 0 [
        NT "conditional-expression";
        NT "yield-expression";
        NT "throw-expression";
        Sequence [NT "logical-or-expression"; NT "assignment-operator"; NT "initializer-clause"]
      ]
    ]);

  ("assignment-operator", fun _ =>
    Diagram [
      Choice 0 [
        T "="; T "*="; T "/="; T "%="; T "+="; T "-=";
        T ">>="; T "<<="; T "&="; T "^="; T "|="
      ]
    ]);

  ("expression", fun _ =>
    Diagram [
      Sequence [
        NT "assignment-expression";
        ZeroOrMore (Sequence [T ","; NT "assignment-expression"])
      ]
    ]);

  ("constant-expression", fun _ =>
    Diagram [NT "conditional-expression"]);


  (* ===== A.6 Statements [gram.stmt] ===== *)

  ("statement", fun _ =>
    Diagram [
      Choice 0 [
        NT "labeled-statement";
        Sequence [Optional (NT "attribute-specifier-seq"); NT "expression-statement"];
        Sequence [Optional (NT "attribute-specifier-seq"); NT "compound-statement"];
        Sequence [Optional (NT "attribute-specifier-seq"); NT "selection-statement"];
        Sequence [Optional (NT "attribute-specifier-seq"); NT "iteration-statement"];
        Sequence [Optional (NT "attribute-specifier-seq"); NT "jump-statement"];
        NT "declaration-statement";
        Sequence [Optional (NT "attribute-specifier-seq"); NT "try-block"]
      ]
    ]);

  ("init-statement", fun _ =>
    Diagram [
      Choice 0 [
        NT "expression-statement";
        NT "simple-declaration";
        NT "alias-declaration"
      ]
    ]);

  ("condition", fun _ =>
    Diagram [
      Choice 0 [
        NT "expression";
        Sequence [Optional (NT "attribute-specifier-seq"); NT "decl-specifier-seq"; NT "declarator"; NT "brace-or-equal-initializer"]
      ]
    ]);

  ("label", fun _ =>
    Diagram [
      Sequence [
        Optional (NT "attribute-specifier-seq");
        Choice 0 [
          Sequence [NT "identifier"; T ":"];
          Sequence [K "case"; NT "constant-expression"; T ":"];
          Sequence [K "default"; T ":"]
        ]
      ]
    ]);

  ("labeled-statement", fun _ =>
    Diagram [Sequence [NT "label"; NT "statement"]]);

  ("expression-statement", fun _ =>
    Diagram [Sequence [Optional (NT "expression"); T ";"]]);

  ("compound-statement", fun _ =>
    Diagram [
      Sequence [T "{"; Optional (NT "statement-seq"); Optional (NT "label-seq"); T "}"]
    ]);

  ("statement-seq", fun _ =>
    Diagram [OneOrMore (NT "statement")]);

  ("label-seq", fun _ =>
    Diagram [OneOrMore (NT "label")]);

  ("selection-statement", fun _ =>
    Diagram [
      Choice 0 [
        Sequence [K "if"; Optional (K "constexpr"); T "("; Optional (NT "init-statement"); NT "condition"; T ")"; NT "statement"];
        Sequence [K "if"; Optional (K "constexpr"); T "("; Optional (NT "init-statement"); NT "condition"; T ")"; NT "statement"; K "else"; NT "statement"];
        Sequence [K "if"; Optional (T "!"); K "consteval"; NT "compound-statement"];
        Sequence [K "if"; Optional (T "!"); K "consteval"; NT "compound-statement"; K "else"; NT "statement"];
        Sequence [K "switch"; T "("; Optional (NT "init-statement"); NT "condition"; T ")"; NT "statement"]
      ]
    ]);

  ("iteration-statement", fun _ =>
    Diagram [
      Choice 0 [
        Sequence [K "while"; T "("; NT "condition"; T ")"; NT "statement"];
        Sequence [K "do"; NT "statement"; K "while"; T "("; NT "expression"; T ")"; T ";"];
        Sequence [K "for"; T "("; NT "init-statement"; Optional (NT "condition"); T ";"; Optional (NT "expression"); T ")"; NT "statement"];
        Sequence [K "for"; T "("; Optional (NT "init-statement"); NT "for-range-declaration"; T ":"; NT "for-range-initializer"; T ")"; NT "statement"]
      ]
    ]);

  ("for-range-declaration", fun _ =>
    Diagram [
      Choice 0 [
        Sequence [Optional (NT "attribute-specifier-seq"); NT "decl-specifier-seq"; NT "declarator"];
        Sequence [Optional (NT "attribute-specifier-seq"); NT "decl-specifier-seq"; Optional (NT "ref-qualifier"); T "["; NT "identifier-list"; T "]"]
      ]
    ]);

  ("for-range-initializer", fun _ =>
    Diagram [NT "expr-or-braced-init-list"]);

  ("jump-statement", fun _ =>
    Diagram [
      Choice 0 [
        Sequence [K "break"; T ";"];
        Sequence [K "continue"; T ";"];
        Sequence [K "return"; Optional (NT "expr-or-braced-init-list"); T ";"];
        NT "coroutine-return-statement";
        Sequence [K "goto"; NT "identifier"; T ";"]
      ]
    ]);

  ("coroutine-return-statement", fun _ =>
    Diagram [Sequence [K "co_return"; Optional (NT "expr-or-braced-init-list"); T ";"]]);

  ("declaration-statement", fun _ =>
    Diagram [NT "block-declaration"]);


  (* ===== A.7 Declarations [gram.dcl] ===== *)

  ("declaration-seq", fun _ =>
    Diagram [OneOrMore (NT "declaration")]);

  ("declaration", fun _ =>
    Diagram [
      Choice 0 [
        NT "name-declaration";
        NT "special-declaration"
      ]
    ]);

  ("name-declaration", fun _ =>
    Diagram [
      Choice 0 [
        NT "block-declaration";
        NT "nodeclspec-function-declaration";
        NT "function-definition";
        NT "template-declaration";
        NT "deduction-guide";
        NT "linkage-specification";
        NT "namespace-definition";
        NT "empty-declaration";
        NT "attribute-declaration";
        NT "module-import-declaration"
      ]
    ]);

  ("special-declaration", fun _ =>
    Diagram [
      Choice 0 [
        NT "explicit-instantiation";
        NT "explicit-specialization";
        NT "export-declaration"
      ]
    ]);

  ("block-declaration", fun _ =>
    Diagram [
      Choice 0 [
        NT "simple-declaration";
        NT "asm-declaration";
        NT "namespace-alias-definition";
        NT "using-declaration";
        NT "using-enum-declaration";
        NT "using-directive";
        NT "static_assert-declaration";
        NT "alias-declaration";
        NT "opaque-enum-declaration"
      ]
    ]);

  ("nodeclspec-function-declaration", fun _ =>
    Diagram [
      Sequence [Optional (NT "attribute-specifier-seq"); NT "declarator"; T ";"]
    ]);

  ("alias-declaration", fun _ =>
    Diagram [
      Sequence [K "using"; NT "identifier"; Optional (NT "attribute-specifier-seq"); T "="; NT "defining-type-id"; T ";"]
    ]);

  ("simple-declaration", fun _ =>
    Diagram [
      Choice 0 [
        Sequence [NT "decl-specifier-seq"; Optional (NT "init-declarator-list"); T ";"];
        Sequence [NT "attribute-specifier-seq"; NT "decl-specifier-seq"; NT "init-declarator-list"; T ";"];
        Sequence [Optional (NT "attribute-specifier-seq"); NT "decl-specifier-seq"; Optional (NT "ref-qualifier"); T "["; NT "identifier-list"; T "]"; NT "initializer"; T ";"]
      ]
    ]);

  ("static_assert-declaration", fun _ =>
    Diagram [
      Choice 0 [
        Sequence [K "static_assert"; T "("; NT "constant-expression"; T ")"; T ";"];
        Sequence [K "static_assert"; T "("; NT "constant-expression"; T ","; NT "string-literal"; T ")"; T ";"]
      ]
    ]);

  ("empty-declaration", fun _ =>
    Diagram [T ";"]);

  ("attribute-declaration", fun _ =>
    Diagram [Sequence [NT "attribute-specifier-seq"; T ";"]]);

  ("decl-specifier", fun _ =>
    Diagram [
      Choice 0 [
        NT "storage-class-specifier";
        NT "defining-type-specifier";
        NT "function-specifier";
        K "friend";
        K "typedef";
        K "constexpr";
        K "consteval";
        K "constinit";
        K "inline"
      ]
    ]);

  ("decl-specifier-seq", fun _ =>
    Diagram [
      OneOrMore (Sequence [NT "decl-specifier"; Optional (NT "attribute-specifier-seq")])
    ]);

  ("storage-class-specifier", fun _ =>
    Diagram [
      Choice 0 [ K "static"; K "thread_local"; K "extern"; K "mutable"]
    ]);

  ("function-specifier", fun _ =>
    Diagram [
      Choice 0 [ K "virtual"; NT "explicit-specifier"]
    ]);

  ("explicit-specifier", fun _ =>
    Diagram [
      Choice 0 [
        Sequence [K "explicit"; T "("; NT "constant-expression"; T ")"];
        K "explicit"
      ]
    ]);

  ("type-specifier", fun _ =>
    Diagram [
      Choice 0 [
        NT "simple-type-specifier";
        NT "elaborated-type-specifier";
        NT "typename-specifier";
        NT "cv-qualifier"
      ]
    ]);

  ("type-specifier-seq", fun _ =>
    Diagram [
      OneOrMore (Sequence [NT "type-specifier"; Optional (NT "attribute-specifier-seq")])
    ]);

  ("defining-type-specifier", fun _ =>
    Diagram [
      Choice 0 [
        NT "type-specifier";
        NT "class-specifier";
        NT "enum-specifier"
      ]
    ]);

  ("defining-type-specifier-seq", fun _ =>
    Diagram [
      OneOrMore (Sequence [NT "defining-type-specifier"; Optional (NT "attribute-specifier-seq")])
    ]);

  ("simple-type-specifier", fun _ =>
    Diagram [
      Choice 0 [
        Sequence [Optional (NT "nested-name-specifier"); NT "type-name"];
        Sequence [NT "nested-name-specifier"; K "template"; NT "simple-template-id"];
        NT "decltype-specifier";
        NT "placeholder-type-specifier";
        Sequence [Optional (NT "nested-name-specifier"); NT "template-name"];
        K "char"; K "char8_t"; K "char16_t"; K "char32_t"; K "wchar_t";
        K "bool"; K "short"; K "int"; K "long"; K "signed"; K "unsigned";
        K "float"; K "double"; K "void"
      ]
    ]);

  ("type-name", fun _ =>
    Diagram [
      Choice 0 [
        NT "class-name";
        NT "enum-name";
        NT "typedef-name"
      ]
    ]);

  ("elaborated-type-specifier", fun _ =>
    Diagram [
      Choice 0 [
        Sequence [NT "class-key"; Optional (NT "attribute-specifier-seq"); Optional (NT "nested-name-specifier"); NT "identifier"];
        Sequence [NT "class-key"; NT "simple-template-id"];
        Sequence [NT "class-key"; NT "nested-name-specifier"; Optional (K "template"); NT "simple-template-id"];
        Sequence [K "enum"; Optional (NT "nested-name-specifier"); NT "identifier"]
      ]
    ]);

  ("decltype-specifier", fun _ =>
    Diagram [
      Sequence [K "decltype"; T "("; NT "expression"; T ")"]
    ]);

  ("placeholder-type-specifier", fun _ =>
    Diagram [
      Choice 0 [
        Sequence [Optional (NT "type-constraint"); K "auto"];
        Sequence [Optional (NT "type-constraint"); K "decltype"; T "("; K "auto"; T ")"]
      ]
    ]);

  ("init-declarator-list", fun _ =>
    Diagram [
      Sequence [NT "init-declarator"; ZeroOrMore (Sequence [T ","; NT "init-declarator"])]
    ]);

  ("init-declarator", fun _ =>
    Diagram [
      Choice 0 [
        Sequence [NT "declarator"; Optional (NT "initializer")];
        Sequence [NT "declarator"; NT "requires-clause"]
      ]
    ]);

  ("declarator", fun _ =>
    Diagram [
      Choice 0 [
        NT "ptr-declarator";
        Sequence [NT "noptr-declarator"; NT "parameters-and-qualifiers"; NT "trailing-return-type"]
      ]
    ]);

  ("ptr-declarator", fun _ =>
    Diagram [
      Choice 0 [
        NT "noptr-declarator";
        Sequence [NT "ptr-operator"; NT "ptr-declarator"]
      ]
    ]);

  ("noptr-declarator", fun _ =>
    Diagram [
      Sequence [
        Choice 0 [
          Sequence [NT "declarator-id"; Optional (NT "attribute-specifier-seq")];
          Sequence [T "("; NT "ptr-declarator"; T ")"]
        ];
        ZeroOrMore (
          Choice 0 [
            NT "parameters-and-qualifiers";
            Sequence [T "["; Optional (NT "constant-expression"); T "]"; Optional (NT "attribute-specifier-seq")]
          ]
        )
      ]
    ]);

  ("parameters-and-qualifiers", fun _ =>
    Diagram [
      Sequence [
        T "(";
        NT "parameter-declaration-clause";
        T ")";
        Optional (NT "cv-qualifier-seq");
        Optional (NT "ref-qualifier");
        Optional (NT "noexcept-specifier");
        Optional (NT "attribute-specifier-seq")
      ]
    ]);

  ("trailing-return-type", fun _ =>
    Diagram [Sequence [T "->"; NT "type-id"]]);

  ("ptr-operator", fun _ =>
    Diagram [
      Choice 0 [
        Sequence [T "*"; Optional (NT "attribute-specifier-seq"); Optional (NT "cv-qualifier-seq")];
        Sequence [T "&"; Optional (NT "attribute-specifier-seq")];
        Sequence [T "&&"; Optional (NT "attribute-specifier-seq")];
        Sequence [NT "nested-name-specifier"; T "*"; Optional (NT "attribute-specifier-seq"); Optional (NT "cv-qualifier-seq")]
      ]
    ]);

  ("cv-qualifier-seq", fun _ =>
    Diagram [OneOrMore (NT "cv-qualifier")]);

  ("cv-qualifier", fun _ =>
    Diagram [Choice 0 [ K "const"; K "volatile"]]);

  ("ref-qualifier", fun _ =>
    Diagram [Choice 0 [ T "&"; T "&&"]]);

  ("declarator-id", fun _ =>
    Diagram [Sequence [Optional (T "..."); NT "id-expression"]]);

  ("type-id", fun _ =>
    Diagram [
      Sequence [NT "type-specifier-seq"; Optional (NT "abstract-declarator")]
    ]);

  ("defining-type-id", fun _ =>
    Diagram [
      Sequence [NT "defining-type-specifier-seq"; Optional (NT "abstract-declarator")]
    ]);

  ("abstract-declarator", fun _ =>
    Diagram [
      Choice 0 [
        NT "ptr-abstract-declarator";
        Sequence [Optional (NT "noptr-abstract-declarator"); NT "parameters-and-qualifiers"; NT "trailing-return-type"];
        NT "abstract-pack-declarator"
      ]
    ]);

  ("ptr-abstract-declarator", fun _ =>
    Diagram [
      Choice 0 [
        NT "noptr-abstract-declarator";
        Sequence [NT "ptr-operator"; Optional (NT "ptr-abstract-declarator")]
      ]
    ]);

  ("noptr-abstract-declarator", fun _ =>
    Diagram [
      Sequence [
        Optional (Sequence [T "("; NT "ptr-abstract-declarator"; T ")"]);
        ZeroOrMore (
          Choice 0 [
            NT "parameters-and-qualifiers";
            Sequence [T "["; Optional (NT "constant-expression"); T "]"; Optional (NT "attribute-specifier-seq")]
          ]
        )
      ]
    ]);

  ("abstract-pack-declarator", fun _ =>
    Diagram [
      Choice 0 [
        NT "noptr-abstract-pack-declarator";
        Sequence [NT "ptr-operator"; NT "abstract-pack-declarator"]
      ]
    ]);

  ("noptr-abstract-pack-declarator", fun _ =>
    Diagram [
      Sequence [
        T "...";
        ZeroOrMore (
          Choice 0 [
            NT "parameters-and-qualifiers";
            Sequence [T "["; Optional (NT "constant-expression"); T "]"; Optional (NT "attribute-specifier-seq")]
          ]
        )
      ]
    ]);

  ("parameter-declaration-clause", fun _ =>
    Diagram [
      Choice 0 [
        Sequence [Optional (NT "parameter-declaration-list"); Optional (T "...")];
        Sequence [NT "parameter-declaration-list"; T ","; T "..."]
      ]
    ]);

  ("parameter-declaration-list", fun _ =>
    Diagram [
      Sequence [NT "parameter-declaration"; ZeroOrMore (Sequence [T ","; NT "parameter-declaration"])]
    ]);

  ("parameter-declaration", fun _ =>
    Diagram [
      Choice 0 [
        Sequence [Optional (NT "attribute-specifier-seq"); Optional (K "this"); NT "decl-specifier-seq"; NT "declarator"];
        Sequence [Optional (NT "attribute-specifier-seq"); NT "decl-specifier-seq"; NT "declarator"; T "="; NT "initializer-clause"];
        Sequence [Optional (NT "attribute-specifier-seq"); Optional (K "this"); NT "decl-specifier-seq"; Optional (NT "abstract-declarator")];
        Sequence [Optional (NT "attribute-specifier-seq"); NT "decl-specifier-seq"; Optional (NT "abstract-declarator"); T "="; NT "initializer-clause"]
      ]
    ]);

  ("initializer", fun _ =>
    Diagram [
      Choice 0 [
        NT "brace-or-equal-initializer";
        Sequence [T "("; NT "expression-list"; T ")"]
      ]
    ]);

  ("brace-or-equal-initializer", fun _ =>
    Diagram [
      Choice 0 [
        Sequence [T "="; NT "initializer-clause"];
        NT "braced-init-list"
      ]
    ]);

  ("initializer-clause", fun _ =>
    Diagram [
      Choice 0 [
        NT "assignment-expression";
        NT "braced-init-list"
      ]
    ]);

  ("braced-init-list", fun _ =>
    Diagram [
      Choice 0 [
        Sequence [T "{"; NT "initializer-list"; Optional (T ","); T "}"];
        Sequence [T "{"; NT "designated-initializer-list"; Optional (T ","); T "}"];
        Sequence [T "{"; T "}"]
      ]
    ]);

  ("initializer-list", fun _ =>
    Diagram [
      Sequence [
        NT "initializer-clause";
        Optional (T "...");
        ZeroOrMore (Sequence [T ","; NT "initializer-clause"; Optional (T "...")])
      ]
    ]);

  ("designated-initializer-list", fun _ =>
    Diagram [
      Sequence [
        NT "designated-initializer-clause";
        ZeroOrMore (Sequence [T ","; NT "designated-initializer-clause"])
      ]
    ]);

  ("designated-initializer-clause", fun _ =>
    Diagram [
      Sequence [NT "designator"; NT "brace-or-equal-initializer"]
    ]);

  ("designator", fun _ =>
    Diagram [Sequence [T "."; NT "identifier"]]);

  ("expr-or-braced-init-list", fun _ =>
    Diagram [
      Choice 0 [ NT "expression"; NT "braced-init-list"]
    ]);

  ("function-definition", fun _ =>
    Diagram [
      Choice 0 [
        Sequence [Optional (NT "attribute-specifier-seq"); Optional (NT "decl-specifier-seq"); NT "declarator"; Optional (NT "virt-specifier-seq"); NT "function-body"];
        Sequence [Optional (NT "attribute-specifier-seq"); Optional (NT "decl-specifier-seq"); NT "declarator"; NT "requires-clause"; NT "function-body"]
      ]
    ]);

  ("function-body", fun _ =>
    Diagram [
      Choice 0 [
        Sequence [Optional (NT "ctor-initializer"); NT "compound-statement"];
        NT "function-try-block";
        Sequence [T "="; K "default"; T ";"];
        Sequence [T "="; K "delete"; T ";"]
      ]
    ]);

  ("enum-specifier", fun _ =>
    Diagram [
      Choice 0 [
        Sequence [NT "enum-head"; T "{"; Optional (NT "enumerator-list"); T "}"];
        Sequence [NT "enum-head"; T "{"; NT "enumerator-list"; T ","; T "}"]
      ]
    ]);

  ("enum-head", fun _ =>
    Diagram [
      Sequence [
        NT "enum-key";
        Optional (NT "attribute-specifier-seq");
        Optional (NT "enum-head-name");
        Optional (NT "enum-base")
      ]
    ]);

  ("enum-head-name", fun _ =>
    Diagram [
      Sequence [Optional (NT "nested-name-specifier"); NT "identifier"]
    ]);

  ("opaque-enum-declaration", fun _ =>
    Diagram [
      Sequence [NT "enum-key"; Optional (NT "attribute-specifier-seq"); NT "enum-head-name"; Optional (NT "enum-base"); T ";"]
    ]);

  ("enum-key", fun _ =>
    Diagram [
      Choice 0 [
        K "enum";
        Sequence [K "enum"; K "class"];
        Sequence [K "enum"; K "struct"]
      ]
    ]);

  ("enum-base", fun _ =>
    Diagram [Sequence [T ":"; NT "type-specifier-seq"]]);

  ("enumerator-list", fun _ =>
    Diagram [
      Sequence [NT "enumerator-definition"; ZeroOrMore (Sequence [T ","; NT "enumerator-definition"])]
    ]);

  ("enumerator-definition", fun _ =>
    Diagram [
      Choice 0 [
        NT "enumerator";
        Sequence [NT "enumerator"; T "="; NT "constant-expression"]
      ]
    ]);

  ("enumerator", fun _ =>
    Diagram [Sequence [NT "identifier"; Optional (NT "attribute-specifier-seq")]]);

  ("using-enum-declaration", fun _ =>
    Diagram [
      Sequence [K "using"; K "enum"; NT "using-enum-declarator"; T ";"]
    ]);

  ("using-enum-declarator", fun _ =>
    Diagram [
      Choice 0 [
        Sequence [Optional (NT "nested-name-specifier"); NT "identifier"];
        Sequence [Optional (NT "nested-name-specifier"); NT "simple-template-id"]
      ]
    ]);

  ("namespace-definition", fun _ =>
    Diagram [
      Choice 0 [
        NT "named-namespace-definition";
        NT "unnamed-namespace-definition";
        NT "nested-namespace-definition"
      ]
    ]);

  ("named-namespace-definition", fun _ =>
    Diagram [
      Sequence [Optional (K "inline"); K "namespace"; Optional (NT "attribute-specifier-seq"); NT "identifier"; T "{"; NT "namespace-body"; T "}"]
    ]);

  ("unnamed-namespace-definition", fun _ =>
    Diagram [
      Sequence [Optional (K "inline"); K "namespace"; Optional (NT "attribute-specifier-seq"); T "{"; NT "namespace-body"; T "}"]
    ]);

  ("nested-namespace-definition", fun _ =>
    Diagram [
      Sequence [K "namespace"; NT "enclosing-namespace-specifier"; T "::"; Optional (K "inline"); NT "identifier"; T "{"; NT "namespace-body"; T "}"]
    ]);

  ("enclosing-namespace-specifier", fun _ =>
    Diagram [
      Sequence [
        NT "identifier";
        ZeroOrMore (Sequence [T "::"; Optional (K "inline"); NT "identifier"])
      ]
    ]);

  ("namespace-body", fun _ =>
    Diagram [Optional (NT "declaration-seq")]);

  ("namespace-alias-definition", fun _ =>
    Diagram [
      Sequence [K "namespace"; NT "identifier"; T "="; NT "qualified-namespace-specifier"; T ";"]
    ]);

  ("qualified-namespace-specifier", fun _ =>
    Diagram [
      Sequence [Optional (NT "nested-name-specifier"); NT "namespace-name"]
    ]);

  ("using-directive", fun _ =>
    Diagram [
      Sequence [Optional (NT "attribute-specifier-seq"); K "using"; K "namespace"; Optional (NT "nested-name-specifier"); NT "namespace-name"; T ";"]
    ]);

  ("using-declaration", fun _ =>
    Diagram [
      Sequence [K "using"; NT "using-declarator-list"; T ";"]
    ]);

  ("using-declarator-list", fun _ =>
    Diagram [
      Sequence [
        NT "using-declarator";
        Optional (T "...");
        ZeroOrMore (Sequence [T ","; NT "using-declarator"; Optional (T "...")])
      ]
    ]);

  ("using-declarator", fun _ =>
    Diagram [
      Sequence [Optional (K "typename"); NT "nested-name-specifier"; NT "unqualified-id"]
    ]);

  ("asm-declaration", fun _ =>
    Diagram [
      Sequence [Optional (NT "attribute-specifier-seq"); K "asm"; T "("; NT "string-literal"; T ")"; T ";"]
    ]);

  ("linkage-specification", fun _ =>
    Diagram [
      Choice 0 [
        Sequence [K "extern"; NT "string-literal"; T "{"; Optional (NT "declaration-seq"); T "}"];
        Sequence [K "extern"; NT "string-literal"; NT "name-declaration"]
      ]
    ]);

  ("attribute-specifier-seq", fun _ =>
    Diagram [OneOrMore (NT "attribute-specifier")]);

  ("attribute-specifier", fun _ =>
    Diagram [
      Choice 0 [
        Sequence [T "[["; Optional (NT "attribute-using-prefix"); NT "attribute-list"; T "]]"];
        NT "alignment-specifier"
      ]
    ]);

  ("alignment-specifier", fun _ =>
    Diagram [
      Choice 0 [
        Sequence [K "alignas"; T "("; NT "type-id"; Optional (T "..."); T ")"];
        Sequence [K "alignas"; T "("; NT "constant-expression"; Optional (T "..."); T ")"]
      ]
    ]);

  ("attribute-using-prefix", fun _ =>
    Diagram [
      Sequence [K "using"; NT "attribute-namespace"; T ":"]
    ]);

  ("attribute-list", fun _ =>
    Diagram [
      Sequence [
        Optional (NT "attribute");
        ZeroOrMore (Sequence [T ","; Optional (NT "attribute")]);
        ZeroOrMore (Sequence [NT "attribute"; T "..."])
      ]
    ]);

  ("attribute", fun _ =>
    Diagram [
      Sequence [NT "attribute-token"; Optional (NT "attribute-argument-clause")]
    ]);

  ("attribute-token", fun _ =>
    Diagram [
      Choice 0 [
        NT "identifier";
        NT "attribute-scoped-token"
      ]
    ]);

  ("attribute-scoped-token", fun _ =>
    Diagram [
      Sequence [NT "attribute-namespace"; T "::"; NT "identifier"]
    ]);

  ("attribute-namespace", fun _ =>
    Diagram [NT "identifier"]);

  ("attribute-argument-clause", fun _ =>
    Diagram [
      Sequence [T "("; Optional (NT "balanced-token-seq"); T ")"]
    ]);

  ("balanced-token-seq", fun _ =>
    Diagram [OneOrMore (NT "balanced-token")]);

  ("balanced-token", fun _ =>
    Diagram [
      Choice 0 [
        Sequence [T "("; Optional (NT "balanced-token-seq"); T ")"];
        Sequence [T "["; Optional (NT "balanced-token-seq"); T "]"];
        Sequence [T "{"; Optional (NT "balanced-token-seq"); T "}"];
        Comment "any token except ( ) [ ] { }"
      ]
    ]);


  (* ===== A.8 Modules [gram.module] ===== *)

  ("module-declaration", fun _ =>
    Diagram [
      Sequence [
        Optional (NT "export-keyword");
        NT "module-keyword";
        NT "module-name";
        Optional (NT "module-partition");
        Optional (NT "attribute-specifier-seq");
        T ";"
      ]
    ]);

  ("module-name", fun _ =>
    Diagram [
      Sequence [Optional (NT "module-name-qualifier"); NT "identifier"]
    ]);

  ("module-partition", fun _ =>
    Diagram [
      Sequence [T ":"; Optional (NT "module-name-qualifier"); NT "identifier"]
    ]);

  ("module-name-qualifier", fun _ =>
    Diagram [
      OneOrMore (Sequence [NT "identifier"; T "."])
    ]);

  ("export-declaration", fun _ =>
    Diagram [
      Choice 0 [
        Sequence [K "export"; NT "name-declaration"];
        Sequence [K "export"; T "{"; Optional (NT "declaration-seq"); T "}"];
        Sequence [NT "export-keyword"; NT "module-import-declaration"]
      ]
    ]);

  ("module-import-declaration", fun _ =>
    Diagram [
      Choice 0 [
        Sequence [NT "import-keyword"; NT "module-name"; Optional (NT "attribute-specifier-seq"); T ";"];
        Sequence [NT "import-keyword"; NT "module-partition"; Optional (NT "attribute-specifier-seq"); T ";"];
        Sequence [NT "import-keyword"; NT "header-name"; Optional (NT "attribute-specifier-seq"); T ";"]
      ]
    ]);

  ("global-module-fragment", fun _ =>
    Diagram [
      Sequence [NT "module-keyword"; T ";"; Optional (NT "declaration-seq")]
    ]);

  ("private-module-fragment", fun _ =>
    Diagram [
      Sequence [NT "module-keyword"; T ":"; K "private"; T ";"; Optional (NT "declaration-seq")]
    ]);

  ("import-keyword", fun _ =>
    Diagram [K "import"]);

  ("module-keyword", fun _ =>
    Diagram [K "module"]);

  ("export-keyword", fun _ =>
    Diagram [K "export"]);


  (* ===== A.9 Classes [gram.class] ===== *)

  ("class-specifier", fun _ =>
    Diagram [
      Sequence [NT "class-head"; T "{"; Optional (NT "member-specification"); T "}"]
    ]);

  ("class-head", fun _ =>
    Diagram [
      Choice 0 [
        Sequence [NT "class-key"; Optional (NT "attribute-specifier-seq"); NT "class-head-name"; Optional (NT "class-virt-specifier"); Optional (NT "base-clause")];
        Sequence [NT "class-key"; Optional (NT "attribute-specifier-seq"); Optional (NT "base-clause")]
      ]
    ]);

  ("class-head-name", fun _ =>
    Diagram [
      Sequence [Optional (NT "nested-name-specifier"); NT "class-name"]
    ]);

  ("class-virt-specifier", fun _ =>
    Diagram [K "final"]);

  ("class-key", fun _ =>
    Diagram [Choice 0 [ K "class"; K "struct"; K "union"]]);

  ("member-specification", fun _ =>
    Diagram [
      OneOrMore (
        Choice 0 [
          NT "member-declaration";
          Sequence [NT "access-specifier"; T ":"]
        ]
      )
    ]);

  ("member-declaration", fun _ =>
    Diagram [
      Choice 0 [
        Sequence [Optional (NT "attribute-specifier-seq"); Optional (NT "decl-specifier-seq"); Optional (NT "member-declarator-list"); T ";"];
        NT "function-definition";
        NT "using-declaration";
        NT "using-enum-declaration";
        NT "static_assert-declaration";
        NT "template-declaration";
        NT "explicit-specialization";
        NT "deduction-guide";
        NT "alias-declaration";
        NT "opaque-enum-declaration";
        NT "empty-declaration"
      ]
    ]);

  ("member-declarator-list", fun _ =>
    Diagram [
      Sequence [NT "member-declarator"; ZeroOrMore (Sequence [T ","; NT "member-declarator"])]
    ]);

  ("member-declarator", fun _ =>
    Diagram [
      Choice 0 [
        Sequence [NT "declarator"; Optional (NT "virt-specifier-seq"); Optional (NT "pure-specifier")];
        Sequence [NT "declarator"; NT "requires-clause"];
        Sequence [NT "declarator"; Optional (NT "brace-or-equal-initializer")];
        Sequence [Optional (NT "identifier"); Optional (NT "attribute-specifier-seq"); T ":"; NT "constant-expression"; Optional (NT "brace-or-equal-initializer")]
      ]
    ]);

  ("virt-specifier-seq", fun _ =>
    Diagram [OneOrMore (NT "virt-specifier")]);

  ("virt-specifier", fun _ =>
    Diagram [Choice 0 [ K "override"; K "final"]]);

  ("pure-specifier", fun _ =>
    Diagram [Sequence [T "="; T "0"]]);

  ("conversion-function-id", fun _ =>
    Diagram [
      Sequence [K "operator"; NT "conversion-type-id"]
    ]);

  ("conversion-type-id", fun _ =>
    Diagram [
      Sequence [NT "type-specifier-seq"; Optional (NT "conversion-declarator")]
    ]);

  ("conversion-declarator", fun _ =>
    Diagram [
      Sequence [NT "ptr-operator"; Optional (NT "conversion-declarator")]
    ]);

  ("base-clause", fun _ =>
    Diagram [Sequence [T ":"; NT "base-specifier-list"]]);

  ("base-specifier-list", fun _ =>
    Diagram [
      Sequence [
        NT "base-specifier";
        Optional (T "...");
        ZeroOrMore (Sequence [T ","; NT "base-specifier"; Optional (T "...")])
      ]
    ]);

  ("base-specifier", fun _ =>
    Diagram [
      Choice 0 [
        Sequence [Optional (NT "attribute-specifier-seq"); NT "class-or-decltype"];
        Sequence [Optional (NT "attribute-specifier-seq"); K "virtual"; Optional (NT "access-specifier"); NT "class-or-decltype"];
        Sequence [Optional (NT "attribute-specifier-seq"); NT "access-specifier"; Optional (K "virtual"); NT "class-or-decltype"]
      ]
    ]);

  ("class-or-decltype", fun _ =>
    Diagram [
      Choice 0 [
        Sequence [Optional (NT "nested-name-specifier"); NT "type-name"];
        Sequence [NT "nested-name-specifier"; K "template"; NT "simple-template-id"];
        NT "decltype-specifier"
      ]
    ]);

  ("access-specifier", fun _ =>
    Diagram [Choice 0 [ K "private"; K "protected"; K "public"]]);

  ("ctor-initializer", fun _ =>
    Diagram [Sequence [T ":"; NT "mem-initializer-list"]]);

  ("mem-initializer-list", fun _ =>
    Diagram [
      Sequence [
        NT "mem-initializer";
        Optional (T "...");
        ZeroOrMore (Sequence [T ","; NT "mem-initializer"; Optional (T "...")])
      ]
    ]);

  ("mem-initializer", fun _ =>
    Diagram [
      Choice 0 [
        Sequence [NT "mem-initializer-id"; T "("; Optional (NT "expression-list"); T ")"];
        Sequence [NT "mem-initializer-id"; NT "braced-init-list"]
      ]
    ]);

  ("mem-initializer-id", fun _ =>
    Diagram [
      Choice 0 [
        NT "class-or-decltype";
        NT "identifier"
      ]
    ]);


  (* ===== A.10 Overloading [gram.over] ===== *)

  ("operator-function-id", fun _ =>
    Diagram [
      Sequence [K "operator"; NT "operator"]
    ]);

  ("operator", fun _ =>
    Diagram [
      Choice 0 [
        K "new"; K "delete"; T "new[]"; T "delete[]"; K "co_await";
        T "()"; T "[]"; T "->"; T "->*";
        T "~"; T "!"; T "+"; T "-"; T "*"; T "/"; T "%"; T "^"; T "&";
        T "|"; T "="; T "+="; T "-="; T "*="; T "/="; T "%="; T "^="; T "&=";
        T "|="; T "=="; T "!="; T "<"; T ">"; T "<="; T ">="; T "<=>"; T "&&";
        T "||"; T "<<"; T ">>"; T "<<="; T ">>="; T "++"; T "--"; T ","
      ]
    ]);

  ("literal-operator-id", fun _ =>
    Diagram [
      Choice 0 [
        Sequence [K "operator"; NT "string-literal"; NT "identifier"];
        Sequence [K "operator"; NT "user-defined-string-literal"]
      ]
    ]);


  (* ===== A.11 Templates [gram.temp] ===== *)

  ("template-declaration", fun _ =>
    Diagram [
      Choice 0 [
        Sequence [NT "template-head"; NT "declaration"];
        Sequence [NT "template-head"; NT "concept-definition"]
      ]
    ]);

  ("template-head", fun _ =>
    Diagram [
      Sequence [K "template"; T "<"; NT "template-parameter-list"; T ">"; Optional (NT "requires-clause")]
    ]);

  ("template-parameter-list", fun _ =>
    Diagram [
      Sequence [NT "template-parameter"; ZeroOrMore (Sequence [T ","; NT "template-parameter"])]
    ]);

  ("requires-clause", fun _ =>
    Diagram [
      Sequence [K "requires"; NT "constraint-logical-or-expression"]
    ]);

  ("constraint-logical-or-expression", fun _ =>
    Diagram [
      Sequence [
        NT "constraint-logical-and-expression";
        ZeroOrMore (Sequence [T "||"; NT "constraint-logical-and-expression"])
      ]
    ]);

  ("constraint-logical-and-expression", fun _ =>
    Diagram [
      Sequence [
        NT "primary-expression";
        ZeroOrMore (Sequence [T "&&"; NT "primary-expression"])
      ]
    ]);

  ("template-parameter", fun _ =>
    Diagram [
      Choice 0 [
        NT "type-parameter";
        NT "parameter-declaration"
      ]
    ]);

  ("type-parameter", fun _ =>
    Diagram [
      Choice 0 [
        Sequence [NT "type-parameter-key"; Optional (T "..."); Optional (NT "identifier")];
        Sequence [NT "type-parameter-key"; Optional (NT "identifier"); T "="; NT "type-id"];
        Sequence [NT "type-constraint"; Optional (T "..."); Optional (NT "identifier")];
        Sequence [NT "type-constraint"; Optional (NT "identifier"); T "="; NT "type-id"];
        Sequence [NT "template-head"; NT "type-parameter-key"; Optional (T "..."); Optional (NT "identifier")];
        Sequence [NT "template-head"; NT "type-parameter-key"; Optional (NT "identifier"); T "="; NT "id-expression"]
      ]
    ]);

  ("type-parameter-key", fun _ =>
    Diagram [Choice 0 [ K "class"; K "typename"]]);

  ("type-constraint", fun _ =>
    Diagram [
      Choice 0 [
        Sequence [Optional (NT "nested-name-specifier"); NT "concept-name"];
        Sequence [Optional (NT "nested-name-specifier"); NT "concept-name"; T "<"; Optional (NT "template-argument-list"); T ">"]
      ]
    ]);

  ("simple-template-id", fun _ =>
    Diagram [
      Sequence [NT "template-name"; T "<"; Optional (NT "template-argument-list"); T ">"]
    ]);

  ("template-id", fun _ =>
    Diagram [
      Choice 0 [
        NT "simple-template-id";
        Sequence [NT "operator-function-id"; T "<"; Optional (NT "template-argument-list"); T ">"];
        Sequence [NT "literal-operator-id"; T "<"; Optional (NT "template-argument-list"); T ">"]
      ]
    ]);

  ("template-argument-list", fun _ =>
    Diagram [
      Sequence [
        NT "template-argument";
        Optional (T "...");
        ZeroOrMore (Sequence [T ","; NT "template-argument"; Optional (T "...")])
      ]
    ]);

  ("template-argument", fun _ =>
    Diagram [
      Choice 0 [
        NT "constant-expression";
        NT "type-id";
        NT "id-expression"
      ]
    ]);

  ("constraint-expression", fun _ =>
    Diagram [NT "logical-or-expression"]);

  ("deduction-guide", fun _ =>
    Diagram [
      Sequence [
        Optional (NT "explicit-specifier");
        NT "template-name";
        T "(";
        NT "parameter-declaration-clause";
        T ")";
        T "->";
        NT "simple-template-id";
        T ";"
      ]
    ]);

  ("concept-definition", fun _ =>
    Diagram [
      Sequence [K "concept"; NT "concept-name"; Optional (NT "attribute-specifier-seq"); T "="; NT "constraint-expression"; T ";"]
    ]);

  ("concept-name", fun _ =>
    Diagram [NT "identifier"]);

  ("typename-specifier", fun _ =>
    Diagram [
      Choice 0 [
        Sequence [K "typename"; NT "nested-name-specifier"; NT "identifier"];
        Sequence [K "typename"; NT "nested-name-specifier"; Optional (K "template"); NT "simple-template-id"]
      ]
    ]);

  ("explicit-instantiation", fun _ =>
    Diagram [
      Sequence [Optional (K "extern"); K "template"; NT "declaration"]
    ]);

  ("explicit-specialization", fun _ =>
    Diagram [
      Sequence [K "template"; T "<"; T ">"; NT "declaration"]
    ]);


  (* ===== A.12 Exception handling [gram.except] ===== *)

  ("try-block", fun _ =>
    Diagram [
      Sequence [K "try"; NT "compound-statement"; NT "handler-seq"]
    ]);

  ("function-try-block", fun _ =>
    Diagram [
      Sequence [K "try"; Optional (NT "ctor-initializer"); NT "compound-statement"; NT "handler-seq"]
    ]);

  ("handler-seq", fun _ =>
    Diagram [OneOrMore (NT "handler")]);

  ("handler", fun _ =>
    Diagram [
      Sequence [K "catch"; T "("; NT "exception-declaration"; T ")"; NT "compound-statement"]
    ]);

  ("exception-declaration", fun _ =>
    Diagram [
      Choice 0 [
        Sequence [Optional (NT "attribute-specifier-seq"); NT "type-specifier-seq"; NT "declarator"];
        Sequence [Optional (NT "attribute-specifier-seq"); NT "type-specifier-seq"; Optional (NT "abstract-declarator")];
        T "..."
      ]
    ]);

  ("noexcept-specifier", fun _ =>
    Diagram [
      Choice 0 [
        Sequence [K "noexcept"; T "("; NT "constant-expression"; T ")"];
        K "noexcept"
      ]
    ]);


  (* ===== A.13 Preprocessing directives [gram.cpp] ===== *)

  ("preprocessing-file", fun _ =>
    Diagram [
      Choice 0 [
        Optional (NT "group");
        NT "module-file"
      ]
    ]);

  ("module-file", fun _ =>
    Diagram [
      Sequence [
        Optional (NT "pp-global-module-fragment");
        NT "pp-module";
        Optional (NT "group");
        Optional (NT "pp-private-module-fragment")
      ]
    ]);

  ("pp-global-module-fragment", fun _ =>
    Diagram [
      Sequence [K "module"; T ";"; NT "new-line"; Optional (NT "group")]
    ]);

  ("pp-private-module-fragment", fun _ =>
    Diagram [
      Sequence [K "module"; T ":"; K "private"; T ";"; NT "new-line"; Optional (NT "group")]
    ]);

  ("group", fun _ =>
    Diagram [OneOrMore (NT "group-part")]);

  ("group-part", fun _ =>
    Diagram [
      Choice 0 [
        NT "control-line";
        NT "if-section";
        NT "text-line";
        Sequence [T "#"; NT "conditionally-supported-directive"]
      ]
    ]);

  ("control-line", fun _ =>
    Diagram [
      Choice 0 [
        Sequence [T "#"; K "include"; NT "pp-tokens"; NT "new-line"];
        NT "pp-import";
        Sequence [T "#"; K "define"; NT "identifier"; NT "replacement-list"; NT "new-line"];
        Sequence [T "#"; K "define"; NT "identifier"; NT "lparen"; Optional (NT "identifier-list"); T ")"; NT "replacement-list"; NT "new-line"];
        Sequence [T "#"; K "define"; NT "identifier"; NT "lparen"; T "..."; T ")"; NT "replacement-list"; NT "new-line"];
        Sequence [T "#"; K "define"; NT "identifier"; NT "lparen"; NT "identifier-list"; T ","; T "..."; T ")"; NT "replacement-list"; NT "new-line"];
        Sequence [T "#"; K "undef"; NT "identifier"; NT "new-line"];
        Sequence [T "#"; K "line"; NT "pp-tokens"; NT "new-line"];
        Sequence [T "#"; K "error"; Optional (NT "pp-tokens"); NT "new-line"];
        Sequence [T "#"; K "warning"; Optional (NT "pp-tokens"); NT "new-line"];
        Sequence [T "#"; K "pragma"; Optional (NT "pp-tokens"); NT "new-line"];
        Sequence [T "#"; NT "new-line"]
      ]
    ]);

  ("if-section", fun _ =>
    Diagram [
      Sequence [NT "if-group"; Optional (NT "elif-groups"); Optional (NT "else-group"); NT "endif-line"]
    ]);

  ("if-group", fun _ =>
    Diagram [
      Choice 0 [
        Sequence [T "#"; K "if"; NT "constant-expression"; NT "new-line"; Optional (NT "group")];
        Sequence [T "#"; K "ifdef"; NT "identifier"; NT "new-line"; Optional (NT "group")];
        Sequence [T "#"; K "ifndef"; NT "identifier"; NT "new-line"; Optional (NT "group")]
      ]
    ]);

  ("elif-groups", fun _ =>
    Diagram [OneOrMore (NT "elif-group")]);

  ("elif-group", fun _ =>
    Diagram [
      Choice 0 [
        Sequence [T "#"; K "elif"; NT "constant-expression"; NT "new-line"; Optional (NT "group")];
        Sequence [T "#"; K "elifdef"; NT "identifier"; NT "new-line"; Optional (NT "group")];
        Sequence [T "#"; K "elifndef"; NT "identifier"; NT "new-line"; Optional (NT "group")]
      ]
    ]);

  ("else-group", fun _ =>
    Diagram [
      Sequence [T "#"; K "else"; NT "new-line"; Optional (NT "group")]
    ]);

  ("endif-line", fun _ =>
    Diagram [Sequence [T "#"; K "endif"; NT "new-line"]]);

  ("text-line", fun _ =>
    Diagram [Sequence [Optional (NT "pp-tokens"); NT "new-line"]]);

  ("conditionally-supported-directive", fun _ =>
    Diagram [Sequence [NT "pp-tokens"; NT "new-line"]]);

  ("lparen", fun _ =>
    Diagram [Comment "( not preceded by whitespace"]);

  ("identifier-list", fun _ =>
    Diagram [
      Sequence [NT "identifier"; ZeroOrMore (Sequence [T ","; NT "identifier"])]
    ]);

  ("replacement-list", fun _ =>
    Diagram [Optional (NT "pp-tokens")]);

  ("pp-tokens", fun _ =>
    Diagram [OneOrMore (NT "preprocessing-token")]);

  ("new-line", fun _ =>
    Diagram [Comment "new-line character"]);

  ("defined-macro-expression", fun _ =>
    Diagram [
      Choice 0 [
        Sequence [K "defined"; NT "identifier"];
        Sequence [K "defined"; T "("; NT "identifier"; T ")"]
      ]
    ]);

  ("h-preprocessing-token", fun _ =>
    Diagram [Comment "any preprocessing-token except >"]);

  ("h-pp-tokens", fun _ =>
    Diagram [OneOrMore (NT "h-preprocessing-token")]);

  ("header-name-tokens", fun _ =>
    Diagram [
      Choice 0 [
        NT "string-literal";
        Sequence [T "<"; NT "h-pp-tokens"; T ">"]
      ]
    ]);

  ("has-include-expression", fun _ =>
    Diagram [
      Choice 0 [
        Sequence [T "__has_include"; T "("; NT "header-name"; T ")"];
        Sequence [T "__has_include"; T "("; NT "header-name-tokens"; T ")"]
      ]
    ]);

  ("has-attribute-expression", fun _ =>
    Diagram [
      Sequence [T "__has_cpp_attribute"; T "("; NT "pp-tokens"; T ")"]
    ]);

  ("pp-module", fun _ =>
    Diagram [
      Sequence [Optional (K "export"); K "module"; Optional (NT "pp-tokens"); T ";"; NT "new-line"]
    ]);

  ("pp-import", fun _ =>
    Diagram [
      Choice 0 [
        Sequence [Optional (K "export"); K "import"; NT "header-name"; Optional (NT "pp-tokens"); T ";"; NT "new-line"];
        Sequence [Optional (K "export"); K "import"; NT "header-name-tokens"; Optional (NT "pp-tokens"); T ";"; NT "new-line"];
        Sequence [Optional (K "export"); K "import"; NT "pp-tokens"; T ";"; NT "new-line"]
      ]
    ]);

  ("va-opt-replacement", fun _ =>
    Diagram [
      Sequence [T "__VA_OPT__"; T "("; Optional (NT "pp-tokens"); T ")"]
    ])
  ] JsMap.empty.

Inductive SectionId : Type :=
| keywords | lexical | literals | basics | expressions | statements
| declarations | modules | classes | overloading | templates | exceptions
| preprocessing.

Definition SECTION_ORDER : list SectionId := [
  keywords;
  lexical;
  literals;
  basics;
  expressions;
  statements;
  declarations;
  modules;
  classes;
  overloading;
  templates;
  exceptions;
  preprocessing
].

Definition SECTION_RULES (s : SectionId) : list RuleName :=
  match s with
  | keywords => [
      "typedef-name";
      "namespace-name";
      "namespace-alias";
      "class-name";
      "enum-name";
      "template-name"
    ]
  | lexical => [
      "n-char";
      "n-char-sequence";
      "named-universal-character";
      "hex-quad";
      "simple-hexadecimal-digit-sequence";
      "universal-character-name";
      "preprocessing-token";
      "token";
      "header-name";
      "h-char-sequence";
      "h-char";
      "q-char-sequence";
      "q-char";
      "pp-number";
      "identifier";
      "identifier-start";
      "identifier-continue";
      "nondigit";
      "digit";
      "keyword";
      "preprocessing-op-or-punc";
      "preprocessing-operator";
      "operator-or-punctuator"
    ]
  | literals => [
      "literal";
      "integer-literal";
      "binary-literal";
      "octal-literal";
      "decimal-literal";
      "hexadecimal-literal";
      "binary-digit";
      "octal-digit";
      "nonzero-digit";
      "hexadecimal-prefix";
      "hexadecimal-digit-sequence";
      "hexadecimal-digit";
      "integer-suffix";
      "unsigned-suffix";
      "long-suffix";
      "long-long-suffix";
      "size-suffix";
      "character-literal";
      "encoding-prefix";
      "c-char-sequence";
      "c-char";
      "basic-c-char";
      "escape-sequence";
      "simple-escape-sequence";
      "simple-escape-sequence-char";
      "numeric-escape-sequence";
      "simple-octal-digit-sequence";
      "octal-escape-sequence";
      "hexadecimal-escape-sequence";
      "conditional-escape-sequence";
      "conditional-escape-sequence-char";
      "floating-point-literal";
      "decimal-floating-point-literal";
      "hexadecimal-floating-point-literal";
      "fractional-constant";
      "hexadecimal-fractional-constant";
      "exponent-part";
      "binary-exponent-part";
      "sign";
      "digit-sequence";
      "floating-point-suffix";
      "string-literal";
      "s-char-sequence";
      "s-char";
      "basic-s-char";
      "raw-string";
      "r-char-sequence";
      "r-char";
      "d-char-sequence";
      "d-char";
      "boolean-literal";
      "pointer-literal";
      "user-defined-literal";
      "user-defined-integer-literal";
      "user-defined-floating-point-literal";
      "user-defined-string-literal";
      "user-defined-character-literal";
      "ud-suffix"
    ]
  | basics => [
      "translation-unit"
    ]
  | expressions => [
      "primary-expression";
      "id-expression";
      "unqualified-id";
      "qualified-id";
      "nested-name-specifier";
      "lambda-expression";
      "lambda-introducer";
      "lambda-declarator";
      "lambda-specifier";
      "lambda-specifier-seq";
      "lambda-capture";
      "capture-default";
      "capture-list";
      "capture";
      "simple-capture";
      "init-capture";
      "fold-expression";
      "fold-operator";
      "requires-expression";
      "requirement-parameter-list";
      "requirement-body";
      "requirement-seq";
      "requirement";
      "simple-requirement";
      "type-requirement";
      "compound-requirement";
      "return-type-requirement";
      "nested-requirement";
      "postfix-expression";
      "expression-list";
      "unary-expression";
      "unary-operator";
      "await-expression";
      "noexcept-expression";
      "new-expression";
      "new-placement";
      "new-type-id";
      "new-declarator";
      "noptr-new-declarator";
      "new-initializer";
      "delete-expression";
      "cast-expression";
      "pm-expression";
      "multiplicative-expression";
      "additive-expression";
      "shift-expression";
      "compare-expression";
      "relational-expression";
      "equality-expression";
      "and-expression";
      "exclusive-or-expression";
      "inclusive-or-expression";
      "logical-and-expression";
      "logical-or-expression";
      "conditional-expression";
      "yield-expression";
      "throw-expression";
      "assignment-expression";
      "assignment-operator";
      "expression";
      "constant-expression"
    ]
  | statements => [
      "statement";
      "init-statement";
      "condition";
      "label";
      "labeled-statement";
      "expression-statement";
      "compound-statement";
      "statement-seq";
      "label-seq";
      "selection-statement";
      "iteration-statement";
      "for-range-declaration";
      "for-range-initializer";
      "jump-statement";
      "coroutine-return-statement";
      "declaration-statement"
    ]
  | declarations => [
      "declaration-seq";
      "declaration";
      "name-declaration";
      "special-declaration";
      "block-declaration";
      "nodeclspec-function-declaration";
      "alias-declaration";
      "simple-declaration";
      "static_assert-declaration";
      "empty-declaration";
      "attribute-declaration";
      "decl-specifier";
      "decl-specifier-seq";
      "storage-class-specifier";
      "function-specifier";
      "explicit-specifier";
      "type-specifier";
      "type-specifier-seq";
      "defining-type-specifier";
      "defining-type-specifier-seq";
      "simple-type-specifier";
      "type-name";
      "elaborated-type-specifier";
      "decltype-specifier";
      "placeholder-type-specifier";
      "init-declarator-list";
      "init-declarator";
      "declarator";
      "ptr-declarator";
      "noptr-declarator";
      "parameters-and-qualifiers";
      "trailing-return-type";
      "ptr-operator";
      "cv-qualifier-seq";
      "cv-qualifier";
      "ref-qualifier";
      "declarator-id";
      "type-id";
      "defining-type-id";
      "abstract-declarator";
      "ptr-abstract-declarator";
      "noptr-abstract-declarator";
      "abstract-pack-declarator";
      "noptr-abstract-pack-declarator";
      "parameter-declaration-clause";
      "parameter-declaration-list";
      "parameter-declaration";
      "initializer";
      "brace-or-equal-initializer";
      "initializer-clause";
      "braced-init-list";
      "initializer-list";
      "designated-initializer-list";
      "designated-initializer-clause";
      "designator";
      "expr-or-braced-init-list";
      "function-definition";
      "function-body";
      "enum-specifier";
      "enum-head";
      "enum-head-name";
      "opaque-enum-declaration";
      "enum-key";
      "enum-base";
      "enumerator-list";
      "enumerator-definition";
      "enumerator";
      "using-enum-declaration";
      "using-enum-declarator";
      "namespace-definition";
      "named-namespace-definition";
      "unnamed-namespace-definition";
      "nested-namespace-definition";
      "enclosing-namespace-specifier";
      "namespace-body";
      "namespace-alias-definition";
      "qualified-namespace-specifier";
      "using-directive";
      "using-declaration";
      "using-declarator-list";
      "using-declarator";
      "asm-declaration";
      "linkage-specification";
      "attribute-specifier-seq";
      "attribute-specifier";
      "alignment-specifier";
      "attribute-using-prefix";
      "attribute-list";
      "attribute";
      "attribute-token";
      "attribute-scoped-token";
      "attribute-namespace";
      "attribute-argument-clause";
      "balanced-token-seq";
      "balanced-token"
    ]
  | modules => [
      "module-declaration";
      "module-name";
      "module-partition";
      "module-name-qualifier";
      "export-declaration";
      "module-import-declaration";
      "global-module-fragment";
      "private-module-fragment";
      "import-keyword";
      "module-keyword";
      "export-keyword"
    ]
  | classes => [
      "class-specifier";
      "class-head";
      "class-head-name";
      "class-virt-specifier";
      "class-key";
      "member-specification";
      "member-declaration";
      "member-declarator-list";
      "member-declarator";
      "virt-specifier-seq";
      "virt-specifier";
      "pure-specifier";
      "conversion-function-id";
      "conversion-type-id";
      "conversion-declarator";
      "base-clause";
      "base-specifier-list";
      "base-specifier";
      "class-or-decltype";
      "access-specifier";
      "ctor-initializer";
      "mem-initializer-list";
      "mem-initializer";
      "mem-initializer-id"
    ]
  | overloading => [
      "operator-function-id";
      "operator";
      "literal-operator-id"
    ]
  | templates => [
      "template-declaration";
      "template-head";
      "template-parameter-list";
      "requires-clause";
      "constraint-logical-or-expression";
      "constraint-logical-and-expression";
      "template-parameter";
      "type-parameter";
      "type-parameter-key";
      "type-constraint";
      "simple-template-id";
      "template-id";
      "template-argument-list";
      "template-argument";
      "constraint-expression";
      "deduction-guide";
      "concept-definition";
      "concept-name";
      "typename-specifier";
      "explicit-instantiation";
      "explicit-specialization"
    ]
  | exceptions => [
      "try-block";
      "function-try-block";
      "handler-seq";
      "handler";
      "exception-declaration";
      "noexcept-specifier"
    ]
  | preprocessing => [
      "preprocessing-file";
      "module-file";
      "pp-global-module-fragment";
      "pp-private-module-fragment";
      "group";
      "group-part";
      "control-line";
      "if-section";
      "if-group";
      "elif-groups";
      "elif-group";
      "else-group";
      "endif-line";
      "text-line";
      "conditionally-supported-directive";
      "lparen";
      "identifier-list";
      "replacement-list";
      "pp-tokens";
      "new-line";
      "defined-macro-expression";
      "h-preprocessing-token";
      "h-pp-tokens";
      "header-name-tokens";
      "has-include-expression";
      "has-attribute-expression";
      "pp-module";
      "pp-import";
      "va-opt-replacement"
    ]
  end.

(** Every name listed by some section, in section order. *)
Definition section_names : list RuleName :=
  concat (map SECTION_RULES SECTION_ORDER).

Definition getRuleFactory (name : RuleName) : option (unit -> DiagramNode) :=
  JsMap.get name rules.

(** The placeholder [createRuleDiagram] builds for an unknown name, which is
    what makes it recognizable. *)
Definition is_placeholder (t : DiagramNode) : bool :=
  match t with
  | Diagram [Comment text] => String.prefix "No factory defined for " text
  | _ => false
  end.

Section Accessors.

Variable lib : Library.

Definition createRuleDiagram (name : RuleName) : H addr :=
  let factory := JsMap.get name rules in
  match factory with
  | None => construct lib (Diagram [Comment ("No factory defined for " ++ name)])
  | Some factory => invoke lib factory
  end.

End Accessors.

End CppSyntaxDiagrams.


(** ** [cppGrammar.ts]: the revised catalog
    (second part of src/features/grammar/ebnfDefinitions.ts) *)

Module CppGrammar.
Import Text Railroad.

Set Warnings "-register-all".

Definition T (s : string) : DiagramNode := Terminal s.
Definition NT (s : string) : DiagramNode := NonTerminal s.

(** precedence-chain helper *)
Definition chain (base : string) (ops : list string) : DiagramNode :=
  Sequence [
    NT base;
    ZeroOrMore (Sequence [Choice 0 (map T ops); NT base])
  ].

Definition RuleName : Type := string.

(** [const rules = new Map<string, () => any>()] after the [rules.set]
    statements of the module have run, in source order.  The one factory
    with a block body, [postfix-expression], names a subtree with [const]
    before it builds the diagram; the tree is the same, the objects of the
    named subtree are older than their place in the tree suggests. *)
Definition rules : JsMap.t (unit -> DiagramNode) :=
  JsMap.sets [

  (* ===== A.2 Keywords [gram.key] ===== *)

  ("typedef-name", fun _ =>
    Diagram [
      Choice 0 [
        NT "identifier";
        NT "simple-template-id"
      ]
    ]);

  ("namespace-name", fun _ =>
    Diagram [
      Choice 0 [
        NT "identifier";
        NT "namespace-alias"
      ]
    ]);

  ("namespace-alias", fun _ =>
    Diagram [NT "identifier"]);

  ("class-name", fun _ =>
    Diagram [
      Choice 0 [
        NT "identifier";
        NT "simple-template-id"
      ]
    ]);

  ("enum-name", fun _ =>
    Diagram [NT "identifier"]);

  ("template-name", fun _ =>
    Diagram [NT "identifier"]);


  (* ===== A.3 Lexical conventions [gram.lex] ===== *)

  ("n-char", fun _ =>
    Diagram [Comment "any member of the translation character set except } or new-line"]);

  ("n-char-sequence", fun _ =>
    Diagram [OneOrMore (NT "n-char")]);

  ("named-universal-character", fun _ =>
    Diagram [Sequence [T "\N{"; NT "n-char-sequence"; T "}"]]);

  ("hex-quad", fun _ =>
    Diagram [
      Sequence [
        NT "hexadecimal-digit";
        NT "hexadecimal-digit";
        NT "hexadecimal-digit";
        NT "hexadecimal-digit"
      ]
    ]);

  ("simple-hexadecimal-digit-sequence", fun _ =>
    Diagram [OneOrMore (NT "hexadecimal-digit")]);

  ("universal-character-name", fun _ =>
    Diagram [
      Choice 0 [
        Sequence [T "\u"; NT "hex-quad"];
        Sequence [T "\U"; NT "hex-quad"; NT "hex-quad"];
        Sequence [T "\u{"; NT "simple-hexadecimal-digit-sequence"; T "}"];
        NT "named-universal-character"
      ]
    ]);

  ("preprocessing-token", fun _ =>
    Diagram [
      Choice 0 [
        NT "header-name";
        NT "import-keyword";
        NT "module-keyword";
        NT "export-keyword";
        NT "identifier";
        NT "pp-number";
        NT "character-literal";
        NT "user-defined-character-literal";
        NT "string-literal";
        NT "user-defined-string-literal";
        NT "preprocessing-op-or-punc";
        Comment "other non-whitespace"
      ]
    ]);

  ("token", fun _ =>
    Diagram [
      Choice 0 [
        NT "identifier";
        NT "keyword";
        NT "literal";
        NT "operator-or-punctuator"
      ]
    ]);

  ("header-name", fun _ =>
    Diagram [
      Choice 0 [
        Sequence [T "<"; NT "h-char-sequence"; T ">"];
        Sequence [T dq; NT "q-char-sequence"; T dq]
      ]
    ]);

  ("h-char-sequence", fun _ =>
    Diagram [OneOrMore (NT "h-char")]);

  ("h-char", fun _ =>
    Diagram [Comment "any character except new-line and >"]);

  ("q-char-sequence", fun _ =>
    Diagram [OneOrMore (NT "q-char")]);

  ("q-char", fun _ =>
    Diagram [Comment ("any character except new-line and " ++ dq)]);

  ("pp-number", fun _ =>
    Diagram [
      Choice 0 [
        NT "digit";
        Sequence [T "."; NT "digit"]
      ];
      ZeroOrMore (
        Choice 0 [
          NT "identifier-continue";
          Sequence [T "'"; NT "digit"];
          Sequence [T "'"; NT "nondigit"];
          Sequence [Choice 0 [ T "e"; T "E"; T "p"; T "P"]; NT "sign"];
          T "."
        ]
      )
    ]);

  ("identifier", fun _ =>
    Diagram [
      Sequence [
        NT "identifier-start";
        ZeroOrMore (NT "identifier-continue")
      ]
    ]);

  ("identifier-start", fun _ =>
    Diagram [
      Choice 0 [
        NT "nondigit";
        Comment "XID_Start character"
      ]
    ]);

  ("identifier-continue", fun _ =>
    Diagram [
      Choice 0 [
        NT "digit";
        NT "nondigit";
        Comment "XID_Continue character"
      ]
    ]);

  ("nondigit", fun _ =>
    Diagram [
      Choice 0 [
        T "a-z";
        T "A-Z";
        T "_"
      ]
    ]);

  ("digit", fun _ =>
    Diagram [T "0-9"]);

  ("keyword", fun _ =>
    Diagram [
      Choice 0 [
        Comment "any identifier listed in Table 5";
        NT "import-keyword";
        NT "module-keyword";
        NT "export-keyword"
      ]
    ]);

  ("preprocessing-op-or-punc", fun _ =>
    Diagram [
      Choice 0 [
        NT "preprocessing-operator";
        NT "operator-or-punctuator"
      ]
    ]);

  ("preprocessing-operator", fun _ =>
    Diagram [
      Choice 0 [ T "#"; T "##"; T "%:"; T "%:%:"]
    ]);

  ("operator-or-punctuator", fun _ =>
    Diagram [
      Stack [
        Choice 0 [ T "{"; T "}"; T "["; T "]"; T "("; T ")"; T "<:"; T ":>"; T "<%"; T "%>"];
        Choice 0 [ T ";"; T ":"; T "..."; T "?"; T "::"; T "."; T ".*"; T "->"; T "->*"; T "~"];
        Choice 0 [ T "!"; T "+"; T "-"; T "*"; T "/"; T "%"; T "^"; T "&"; T "|"];
        Choice 0 [ T "="; T "+="; T "-="; T "*="; T "/="; T "%="; T "^="; T "&="; T "|="];
        Choice 0 [ T "=="; T "!="; T "<"; T ">"; T "<="; T ">="; T "<=>"; T "&&"; T "||"];
        Choice 0 [ T "<<"; T ">>"; T "<<="; T ">>="; T "++"; T "--"; T ","]
      ]
    ]);


  (* ===== A.3 Literals ===== *)

  ("literal", fun _ =>
    Diagram [
      Choice 0 [
        NT "integer-literal";
        NT "character-literal";
        NT "floating-point-literal";
        NT "string-literal";
        NT "boolean-literal";
        NT "pointer-literal";
        NT "user-defined-literal"
      ]
    ]);

  ("integer-literal", fun _ =>
    Diagram [
      Choice 0 [
        NT "binary-literal";
        NT "octal-literal";
        NT "decimal-literal";
        NT "hexadecimal-literal"
      ];
      Optional (NT "integer-suffix")
    ]);

  ("binary-literal", fun _ =>
    Diagram [
      Choice 0 [ T "0b"; T "0B"];
      NT "binary-digit";
      ZeroOrMore (Sequence [Optional (T "'"); NT "binary-digit"])
    ]);

  ("octal-literal", fun _ =>
    Diagram [
      T "0";
      ZeroOrMore (Sequence [Optional (T "'"); NT "octal-digit"])
    ]);

  ("decimal-literal", fun _ =>
    Diagram [
      NT "nonzero-digit";
      ZeroOrMore (Sequence [Optional (T "'"); NT "digit"])
    ]);

  ("hexadecimal-literal", fun _ =>
    Diagram [
      NT "hexadecimal-prefix";
      NT "hexadecimal-digit-sequence"
    ]);

  ("binary-digit", fun _ =>
    Diagram [Choice 0 [ T "0"; T "1"]]);

  ("octal-digit", fun _ =>
    Diagram [T "0-7"]);

  ("nonzero-digit", fun _ =>
    Diagram [T "1-9"]);

  ("hexadecimal-prefix", fun _ =>
    Diagram [Choice 0 [ T "0x"; T "0X"]]);

  ("hexadecimal-digit-sequence", fun _ =>
    Diagram [
      NT "hexadecimal-digit";
      ZeroOrMore (Sequence [Optional (T "'"); NT "hexadecimal-digit"])
    ]);

  ("hexadecimal-digit", fun _ =>
    Diagram [Choice 0 [ T "0-9"; T "a-f"; T "A-F"]]);

  ("integer-suffix", fun _ =>
    Diagram [
      Choice 0 [
        Sequence [NT "unsigned-suffix"; Optional (Choice 0 [ NT "long-suffix"; NT "long-long-suffix"; NT "size-suffix"])];
        Sequence [NT "long-suffix"; Optional (NT "unsigned-suffix")];
        Sequence [NT "long-long-suffix"; Optional (NT "unsigned-suffix")];
        Sequence [NT "size-suffix"; Optional (NT "unsigned-suffix")]
      ]
    ]);

  ("unsigned-suffix", fun _ =>
    Diagram [Choice 0 [ T "u"; T "U"]]);

  ("long-suffix", fun _ =>
    Diagram [Choice 0 [ T "l"; T "L"]]);

  ("long-long-suffix", fun _ =>
    Diagram [Choice 0 [ T "ll"; T "LL"]]);

  ("size-suffix", fun _ =>
    Diagram [Choice 0 [ T "z"; T "Z"]]);

  ("character-literal", fun _ =>
    Diagram [
      Optional (NT "encoding-prefix");
      T "'";
      NT "c-char-sequence";
      T "'"
    ]);

  ("encoding-prefix", fun _ =>
    Diagram [Choice 0 [ T "u8"; T "u"; T "U"; T "L"]]);

  ("c-char-sequence", fun _ =>
    Diagram [OneOrMore (NT "c-char")]);

  ("c-char", fun _ =>
    Diagram [
      Choice 0 [
        NT "basic-c-char";
        NT "escape-sequence";
        NT "universal-character-name"
      ]
    ]);

  ("basic-c-char", fun _ =>
    Diagram [Comment "any character except ', \, or new-line"]);

  ("escape-sequence", fun _ =>
    Diagram [
      Choice 0 [
        NT "simple-escape-sequence";
        NT "numeric-escape-sequence";
        NT "conditional-escape-sequence"
      ]
    ]);

  ("simple-escape-sequence", fun _ =>
    Diagram [
      T bslash;
      NT "simple-escape-sequence-char"
    ]);

  ("simple-escape-sequence-char", fun _ =>
    Diagram [
      Choice 0 [ T "'"; T dq; T "?"; T bslash; T "a"; T "b"; T "f"; T "n"; T "r"; T "t"; T "v"]
    ]);

  ("numeric-escape-sequence", fun _ =>
    Diagram [
      Choice 0 [
        NT "octal-escape-sequence";
        NT "hexadecimal-escape-sequence"
      ]
    ]);

  ("simple-octal-digit-sequence", fun _ =>
    Diagram [OneOrMore (NT "octal-digit")]);

  ("octal-escape-sequence", fun _ =>
    Diagram [
      Choice 0 [
        Sequence [T bslash; NT "octal-digit"; Optional (NT "octal-digit"); Optional (NT "octal-digit")];
        Sequence [T "\o{"; NT "simple-octal-digit-sequence"; T "}"]
      ]
    ]);

  ("hexadecimal-escape-sequence", fun _ =>
    Diagram [
      Choice 0 [
        Sequence [T "\x"; NT "simple-hexadecimal-digit-sequence"];
        Sequence [T "\x{"; NT "simple-hexadecimal-digit-sequence"; T "}"]
      ]
    ]);

  ("conditional-escape-sequence", fun _ =>
    Diagram [
      T bslash;
      NT "conditional-escape-sequence-char"
    ]);

  ("conditional-escape-sequence-char", fun _ =>
    Diagram [Comment "any basic char not octal-digit, escape-char, N, o, u, U, x"]);

  ("floating-point-literal", fun _ =>
    Diagram [
      Choice 0 [
        NT "decimal-floating-point-literal";
        NT "hexadecimal-floating-point-literal"
      ]
    ]);

  ("decimal-floating-point-literal", fun _ =>
    Diagram [
      Choice 0 [
        Sequence [NT "fractional-constant"; Optional (NT "exponent-part")];
        Sequence [NT "digit-sequence"; NT "exponent-part"]
      ];
      Optional (NT "floating-point-suffix")
    ]);

  ("hexadecimal-floating-point-literal", fun _ =>
    Diagram [
      NT "hexadecimal-prefix";
      Choice 0 [
        NT "hexadecimal-fractional-constant";
        NT "hexadecimal-digit-sequence"
      ];
      NT "binary-exponent-part";
      Optional (NT "floating-point-suffix")
    ]);

  ("fractional-constant", fun _ =>
    Diagram [
      Choice 0 [
        Sequence [Optional (NT "digit-sequence"); T "."; NT "digit-sequence"];
        Sequence [NT "digit-sequence"; T "."]
      ]
    ]);

  ("hexadecimal-fractional-constant", fun _ =>
    Diagram [
      Choice 0 [
        Sequence [Optional (NT "hexadecimal-digit-sequence"); T "."; NT "hexadecimal-digit-sequence"];
        Sequence [NT "hexadecimal-digit-sequence"; T "."]
      ]
    ]);

  ("exponent-part", fun _ =>
    Diagram [
      Choice 0 [ T "e"; T "E"];
      Optional (NT "sign");
      NT "digit-sequence"
    ]);

  ("binary-exponent-part", fun _ =>
    Diagram [
      Choice 0 [ T "p"; T "P"];
      Optional (NT "sign");
      NT "digit-sequence"
    ]);

  ("sign", fun _ =>
    Diagram [Choice 0 [ T "+"; T "-"]]);

  ("digit-sequence", fun _ =>
    Diagram [
      NT "digit";
      ZeroOrMore (Sequence [Optional (T "'"); NT "digit"])
    ]);

  ("floating-point-suffix", fun _ =>
    Diagram [
      Choice 0 [
        T "f"; T "l"; T "f16"; T "f32"; T "f64"; T "f128"; T "bf16";
        T "F"; T "L"; T "F16"; T "F32"; T "F64"; T "F128"; T "BF16"
      ]
    ]);

  ("string-literal", fun _ =>
    Diagram [
      Optional (NT "encoding-prefix");
      Choice 0 [
        Sequence [T dq; Optional (NT "s-char-sequence"); T dq];
        Sequence [T "R"; NT "raw-string"]
      ]
    ]);

  ("s-char-sequence", fun _ =>
    Diagram [OneOrMore (NT "s-char")]);

  ("s-char", fun _ =>
    Diagram [
      Choice 0 [
        NT "basic-s-char";
        NT "escape-sequence";
        NT "universal-character-name"
      ]
    ]);

  ("basic-s-char", fun _ =>
    Diagram [Comment ("any character except " ++ dq ++ ", \, or new-line")]);

  ("raw-string", fun _ =>
    Diagram [
      T dq;
      Optional (NT "d-char-sequence");
      T "(";
      Optional (NT "r-char-sequence");
      T ")";
      Optional (NT "d-char-sequence");
      T dq
    ]);

  ("r-char-sequence", fun _ =>
    Diagram [OneOrMore (NT "r-char")]);

  ("r-char", fun _ =>
    Diagram [Comment ("any character except ) followed by d-char-sequence and " ++ dq)]);

  ("d-char-sequence", fun _ =>
    Diagram [OneOrMore (NT "d-char")]);

  ("d-char", fun _ =>
    Diagram [Comment "any basic char except space, (, ), \, tab, newline"]);

  ("boolean-literal", fun _ =>
    Diagram [Choice 0 [ T "false"; T "true"]]);

  ("pointer-literal", fun _ =>
    Diagram [T "nullptr"]);

  ("user-defined-literal", fun _ =>
    Diagram [
      Choice 0 [
        NT "user-defined-integer-literal";
        NT "user-defined-floating-point-literal";
        NT "user-defined-string-literal";
        NT "user-defined-character-literal"
      ]
    ]);

  ("user-defined-integer-literal", fun _ =>
    Diagram [
      Choice 0 [
        NT "decimal-literal";
        NT "octal-literal";
        NT "hexadecimal-literal";
        NT "binary-literal"
      ];
      NT "ud-suffix"
    ]);

  ("user-defined-floating-point-literal", fun _ =>
    Diagram [
      Choice 0 [
        Sequence [NT "fractional-constant"; Optional (NT "exponent-part")];
        Sequence [NT "digit-sequence"; NT "exponent-part"];
        Sequence [NT "hexadecimal-prefix"; NT "hexadecimal-fractional-constant"; NT "binary-exponent-part"];
        Sequence [NT "hexadecimal-prefix"; NT "hexadecimal-digit-sequence"; NT "binary-exponent-part"]
      ];
      NT "ud-suffix"
    ]);

  ("user-defined-string-literal", fun _ =>
    Diagram [NT "string-literal"; NT "ud-suffix"]);

  ("user-defined-character-literal", fun _ =>
    Diagram [NT "character-literal"; NT "ud-suffix"]);

  ("ud-suffix", fun _ =>
    Diagram [NT "identifier"]);


  (* ===== A.4 Basics [gram.basic] ===== *)

  ("translation-unit", fun _ =>
    Diagram [
      Choice 0 [
        Optional (NT "declaration-seq");
        Sequence [
          Optional (NT "global-module-fragment");
          NT "module-declaration";
          Optional (NT "declaration-seq");
          Optional (NT "private-module-fragment")
        ]
      ]
    ]);


  (* ===== A.5 Expressions [gram.expr] ===== *)

  ("primary-expression", fun _ =>
    Diagram [
      Choice 0 [
        NT "literal";
        T "this";
        Sequence [T "("; NT "expression"; T ")"];
        NT "id-expression";
        NT "lambda-expression";
        NT "fold-expression";
        NT "requires-expression"
      ]
    ]);

  ("id-expression", fun _ =>
    Diagram [
      Choice 0 [
        NT "unqualified-id";
        NT "qualified-id"
      ]
    ]);

  ("unqualified-id", fun _ =>
    Diagram [
      Choice 0 [
        NT "identifier";
        NT "operator-function-id";
        NT "conversion-function-id";
        NT "literal-operator-id";
        Sequence [T "~"; NT "type-name"];
        Sequence [T "~"; NT "decltype-specifier"];
        NT "template-id"
      ]
    ]);

  ("qualified-id", fun _ =>
    Diagram [
      NT "nested-name-specifier";
      Optional (T "template");
      NT "unqualified-id"
    ]);

  ("nested-name-specifier", fun _ =>
    Diagram [
      Choice 0 [
        T "::";
        Sequence [NT "type-name"; T "::"];
        Sequence [NT "namespace-name"; T "::"];
        Sequence [NT "decltype-specifier"; T "::"]
      ];
      ZeroOrMore (
        Choice 0 [
          Sequence [NT "identifier"; T "::"];
          Sequence [Optional (T "template"); NT "simple-template-id"; T "::"]
        ]
      )
    ]);

  ("lambda-expression", fun _ =>
    Diagram [
      NT "lambda-introducer";
      Optional (
        Sequence [
          T "<";
          NT "template-parameter-list";
          T ">";
          Optional (NT "requires-clause")
        ]
      );
      Optional (NT "attribute-specifier-seq");
      NT "lambda-declarator";
      NT "compound-statement"
    ]);

  ("lambda-introducer", fun _ =>
    Diagram [
      T "[";
      Optional (NT "lambda-capture");
      T "]"
    ]);

  ("lambda-declarator", fun _ =>
    Diagram [
      Choice 0 [
        Sequence [
          Optional (NT "lambda-specifier-seq");
          Optional (NT "noexcept-specifier");
          Optional (NT "attribute-specifier-seq");
          Optional (NT "trailing-return-type")
        ];
        Sequence [
          T "(";
          NT "parameter-declaration-clause";
          T ")";
          Optional (NT "lambda-specifier-seq");
          Optional (NT "noexcept-specifier");
          Optional (NT "attribute-specifier-seq");
          Optional (NT "trailing-return-type");
          Optional (NT "requires-clause")
        ]
      ]
    ]);

  ("lambda-specifier", fun _ =>
    Diagram [
      Choice 0 [
        T "consteval";
        T "constexpr";
        T "mutable";
        T "static"
      ]
    ]);

  ("lambda-specifier-seq", fun _ =>
    Diagram [OneOrMore (NT "lambda-specifier")]);

  ("lambda-capture", fun _ =>
    Diagram [
      Choice 0 [
        NT "capture-default";
        NT "capture-list";
        Sequence [NT "capture-default"; T ","; NT "capture-list"]
      ]
    ]);

  ("capture-default", fun _ =>
    Diagram [Choice 0 [ T "&"; T "="]]);

  ("capture-list", fun _ =>
    Diagram [
      NT "capture";
      ZeroOrMore (Sequence [T ","; NT "capture"])
    ]);

  ("capture", fun _ =>
    Diagram [
      Choice 0 [
        NT "simple-capture";
        NT "init-capture"
      ]
    ]);

  ("simple-capture", fun _ =>
    Diagram [
      Choice 0 [
        Sequence [NT "identifier"; Optional (T "...")];
        Sequence [T "&"; NT "identifier"; Optional (T "...")];
        T "this";
        Sequence [T "*"; T "this"]
      ]
    ]);

  ("init-capture", fun _ =>
    Diagram [
      Optional (T "...");
      Optional (T "&");
      NT "identifier";
      NT "initializer"
    ]);

  ("fold-expression", fun _ =>
    Diagram [
      T "(";
      Choice 0 [
        Sequence [NT "cast-expression"; NT "fold-operator"; T "..."];
        Sequence [T "..."; NT "fold-operator"; NT "cast-expression"];
        Sequence [NT "cast-expression"; NT "fold-operator"; T "..."; NT "fold-operator"; NT "cast-expression"]
      ];
      T ")"
    ]);

  ("fold-operator", fun _ =>
    Diagram [
      Choice 0 [
        T "+"; T "-"; T "*"; T "/"; T "%"; T "^"; T "&"; T "|";
        T "<<"; T ">>"; T "+="; T "-="; T "*="; T "/="; T "%=";
        T "^="; T "&="; T "|="; T "<<="; T ">>="; T "=";
        T "=="; T "!="; T "<"; T ">"; T "<="; T ">=";
        T "&&"; T "||"; T ","; T ".*"; T "->*"
      ]
    ]);

  ("requires-expression", fun _ =>
    Diagram [
      T "requires";
      Optional (NT "requirement-parameter-list");
      NT "requirement-body"
    ]);

  ("requirement-parameter-list", fun _ =>
    Diagram [
      T "(";
      NT "parameter-declaration-clause";
      T ")"
    ]);

  ("requirement-body", fun _ =>
    Diagram [
      T "{";
      NT "requirement-seq";
      T "}"
    ]);

  ("requirement-seq", fun _ =>
    Diagram [OneOrMore (NT "requirement")]);

  ("requirement", fun _ =>
    Diagram [
      Choice 0 [
        NT "simple-requirement";
        NT "type-requirement";
        NT "compound-requirement";
        NT "nested-requirement"
      ]
    ]);

  ("simple-requirement", fun _ =>
    Diagram [NT "expression"; T ";"]);

  ("type-requirement", fun _ =>
    Diagram [
      T "typename";
      Optional (NT "nested-name-specifier");
      NT "type-name";
      T ";"
    ]);

  ("compound-requirement", fun _ =>
    Diagram [
      T "{";
      NT "expression";
      T "}";
      Optional (T "noexcept");
      Optional (NT "return-type-requirement");
      T ";"
    ]);

  ("return-type-requirement", fun _ =>
    Diagram [T "->"; NT "type-constraint"]);

  ("nested-requirement", fun _ =>
    Diagram [T "requires"; NT "constraint-expression"; T ";"]);

  ("postfix-expression", fun _ =>
    let postfixSuffix := Choice 0 [
      Sequence [T "["; Optional (NT "expression-list"); T "]"];
      Sequence [T "("; Optional (NT "expression-list"); T ")"];
      Sequence [T "."; Optional (T "template"); NT "id-expression"];
      Sequence [T "->"; Optional (T "template"); NT "id-expression"];
      T "++";
      T "--"
    ] in

    Diagram [
      Choice 0 [
        NT "primary-expression";
        Sequence [NT "simple-type-specifier"; T "("; Optional (NT "expression-list"); T ")"];
        Sequence [NT "typename-specifier"; T "("; Optional (NT "expression-list"); T ")"];
        Sequence [NT "simple-type-specifier"; NT "braced-init-list"];
        Sequence [NT "typename-specifier"; NT "braced-init-list"];
        Sequence [T "dynamic_cast"; T "<"; NT "type-id"; T ">"; T "("; NT "expression"; T ")"];
        Sequence [T "static_cast"; T "<"; NT "type-id"; T ">"; T "("; NT "expression"; T ")"];
        Sequence [T "reinterpret_cast"; T "<"; NT "type-id"; T ">"; T "("; NT "expression"; T ")"];
        Sequence [T "const_cast"; T "<"; NT "type-id"; T ">"; T "("; NT "expression"; T ")"];
        Sequence [T "typeid"; T "("; Choice 0 [ NT "expression"; NT "type-id"]; T ")"]
      ];
      ZeroOrMore (postfixSuffix)
    ]);

  ("expression-list", fun _ =>
    Diagram [NT "initializer-list"]);

  ("unary-expression", fun _ =>
    Diagram [
      Choice 0 [
        NT "postfix-expression";
        Sequence [NT "unary-operator"; NT "cast-expression"];
        Sequence [T "++"; NT "cast-expression"];
        Sequence [T "--"; NT "cast-expression"];
        NT "await-expression";
        Sequence [T "sizeof"; NT "unary-expression"];
        Sequence [T "sizeof"; T "("; NT "type-id"; T ")"];
        Sequence [T "sizeof"; T "..."; T "("; NT "identifier"; T ")"];
        Sequence [T "alignof"; T "("; NT "type-id"; T ")"];
        NT "noexcept-expression";
        NT "new-expression";
        NT "delete-expression"
      ]
    ]);

  ("unary-operator", fun _ =>
    Diagram [Choice 0 [ T "*"; T "&"; T "+"; T "-"; T "!"; T "~"]]);

  ("await-expression", fun _ =>
    Diagram [T "co_await"; NT "cast-expression"]);

  ("noexcept-expression", fun _ =>
    Diagram [T "noexcept"; T "("; NT "expression"; T ")"]);

  ("new-expression", fun _ =>
    Diagram [
      Optional (T "::");
      T "new";
      Optional (NT "new-placement");
      Choice 0 [
        NT "new-type-id";
        Sequence [T "("; NT "type-id"; T ")"]
      ];
      Optional (NT "new-initializer")
    ]);

  ("new-placement", fun _ =>
    Diagram [T "("; NT "expression-list"; T ")"]);

  ("new-type-id", fun _ =>
    Diagram [NT "type-specifier-seq"; Optional (NT "new-declarator")]);

  ("new-declarator", fun _ =>
    Diagram [
      Choice 0 [
        Sequence [NT "ptr-operator"; Optional (NT "new-declarator")];
        NT "noptr-new-declarator"
      ]
    ]);

  ("noptr-new-declarator", fun _ =>
    Diagram [
      T "[";
      Optional (NT "expression");
      T "]";
      Optional (NT "attribute-specifier-seq");
      ZeroOrMore (
        Sequence [T "["; NT "constant-expression"; T "]"; Optional (NT "attribute-specifier-seq")]
      )
    ]);

  ("new-initializer", fun _ =>
    Diagram [
      Choice 0 [
        Sequence [T "("; Optional (NT "expression-list"); T ")"];
        NT "braced-init-list"
      ]
    ]);

  ("delete-expression", fun _ =>
    Diagram [
      Optional (T "::");
      T "delete";
      Optional (Sequence [T "["; T "]"]);
      NT "cast-expression"
    ]);

  ("cast-expression", fun _ =>
    Diagram [
      ZeroOrMore (Sequence [T "("; NT "type-id"; T ")"]);
      NT "unary-expression"
    ]);

  ("pm-expression", fun _ =>
    Diagram [
      NT "cast-expression";
      ZeroOrMore (
        Sequence [Choice 0 [ T ".*"; T "->*"]; NT "cast-expression"]
      )
    ]);

  ("multiplicative-expression", fun _ => Diagram [chain "pm-expression" ["*"; "/"; "%"]]);

  ("additive-expression", fun _ => Diagram [chain "multiplicative-expression" ["+"; "-"]]);

  ("shift-expression", fun _ => Diagram [chain "additive-expression" ["<<"; ">>"]]);

  ("compare-expression", fun _ => Diagram [chain "shift-expression" ["<=>"]]);

  ("relational-expression", fun _ => Diagram [chain "compare-expression" ["<"; ">"; "<="; ">="]]);

  ("equality-expression", fun _ => Diagram [chain "relational-expression" ["=="; "!="]]);

  ("and-expression", fun _ => Diagram [chain "equality-expression" ["&"]]);

  ("exclusive-or-expression", fun _ => Diagram [chain "and-expression" ["^"]]);

  ("inclusive-or-expression", fun _ => Diagram [chain "exclusive-or-expression" ["|"]]);

  ("logical-and-expression", fun _ => Diagram [chain "inclusive-or-expression" ["&&"]]);

  ("logical-or-expression", fun _ => Diagram [chain "logical-and-expression" ["||"]]);

  ("conditional-expression", fun _ =>
    Diagram [
      NT "logical-or-expression";
      Optional (Sequence [T "?"; NT "expression"; T ":"; NT "assignment-expression"])
    ]);

  ("yield-expression", fun _ =>
    Diagram [
      T "co_yield";
      Choice 0 [
        NT "assignment-expression";
        NT "braced-init-list"
      ]
    ]);

  ("throw-expression", fun _ =>
    Diagram [T "throw"; Optional (NT "assignment-expression")]);

  ("assignment-expression", fun _ =>
    Diagram [
      Choice 0 [
        NT "conditional-expression";
        NT "yield-expression";
        NT "throw-expression";
        Sequence [NT "logical-or-expression"; NT "assignment-operator"; NT "initializer-clause"]
      ]
    ]);

  ("assignment-operator", fun _ =>
    Diagram [
      Choice 0 [
        T "="; T "*="; T "/="; T "%="; T "+="; T "-=";
        T ">>="; T "<<="; T "&="; T "^="; T "|="
      ]
    ]);

  ("expression", fun _ =>
    Diagram [
      NT "assignment-expression";
      ZeroOrMore (Sequence [T ","; NT "assignment-expression"])
    ]);

  ("constant-expression", fun _ =>
    Diagram [NT "conditional-expression"]);


  (* ===== A.6 Statements [gram.stmt] ===== *)

  ("statement", fun _ =>
    Diagram [
      Choice 0 [
        NT "labeled-statement";
        Sequence [Optional (NT "attribute-specifier-seq"); NT "expression-statement"];
        Sequence [Optional (NT "attribute-specifier-seq"); NT "compound-statement"];
        Sequence [Optional (NT "attribute-specifier-seq"); NT "selection-statement"];
        Sequence [Optional (NT "attribute-specifier-seq"); NT "iteration-statement"];
        Sequence [Optional (NT "attribute-specifier-seq"); NT "jump-statement"];
        NT "declaration-statement";
        Sequence [Optional (NT "attribute-specifier-seq"); NT "try-block"]
      ]
    ]);

  ("init-statement", fun _ =>
    Diagram [
      Choice 0 [
        NT "expression-statement";
        NT "simple-declaration";
        NT "alias-declaration"
      ]
    ]);

  ("condition", fun _ =>
    Diagram [
      Choice 0 [
        NT "expression";
        Sequence [
          Optional (NT "attribute-specifier-seq");
          NT "decl-specifier-seq";
          NT "declarator";
          NT "brace-or-equal-initializer"
        ]
      ]
    ]);

  ("label", fun _ =>
    Diagram [
      Optional (NT "attribute-specifier-seq");
      Choice 0 [
        Sequence [NT "identifier"; T ":"];
        Sequence [T "case"; NT "constant-expression"; T ":"];
        Sequence [T "default"; T ":"]
      ]
    ]);

  ("labeled-statement", fun _ =>
    Diagram [NT "label"; NT "statement"]);

  ("expression-statement", fun _ =>
    Diagram [Optional (NT "expression"); T ";"]);

  ("compound-statement", fun _ =>
    Diagram [
      T "{";
      Optional (NT "statement-seq");
      Optional (NT "label-seq");
      T "}"
    ]);

  ("statement-seq", fun _ =>
    Diagram [OneOrMore (NT "statement")]);

  ("label-seq", fun _ =>
    Diagram [OneOrMore (NT "label")]);

  ("selection-statement", fun _ =>
    Diagram [
      Choice 0 [
        Sequence [
          T "if";
          Optional (T "constexpr");
          T "(";
          Optional (NT "init-statement");
          NT "condition";
          T ")";
          NT "statement";
          Optional (Sequence [T "else"; NT "statement"])
        ];
        Sequence [
          T "if";
          Optional (T "!");
          T "consteval";
          NT "compound-statement";
          Optional (Sequence [T "else"; NT "statement"])
        ];
        Sequence [
          T "switch";
          T "(";
          Optional (NT "init-statement");
          NT "condition";
          T ")";
          NT "statement"
        ]
      ]
    ]);

  ("iteration-statement", fun _ =>
    Diagram [
      Choice 0 [
        Sequence [T "while"; T "("; NT "condition"; T ")"; NT "statement"];
        Sequence [T "do"; NT "statement"; T "while"; T "("; NT "expression"; T ")"; T ";"];
        Sequence [
          T "for";
          T "(";
          NT "init-statement";
          Optional (NT "condition");
          T ";";
          Optional (NT "expression");
          T ")";
          NT "statement"
        ];
        Sequence [
          T "for";
          T "(";
          Optional (NT "init-statement");
          NT "for-range-declaration";
          T ":";
          NT "for-range-initializer";
          T ")";
          NT "statement"
        ]
      ]
    ]);

  ("for-range-declaration", fun _ =>
    Diagram [
      Optional (NT "attribute-specifier-seq");
      NT "decl-specifier-seq";
      Choice 0 [
        NT "declarator";
        Sequence [Optional (NT "ref-qualifier"); T "["; NT "identifier-list"; T "]"]
      ]
    ]);

  ("for-range-initializer", fun _ =>
    Diagram [NT "expr-or-braced-init-list"]);

  ("jump-statement", fun _ =>
    Diagram [
      Choice 0 [
        Sequence [T "break"; T ";"];
        Sequence [T "continue"; T ";"];
        Sequence [T "return"; Optional (NT "expr-or-braced-init-list"); T ";"];
        NT "coroutine-return-statement";
        Sequence [T "goto"; NT "identifier"; T ";"]
      ]
    ]);

  ("coroutine-return-statement", fun _ =>
    Diagram [T "co_return"; Optional (NT "expr-or-braced-init-list"); T ";"]);

  ("declaration-statement", fun _ =>
    Diagram [NT "block-declaration"]);


  (* ===== A.7 Declarations [gram.dcl] ===== *)

  ("declaration-seq", fun _ =>
    Diagram [OneOrMore (NT "declaration")]);

  ("declaration", fun _ =>
    Diagram [
      Choice 0 [
        NT "name-declaration";
        NT "special-declaration"
      ]
    ]);

  ("name-declaration", fun _ =>
    Diagram [
      Choice 0 [
        NT "block-declaration";
        NT "nodeclspec-function-declaration";
        NT "function-definition";
        NT "template-declaration";
        NT "deduction-guide";
        NT "linkage-specification";
        NT "namespace-definition";
        NT "empty-declaration";
        NT "attribute-declaration";
        NT "module-import-declaration"
      ]
    ]);

  ("special-declaration", fun _ =>
    Diagram [
      Choice 0 [
        NT "explicit-instantiation";
        NT "explicit-specialization";
        NT "export-declaration"
      ]
    ]);

  ("block-declaration", fun _ =>
    Diagram [
      Choice 0 [
        NT "simple-declaration";
        NT "asm-declaration";
        NT "namespace-alias-definition";
        NT "using-declaration";
        NT "using-enum-declaration";
        NT "using-directive";
        NT "static_assert-declaration";
        NT "alias-declaration";
        NT "opaque-enum-declaration"
      ]
    ]);

  ("nodeclspec-function-declaration", fun _ =>
    Diagram [
      Optional (NT "attribute-specifier-seq");
      NT "declarator";
      T ";"
    ]);

  ("alias-declaration", fun _ =>
    Diagram [
      T "using";
      NT "identifier";
      Optional (NT "attribute-specifier-seq");
      T "=";
      NT "defining-type-id";
      T ";"
    ]);

  ("simple-declaration", fun _ =>
    Diagram [
      Choice 0 [
        Sequence [NT "decl-specifier-seq"; Optional (NT "init-declarator-list"); T ";"];
        Sequence [NT "attribute-specifier-seq"; NT "decl-specifier-seq"; NT "init-declarator-list"; T ";"];
        Sequence [
          Optional (NT "attribute-specifier-seq");
          NT "decl-specifier-seq";
          Optional (NT "ref-qualifier");
          T "[";
          NT "identifier-list";
          T "]";
          NT "initializer";
          T ";"
        ]
      ]
    ]);

  ("static_assert-declaration", fun _ =>
    Diagram [
      T "static_assert";
      T "(";
      NT "constant-expression";
      Optional (Sequence [T ","; NT "string-literal"]);
      T ")";
      T ";"
    ]);

  ("empty-declaration", fun _ =>
    Diagram [T ";"]);

  ("attribute-declaration", fun _ =>
    Diagram [NT "attribute-specifier-seq"; T ";"]);

  ("decl-specifier", fun _ =>
    Diagram [
      Choice 0 [
        NT "storage-class-specifier";
        NT "defining-type-specifier";
        NT "function-specifier";
        T "friend";
        T "typedef";
        T "constexpr";
        T "consteval";
        T "constinit";
        T "inline"
      ]
    ]);

  ("decl-specifier-seq", fun _ =>
    Diagram [
      NT "decl-specifier";
      Choice 0 [
        Optional (NT "attribute-specifier-seq");
        NT "decl-specifier-seq"
      ]
    ]);

  ("storage-class-specifier", fun _ =>
    Diagram [
      Choice 0 [
        T "static";
        T "thread_local";
        T "extern";
        T "mutable"
      ]
    ]);

  ("function-specifier", fun _ =>
    Diagram [
      Choice 0 [
        T "virtual";
        NT "explicit-specifier"
      ]
    ]);

  ("explicit-specifier", fun _ =>
    Diagram [
      T "explicit";
      Optional (Sequence [T "("; NT "constant-expression"; T ")"])
    ]);

  ("type-specifier", fun _ =>
    Diagram [
      Choice 0 [
        NT "simple-type-specifier";
        NT "elaborated-type-specifier";
        NT "typename-specifier";
        NT "cv-qualifier"
      ]
    ]);

  ("type-specifier-seq", fun _ =>
    Diagram [
      NT "type-specifier";
      Choice 0 [
        Optional (NT "attribute-specifier-seq");
        NT "type-specifier-seq"
      ]
    ]);

  ("defining-type-specifier", fun _ =>
    Diagram [
      Choice 0 [
        NT "type-specifier";
        NT "class-specifier";
        NT "enum-specifier"
      ]
    ]);

  ("defining-type-specifier-seq", fun _ =>
    Diagram [
      NT "defining-type-specifier";
      Choice 0 [
        Optional (NT "attribute-specifier-seq");
        NT "defining-type-specifier-seq"
      ]
    ]);

  ("simple-type-specifier", fun _ =>
    Diagram [
      Choice 0 [
        Sequence [Optional (NT "nested-name-specifier"); NT "type-name"];
        Sequence [NT "nested-name-specifier"; T "template"; NT "simple-template-id"];
        NT "decltype-specifier";
        NT "placeholder-type-specifier";
        Sequence [Optional (NT "nested-name-specifier"); NT "template-name"];
        T "char"; T "char8_t"; T "char16_t"; T "char32_t"; T "wchar_t";
        T "bool"; T "short"; T "int"; T "long";
        T "signed"; T "unsigned"; T "float"; T "double"; T "void"
      ]
    ]);

  ("type-name", fun _ =>
    Diagram [
      Choice 0 [
        NT "class-name";
        NT "enum-name";
        NT "typedef-name"
      ]
    ]);

  ("elaborated-type-specifier", fun _ =>
    Diagram [
      Choice 0 [
        Sequence [
          NT "class-key";
          Optional (NT "attribute-specifier-seq");
          Optional (NT "nested-name-specifier");
          NT "identifier"
        ];
        Sequence [NT "class-key"; NT "simple-template-id"];
        Sequence [
          NT "class-key";
          NT "nested-name-specifier";
          Optional (T "template");
          NT "simple-template-id"
        ];
        Sequence [T "enum"; Optional (NT "nested-name-specifier"); NT "identifier"]
      ]
    ]);

  ("decltype-specifier", fun _ =>
    Diagram [T "decltype"; T "("; NT "expression"; T ")"]);

  ("placeholder-type-specifier", fun _ =>
    Diagram [
      Optional (NT "type-constraint");
      Choice 0 [
        T "auto";
        Sequence [T "decltype"; T "("; T "auto"; T ")"]
      ]
    ]);

  ("init-declarator-list", fun _ =>
    Diagram [
      NT "init-declarator";
      ZeroOrMore (Sequence [T ","; NT "init-declarator"])
    ]);

  ("init-declarator", fun _ =>
    Diagram [
      NT "declarator";
      Choice 0 [
        Optional (NT "initializer");
        NT "requires-clause"
      ]
    ]);

  ("declarator", fun _ =>
    Diagram [
      Choice 0 [
        NT "ptr-declarator";
        Sequence [NT "noptr-declarator"; NT "parameters-and-qualifiers"; NT "trailing-return-type"]
      ]
    ]);

  ("ptr-declarator", fun _ =>
    Diagram [
      ZeroOrMore (NT "ptr-operator");
      NT "noptr-declarator"
    ]);

  ("noptr-declarator", fun _ =>
    Diagram [
      Choice 0 [
        Sequence [NT "declarator-id"; Optional (NT "attribute-specifier-seq")];
        Sequence [T "("; NT "ptr-declarator"; T ")"]
      ];
      ZeroOrMore (
        Choice 0 [
          NT "parameters-and-qualifiers";
          Sequence [T "["; Optional (NT "constant-expression"); T "]"; Optional (NT "attribute-specifier-seq")]
        ]
      )
    ]);

  ("parameters-and-qualifiers", fun _ =>
    Diagram [
      T "(";
      NT "parameter-declaration-clause";
      T ")";
      Optional (NT "cv-qualifier-seq");
      Optional (NT "ref-qualifier");
      Optional (NT "noexcept-specifier");
      Optional (NT "attribute-specifier-seq")
    ]);

  ("trailing-return-type", fun _ =>
    Diagram [T "->"; NT "type-id"]);

  ("ptr-operator", fun _ =>
    Diagram [
      Choice 0 [
        Sequence [T "*"; Optional (NT "attribute-specifier-seq"); Optional (NT "cv-qualifier-seq")];
        Sequence [T "&"; Optional (NT "attribute-specifier-seq")];
        Sequence [T "&&"; Optional (NT "attribute-specifier-seq")];
        Sequence [NT "nested-name-specifier"; T "*"; Optional (NT "attribute-specifier-seq"); Optional (NT "cv-qualifier-seq")]
      ]
    ]);

  ("cv-qualifier-seq", fun _ =>
    Diagram [OneOrMore (NT "cv-qualifier")]);

  ("cv-qualifier", fun _ =>
    Diagram [Choice 0 [ T "const"; T "volatile"]]);

  ("ref-qualifier", fun _ =>
    Diagram [Choice 0 [ T "&"; T "&&"]]);

  ("declarator-id", fun _ =>
    Diagram [Optional (T "..."); NT "id-expression"]);

  ("type-id", fun _ =>
    Diagram [NT "type-specifier-seq"; Optional (NT "abstract-declarator")]);

  ("defining-type-id", fun _ =>
    Diagram [NT "defining-type-specifier-seq"; Optional (NT "abstract-declarator")]);

  ("abstract-declarator", fun _ =>
    Diagram [
      Choice 0 [
        NT "ptr-abstract-declarator";
        Sequence [Optional (NT "noptr-abstract-declarator"); NT "parameters-and-qualifiers"; NT "trailing-return-type"];
        NT "abstract-pack-declarator"
      ]
    ]);

  ("ptr-abstract-declarator", fun _ =>
    Diagram [
      ZeroOrMore (NT "ptr-operator");
      Optional (NT "noptr-abstract-declarator")
    ]);

  ("noptr-abstract-declarator", fun _ =>
    Diagram [
      Optional (Sequence [T "("; NT "ptr-abstract-declarator"; T ")"]);
      ZeroOrMore (
        Choice 0 [
          NT "parameters-and-qualifiers";
          Sequence [T "["; Optional (NT "constant-expression"); T "]"; Optional (NT "attribute-specifier-seq")]
        ]
      )
    ]);

  ("abstract-pack-declarator", fun _ =>
    Diagram [
      ZeroOrMore (NT "ptr-operator");
      NT "noptr-abstract-pack-declarator"
    ]);

  ("noptr-abstract-pack-declarator", fun _ =>
    Diagram [
      T "...";
      ZeroOrMore (
        Choice 0 [
          NT "parameters-and-qualifiers";
          Sequence [T "["; Optional (NT "constant-expression"); T "]"; Optional (NT "attribute-specifier-seq")]
        ]
      )
    ]);

  ("parameter-declaration-clause", fun _ =>
    Diagram [
      Choice 0 [
        Sequence [Optional (NT "parameter-declaration-list"); Optional (T "...")];
        Sequence [NT "parameter-declaration-list"; T ","; T "..."]
      ]
    ]);

  ("parameter-declaration-list", fun _ =>
    Diagram [
      NT "parameter-declaration";
      ZeroOrMore (Sequence [T ","; NT "parameter-declaration"])
    ]);

  ("parameter-declaration", fun _ =>
    Diagram [
      Optional (NT "attribute-specifier-seq");
      Optional (T "this");
      NT "decl-specifier-seq";
      Choice 0 [
        Sequence [NT "declarator"; Optional (Sequence [T "="; NT "initializer-clause"])];
        Sequence [Optional (NT "abstract-declarator"); Optional (Sequence [T "="; NT "initializer-clause"])]
      ]
    ]);

  ("initializer", fun _ =>
    Diagram [
      Choice 0 [
        NT "brace-or-equal-initializer";
        Sequence [T "("; NT "expression-list"; T ")"]
      ]
    ]);

  ("brace-or-equal-initializer", fun _ =>
    Diagram [
      Choice 0 [
        Sequence [T "="; NT "initializer-clause"];
        NT "braced-init-list"
      ]
    ]);

  ("initializer-clause", fun _ =>
    Diagram [
      Choice 0 [
        NT "assignment-expression";
        NT "braced-init-list"
      ]
    ]);

  ("braced-init-list", fun _ =>
    Diagram [
      T "{";
      Choice 0 [
        Sequence [NT "initializer-list"; Optional (T ",")];
        Sequence [NT "designated-initializer-list"; Optional (T ",")];
        Comment "empty"
      ];
      T "}"
    ]);

  ("initializer-list", fun _ =>
    Diagram [
      NT "initializer-clause";
      Optional (T "...");
      ZeroOrMore (Sequence [T ","; NT "initializer-clause"; Optional (T "...")])
    ]);

  ("designated-initializer-list", fun _ =>
    Diagram [
      NT "designated-initializer-clause";
      ZeroOrMore (Sequence [T ","; NT "designated-initializer-clause"])
    ]);

  ("designated-initializer-clause", fun _ =>
    Diagram [NT "designator"; NT "brace-or-equal-initializer"]);

  ("designator", fun _ =>
    Diagram [T "."; NT "identifier"]);

  ("expr-or-braced-init-list", fun _ =>
    Diagram [
      Choice 0 [
        NT "expression";
        NT "braced-init-list"
      ]
    ]);

  ("function-definition", fun _ =>
    Diagram [
      Optional (NT "attribute-specifier-seq");
      Optional (NT "decl-specifier-seq");
      NT "declarator";
      Choice 0 [
        Sequence [Optional (NT "virt-specifier-seq"); NT "function-body"];
        Sequence [NT "requires-clause"; NT "function-body"]
      ]
    ]);

  ("function-body", fun _ =>
    Diagram [
      Choice 0 [
        Sequence [Optional (NT "ctor-initializer"); NT "compound-statement"];
        NT "function-try-block";
        Sequence [T "="; T "default"; T ";"];
        Sequence [T "="; T "delete"; T ";"]
      ]
    ]);

  ("enum-specifier", fun _ =>
    Diagram [
      NT "enum-head";
      T "{";
      Choice 0 [
        Optional (NT "enumerator-list");
        Sequence [NT "enumerator-list"; T ","]
      ];
      T "}"
    ]);

  ("enum-head", fun _ =>
    Diagram [
      NT "enum-key";
      Optional (NT "attribute-specifier-seq");
      Optional (NT "enum-head-name");
      Optional (NT "enum-base")
    ]);

  ("enum-head-name", fun _ =>
    Diagram [Optional (NT "nested-name-specifier"); NT "identifier"]);

  ("opaque-enum-declaration", fun _ =>
    Diagram [
      NT "enum-key";
      Optional (NT "attribute-specifier-seq");
      NT "enum-head-name";
      Optional (NT "enum-base");
      T ";"
    ]);

  ("enum-key", fun _ =>
    Diagram [
      Choice 0 [
        T "enum";
        Sequence [T "enum"; T "class"];
        Sequence [T "enum"; T "struct"]
      ]
    ]);

  ("enum-base", fun _ =>
    Diagram [T ":"; NT "type-specifier-seq"]);

  ("enumerator-list", fun _ =>
    Diagram [
      NT "enumerator-definition";
      ZeroOrMore (Sequence [T ","; NT "enumerator-definition"])
    ]);

  ("enumerator-definition", fun _ =>
    Diagram [
      NT "enumerator";
      Optional (Sequence [T "="; NT "constant-expression"])
    ]);

  ("enumerator", fun _ =>
    Diagram [NT "identifier"; Optional (NT "attribute-specifier-seq")]);

  ("using-enum-declaration", fun _ =>
    Diagram [T "using"; T "enum"; NT "using-enum-declarator"; T ";"]);

  ("using-enum-declarator", fun _ =>
    Diagram [
      Optional (NT "nested-name-specifier");
      Choice 0 [
        NT "identifier";
        NT "simple-template-id"
      ]
    ]);

  ("namespace-definition", fun _ =>
    Diagram [
      Choice 0 [
        NT "named-namespace-definition";
        NT "unnamed-namespace-definition";
        NT "nested-namespace-definition"
      ]
    ]);

  ("named-namespace-definition", fun _ =>
    Diagram [
      Optional (T "inline");
      T "namespace";
      Optional (NT "attribute-specifier-seq");
      NT "identifier";
      T "{";
      NT "namespace-body";
      T "}"
    ]);

  ("unnamed-namespace-definition", fun _ =>
    Diagram [
      Optional (T "inline");
      T "namespace";
      Optional (NT "attribute-specifier-seq");
      T "{";
      NT "namespace-body";
      T "}"
    ]);

  ("nested-namespace-definition", fun _ =>
    Diagram [
      T "namespace";
      NT "enclosing-namespace-specifier";
      T "::";
      Optional (T "inline");
      NT "identifier";
      T "{";
      NT "namespace-body";
      T "}"
    ]);

  ("enclosing-namespace-specifier", fun _ =>
    Diagram [
      NT "identifier";
      ZeroOrMore (Sequence [T "::"; Optional (T "inline"); NT "identifier"])
    ]);

  ("namespace-body", fun _ =>
    Diagram [Optional (NT "declaration-seq")]);

  ("namespace-alias-definition", fun _ =>
    Diagram [
      T "namespace";
      NT "identifier";
      T "=";
      NT "qualified-namespace-specifier";
      T ";"
    ]);

  ("qualified-namespace-specifier", fun _ =>
    Diagram [Optional (NT "nested-name-specifier"); NT "namespace-name"]);

  ("using-directive", fun _ =>
    Diagram [
      Optional (NT "attribute-specifier-seq");
      T "using";
      T "namespace";
      Optional (NT "nested-name-specifier");
      NT "namespace-name";
      T ";"
    ]);

  ("using-declaration", fun _ =>
    Diagram [T "using"; NT "using-declarator-list"; T ";"]);

  ("using-declarator-list", fun _ =>
    Diagram [
      NT "using-declarator";
      Optional (T "...");
      ZeroOrMore (Sequence [T ","; NT "using-declarator"; Optional (T "...")])
    ]);

  ("using-declarator", fun _ =>
    Diagram [
      Optional (T "typename");
      NT "nested-name-specifier";
      NT "unqualified-id"
    ]);

  ("asm-declaration", fun _ =>
    Diagram [
      Optional (NT "attribute-specifier-seq");
      T "asm";
      T "(";
      NT "string-literal";
      T ")";
      T ";"
    ]);

  ("linkage-specification", fun _ =>
    Diagram [
      T "extern";
      NT "string-literal";
      Choice 0 [
        Sequence [T "{"; Optional (NT "declaration-seq"); T "}"];
        NT "name-declaration"
      ]
    ]);

  ("attribute-specifier-seq", fun _ =>
    Diagram [OneOrMore (NT "attribute-specifier")]);

  ("attribute-specifier", fun _ =>
    Diagram [
      Choice 0 [
        Sequence [
          T "[";
          T "[";
          Optional (NT "attribute-using-prefix");
          NT "attribute-list";
          T "]";
          T "]"
        ];
        NT "alignment-specifier"
      ]
    ]);

  ("alignment-specifier", fun _ =>
    Diagram [
      T "alignas";
      T "(";
      Choice 0 [ NT "type-id"; NT "constant-expression"];
      Optional (T "...");
      T ")"
    ]);

  ("attribute-using-prefix", fun _ =>
    Diagram [T "using"; NT "attribute-namespace"; T ":"]);

  ("attribute-list", fun _ =>
    Diagram [
      Optional (NT "attribute");
      ZeroOrMore (
        Sequence [
          T ",";
          Choice 0 [
            Optional (NT "attribute");
            Sequence [NT "attribute"; T "..."]
          ]
        ]
      )
    ]);

  ("attribute", fun _ =>
    Diagram [NT "attribute-token"; Optional (NT "attribute-argument-clause")]);

  ("attribute-token", fun _ =>
    Diagram [
      Choice 0 [
        NT "identifier";
        NT "attribute-scoped-token"
      ]
    ]);

  ("attribute-scoped-token", fun _ =>
    Diagram [NT "attribute-namespace"; T "::"; NT "identifier"]);

  ("attribute-namespace", fun _ =>
    Diagram [NT "identifier"]);

  ("attribute-argument-clause", fun _ =>
    Diagram [T "("; Optional (NT "balanced-token-seq"); T ")"]);

  ("balanced-token-seq", fun _ =>
    Diagram [OneOrMore (NT "balanced-token")]);

  ("balanced-token", fun _ =>
    Diagram [
      Choice 0 [
        Sequence [T "("; Optional (NT "balanced-token-seq"); T ")"];
        Sequence [T "["; Optional (NT "balanced-token-seq"); T "]"];
        Sequence [T "{"; Optional (NT "balanced-token-seq"); T "}"];
        Comment "any token except ( ) [ ] { }"
      ]
    ]);


  (* ===== A.8 Modules [gram.module] ===== *)

  ("module-declaration", fun _ =>
    Diagram [
      Optional (T "export");
      T "module";
      NT "module-name";
      Optional (NT "module-partition");
      Optional (NT "attribute-specifier-seq");
      T ";"
    ]);

  ("module-name", fun _ =>
    Diagram [Optional (NT "module-name-qualifier"); NT "identifier"]);

  ("module-partition", fun _ =>
    Diagram [T ":"; Optional (NT "module-name-qualifier"); NT "identifier"]);

  ("module-name-qualifier", fun _ =>
    Diagram [
      NT "identifier";
      T ".";
      ZeroOrMore (Sequence [NT "identifier"; T "."])
    ]);

  ("export-declaration", fun _ =>
    Diagram [
      Choice 0 [
        Sequence [T "export"; NT "name-declaration"];
        Sequence [T "export"; T "{"; Optional (NT "declaration-seq"); T "}"];
        Sequence [T "export"; NT "module-import-declaration"]
      ]
    ]);

  ("module-import-declaration", fun _ =>
    Diagram [
      T "import";
      Choice 0 [
        NT "module-name";
        NT "module-partition";
        NT "header-name"
      ];
      Optional (NT "attribute-specifier-seq");
      T ";"
    ]);

  ("global-module-fragment", fun _ =>
    Diagram [T "module"; T ";"; Optional (NT "declaration-seq")]);

  ("private-module-fragment", fun _ =>
    Diagram [T "module"; T ":"; T "private"; T ";"; Optional (NT "declaration-seq")]);


  (* ===== A.9 Classes [gram.class] ===== *)

  ("class-specifier", fun _ =>
    Diagram [
      NT "class-head";
      T "{";
      Optional (NT "member-specification");
      T "}"
    ]);

  ("class-head", fun _ =>
    Diagram [
      NT "class-key";
      Optional (NT "attribute-specifier-seq");
      Optional (
        Sequence [
          NT "class-head-name";
          Optional (NT "class-virt-specifier")
        ]
      );
      Optional (NT "base-clause")
    ]);

  ("class-head-name", fun _ =>
    Diagram [Optional (NT "nested-name-specifier"); NT "class-name"]);

  ("class-virt-specifier", fun _ =>
    Diagram [T "final"]);

  ("class-key", fun _ =>
    Diagram [Choice 0 [ T "class"; T "struct"; T "union"]]);

  ("member-specification", fun _ =>
    Diagram [
      OneOrMore (
        Choice 0 [
          NT "member-declaration";
          Sequence [NT "access-specifier"; T ":"]
        ]
      )
    ]);

  ("member-declaration", fun _ =>
    Diagram [
      Choice 0 [
        Sequence [
          Optional (NT "attribute-specifier-seq");
          Optional (NT "decl-specifier-seq");
          Optional (NT "member-declarator-list");
          T ";"
        ];
        NT "function-definition";
        NT "using-declaration";
        NT "using-enum-declaration";
        NT "static_assert-declaration";
        NT "template-declaration";
        NT "explicit-specialization";
        NT "deduction-guide";
        NT "alias-declaration";
        NT "opaque-enum-declaration";
        NT "empty-declaration"
      ]
    ]);

  ("member-declarator-list", fun _ =>
    Diagram [
      NT "member-declarator";
      ZeroOrMore (Sequence [T ","; NT "member-declarator"])
    ]);

  ("member-declarator", fun _ =>
    Diagram [
      Choice 0 [
        Sequence [
          NT "declarator";
          Choice 0 [
            Sequence [Optional (NT "virt-specifier-seq"); Optional (NT "pure-specifier")];
            NT "requires-clause";
            Optional (NT "brace-or-equal-initializer")
          ]
        ];
        Sequence [
          Optional (NT "identifier");
          Optional (NT "attribute-specifier-seq");
          T ":";
          NT "constant-expression";
          Optional (NT "brace-or-equal-initializer")
        ]
      ]
    ]);

  ("virt-specifier-seq", fun _ =>
    Diagram [OneOrMore (NT "virt-specifier")]);

  ("virt-specifier", fun _ =>
    Diagram [Choice 0 [ T "override"; T "final"]]);

  ("pure-specifier", fun _ =>
    Diagram [T "="; T "0"]);

  ("conversion-function-id", fun _ =>
    Diagram [T "operator"; NT "conversion-type-id"]);

  ("conversion-type-id", fun _ =>
    Diagram [NT "type-specifier-seq"; Optional (NT "conversion-declarator")]);

  ("conversion-declarator", fun _ =>
    Diagram [NT "ptr-operator"; Optional (NT "conversion-declarator")]);

  ("base-clause", fun _ =>
    Diagram [T ":"; NT "base-specifier-list"]);

  ("base-specifier-list", fun _ =>
    Diagram [
      NT "base-specifier";
      Optional (T "...");
      ZeroOrMore (Sequence [T ","; NT "base-specifier"; Optional (T "...")])
    ]);

  ("base-specifier", fun _ =>
    Diagram [
      Optional (NT "attribute-specifier-seq");
      Choice 0 [
        NT "class-or-decltype";
        Sequence [T "virtual"; Optional (NT "access-specifier"); NT "class-or-decltype"];
        Sequence [NT "access-specifier"; Optional (T "virtual"); NT "class-or-decltype"]
      ]
    ]);

  ("class-or-decltype", fun _ =>
    Diagram [
      Choice 0 [
        Sequence [Optional (NT "nested-name-specifier"); NT "type-name"];
        Sequence [NT "nested-name-specifier"; T "template"; NT "simple-template-id"];
        NT "decltype-specifier"
      ]
    ]);

  ("access-specifier", fun _ =>
    Diagram [Choice 0 [ T "private"; T "protected"; T "public"]]);

  ("ctor-initializer", fun _ =>
    Diagram [T ":"; NT "mem-initializer-list"]);

  ("mem-initializer-list", fun _ =>
    Diagram [
      NT "mem-initializer";
      Optional (T "...");
      ZeroOrMore (Sequence [T ","; NT "mem-initializer"; Optional (T "...")])
    ]);

  ("mem-initializer", fun _ =>
    Diagram [
      NT "mem-initializer-id";
      Choice 0 [
        Sequence [T "("; Optional (NT "expression-list"); T ")"];
        NT "braced-init-list"
      ]
    ]);

  ("mem-initializer-id", fun _ =>
    Diagram [
      Choice 0 [
        NT "class-or-decltype";
        NT "identifier"
      ]
    ]);


  (* ===== A.10 Overloading [gram.over] ===== *)

  ("operator-function-id", fun _ =>
    Diagram [T "operator"; NT "operator"]);

  ("operator", fun _ =>
    Diagram [
      Choice 0 [
        T "new"; T "delete"; T "new[]"; T "delete[]"; T "co_await";
        T "()"; T "[]"; T "->"; T "->*";
        T "~"; T "!"; T "+"; T "-"; T "*"; T "/"; T "%"; T "^"; T "&";
        T "|"; T "="; T "+="; T "-="; T "*="; T "/="; T "%="; T "^="; T "&=";
        T "|="; T "=="; T "!="; T "<"; T ">"; T "<="; T ">="; T "<=>";
        T "&&"; T "||"; T "<<"; T ">>"; T "<<="; T ">>="; T "++"; T "--"; T ","
      ]
    ]);

  ("literal-operator-id", fun _ =>
    Diagram [
      T "operator";
      Choice 0 [
        Sequence [NT "string-literal"; NT "identifier"];
        NT "user-defined-string-literal"
      ]
    ]);


  (* ===== A.11 Templates [gram.temp] ===== *)

  ("template-declaration", fun _ =>
    Diagram [
      NT "template-head";
      Choice 0 [
        NT "declaration";
        NT "concept-definition"
      ]
    ]);

  ("template-head", fun _ =>
    Diagram [
      T "template";
      T "<";
      NT "template-parameter-list";
      T ">";
      Optional (NT "requires-clause")
    ]);

  ("template-parameter-list", fun _ =>
    Diagram [
      NT "template-parameter";
      ZeroOrMore (Sequence [T ","; NT "template-parameter"])
    ]);

  ("requires-clause", fun _ =>
    Diagram [T "requires"; NT "constraint-logical-or-expression"]);

  ("constraint-logical-or-expression", fun _ =>
    Diagram [
      NT "constraint-logical-and-expression";
      ZeroOrMore (Sequence [T "||"; NT "constraint-logical-and-expression"])
    ]);

  ("constraint-logical-and-expression", fun _ =>
    Diagram [
      NT "primary-expression";
      ZeroOrMore (Sequence [T "&&"; NT "primary-expression"])
    ]);

  ("template-parameter", fun _ =>
    Diagram [
      Choice 0 [
        NT "type-parameter";
        NT "parameter-declaration"
      ]
    ]);

  ("type-parameter", fun _ =>
    Diagram [
      Choice 0 [
        Sequence [NT "type-parameter-key"; Optional (T "..."); Optional (NT "identifier")];
        Sequence [NT "type-parameter-key"; Optional (NT "identifier"); T "="; NT "type-id"];
        Sequence [NT "type-constraint"; Optional (T "..."); Optional (NT "identifier")];
        Sequence [NT "type-constraint"; Optional (NT "identifier"); T "="; NT "type-id"];
        Sequence [NT "template-head"; NT "type-parameter-key"; Optional (T "..."); Optional (NT "identifier")];
        Sequence [NT "template-head"; NT "type-parameter-key"; Optional (NT "identifier"); T "="; NT "id-expression"]
      ]
    ]);

  ("type-parameter-key", fun _ =>
    Diagram [Choice 0 [ T "class"; T "typename"]]);

  ("type-constraint", fun _ =>
    Diagram [
      Optional (NT "nested-name-specifier");
      NT "concept-name";
      Optional (Sequence [T "<"; Optional (NT "template-argument-list"); T ">"])
    ]);

  ("simple-template-id", fun _ =>
    Diagram [
      NT "template-name";
      T "<";
      Optional (NT "template-argument-list");
      T ">"
    ]);

  ("template-id", fun _ =>
    Diagram [
      Choice 0 [
        NT "simple-template-id";
        Sequence [NT "operator-function-id"; T "<"; Optional (NT "template-argument-list"); T ">"];
        Sequence [NT "literal-operator-id"; T "<"; Optional (NT "template-argument-list"); T ">"]
      ]
    ]);

  ("template-argument-list", fun _ =>
    Diagram [
      NT "template-argument";
      Optional (T "...");
      ZeroOrMore (Sequence [T ","; NT "template-argument"; Optional (T "...")])
    ]);

  ("template-argument", fun _ =>
    Diagram [
      Choice 0 [
        NT "constant-expression";
        NT "type-id";
        NT "id-expression"
      ]
    ]);

  ("constraint-expression", fun _ =>
    Diagram [NT "logical-or-expression"]);

  ("deduction-guide", fun _ =>
    Diagram [
      Optional (NT "explicit-specifier");
      NT "template-name";
      T "(";
      NT "parameter-declaration-clause";
      T ")";
      T "->";
      NT "simple-template-id";
      T ";"
    ]);

  ("concept-definition", fun _ =>
    Diagram [
      T "concept";
      NT "concept-name";
      Optional (NT "attribute-specifier-seq");
      T "=";
      NT "constraint-expression";
      T ";"
    ]);

  ("concept-name", fun _ =>
    Diagram [NT "identifier"]);

  ("typename-specifier", fun _ =>
    Diagram [
      T "typename";
      NT "nested-name-specifier";
      Choice 0 [
        NT "identifier";
        Sequence [Optional (T "template"); NT "simple-template-id"]
      ]
    ]);

  ("explicit-instantiation", fun _ =>
    Diagram [Optional (T "extern"); T "template"; NT "declaration"]);

  ("explicit-specialization", fun _ =>
    Diagram [T "template"; T "<"; T ">"; NT "declaration"]);


  (* ===== A.12 Exception handling [gram.except] ===== *)

  ("try-block", fun _ =>
    Diagram [T "try"; NT "compound-statement"; NT "handler-seq"]);

  ("function-try-block", fun _ =>
    Diagram [
      T "try";
      Optional (NT "ctor-initializer");
      NT "compound-statement";
      NT "handler-seq"
    ]);

  ("handler-seq", fun _ =>
    Diagram [OneOrMore (NT "handler")]);

  ("handler", fun _ =>
    Diagram [
      T "catch";
      T "(";
      NT "exception-declaration";
      T ")";
      NT "compound-statement"
    ]);

  ("exception-declaration", fun _ =>
    Diagram [
      Choice 0 [
        Sequence [
          Optional (NT "attribute-specifier-seq");
          NT "type-specifier-seq";
          Choice 0 [ NT "declarator"; Optional (NT "abstract-declarator")]
        ];
        T "..."
      ]
    ]);

  ("noexcept-specifier", fun _ =>
    Diagram [
      T "noexcept";
      Optional (Sequence [T "("; NT "constant-expression"; T ")"])
    ]);


  (* ===== A.13 Preprocessing directives [gram.cpp] ===== *)

  ("preprocessing-file", fun _ =>
    Diagram [
      Choice 0 [
        Optional (NT "group");
        NT "module-file"
      ]
    ]);

  ("module-file", fun _ =>
    Diagram [
      Optional (NT "pp-global-module-fragment");
      NT "pp-module";
      Optional (NT "group");
      Optional (NT "pp-private-module-fragment")
    ]);

  ("pp-global-module-fragment", fun _ =>
    Diagram [T "module"; T ";"; NT "new-line"; Optional (NT "group")]);

  ("pp-private-module-fragment", fun _ =>
    Diagram [T "module"; T ":"; T "private"; T ";"; NT "new-line"; Optional (NT "group")]);

  ("group", fun _ =>
    Diagram [OneOrMore (NT "group-part")]);

  ("group-part", fun _ =>
    Diagram [
      Choice 0 [
        NT "control-line";
        NT "if-section";
        NT "text-line";
        Sequence [T "#"; NT "conditionally-supported-directive"]
      ]
    ]);

  ("control-line", fun _ =>
    Diagram [
      Choice 0 [
        Sequence [T "#"; T "include"; NT "pp-tokens"; NT "new-line"];
        NT "pp-import";
        Sequence [T "#"; T "define"; NT "identifier"; NT "replacement-list"; NT "new-line"];
        Sequence [T "#"; T "define"; NT "identifier"; NT "lparen"; Optional (NT "identifier-list"); T ")"; NT "replacement-list"; NT "new-line"];
        Sequence [T "#"; T "define"; NT "identifier"; NT "lparen"; T "..."; T ")"; NT "replacement-list"; NT "new-line"];
        Sequence [T "#"; T "define"; NT "identifier"; NT "lparen"; NT "identifier-list"; T ","; T "..."; T ")"; NT "replacement-list"; NT "new-line"];
        Sequence [T "#"; T "undef"; NT "identifier"; NT "new-line"];
        Sequence [T "#"; T "line"; NT "pp-tokens"; NT "new-line"];
        Sequence [T "#"; T "error"; Optional (NT "pp-tokens"); NT "new-line"];
        Sequence [T "#"; T "warning"; Optional (NT "pp-tokens"); NT "new-line"];
        Sequence [T "#"; T "pragma"; Optional (NT "pp-tokens"); NT "new-line"];
        Sequence [T "#"; NT "new-line"]
      ]
    ]);

  ("if-section", fun _ =>
    Diagram [
      NT "if-group";
      Optional (NT "elif-groups");
      Optional (NT "else-group");
      NT "endif-line"
    ]);

  ("if-group", fun _ =>
    Diagram [
      T "#";
      Choice 0 [
        Sequence [T "if"; NT "constant-expression"];
        Sequence [T "ifdef"; NT "identifier"];
        Sequence [T "ifndef"; NT "identifier"]
      ];
      NT "new-line";
      Optional (NT "group")
    ]);

  ("elif-groups", fun _ =>
    Diagram [OneOrMore (NT "elif-group")]);

  ("elif-group", fun _ =>
    Diagram [
      T "#";
      Choice 0 [
        Sequence [T "elif"; NT "constant-expression"];
        Sequence [T "elifdef"; NT "identifier"];
        Sequence [T "elifndef"; NT "identifier"]
      ];
      NT "new-line";
      Optional (NT "group")
    ]);

  ("else-group", fun _ =>
    Diagram [T "#"; T "else"; NT "new-line"; Optional (NT "group")]);

  ("endif-line", fun _ =>
    Diagram [T "#"; T "endif"; NT "new-line"]);

  ("text-line", fun _ =>
    Diagram [Optional (NT "pp-tokens"); NT "new-line"]);

  ("conditionally-supported-directive", fun _ =>
    Diagram [NT "pp-tokens"; NT "new-line"]);

  ("lparen", fun _ =>
    Diagram [Comment "( not preceded by whitespace"]);

  ("identifier-list", fun _ =>
    Diagram [
      NT "identifier";
      ZeroOrMore (Sequence [T ","; NT "identifier"])
    ]);

  ("replacement-list", fun _ =>
    Diagram [Optional (NT "pp-tokens")]);

  ("pp-tokens", fun _ =>
    Diagram [OneOrMore (NT "preprocessing-token")]);

  ("new-line", fun _ =>
    Diagram [Comment "the new-line character"]);

  ("defined-macro-expression", fun _ =>
    Diagram [
      T "defined";
      Choice 0 [
        NT "identifier";
        Sequence [T "("; NT "identifier"; T ")"]
      ]
    ]);

  ("h-preprocessing-token", fun _ =>
    Diagram [Comment "any preprocessing-token other than >"]);

  ("h-pp-tokens", fun _ =>
    Diagram [OneOrMore (NT "h-preprocessing-token")]);

  ("header-name-tokens", fun _ =>
    Diagram [
      Choice 0 [
        NT "string-literal";
        Sequence [T "<"; NT "h-pp-tokens"; T ">"]
      ]
    ]);

  ("has-include-expression", fun _ =>
    Diagram [
      T "__has_include";
      T "(";
      Choice 0 [
        NT "header-name";
        NT "header-name-tokens"
      ];
      T ")"
    ]);

  ("has-attribute-expression", fun _ =>
    Diagram [T "__has_cpp_attribute"; T "("; NT "pp-tokens"; T ")"]);

  ("pp-module", fun _ =>
    Diagram [
      Optional (T "export");
      T "module";
      Optional (NT "pp-tokens");
      T ";";
      NT "new-line"
    ]);

  ("pp-import", fun _ =>
    Diagram [
      Optional (T "export");
      T "import";
      Choice 0 [
        NT "header-name";
        NT "header-name-tokens";
        NT "pp-tokens"
      ];
      Optional (NT "pp-tokens");
      T ";";
      NT "new-line"
    ]);

  ("va-opt-replacement", fun _ =>
    Diagram [T "__VA_OPT__"; T "("; Optional (NT "pp-tokens"); T ")"])
  ] JsMap.empty.

Inductive SectionId : Type :=
| keywords | lexical | literals | basics | expressions | statements
| declarations | modules | classes | overloading | templates | exceptions
| preprocessing.

Definition SECTION_ORDER : list SectionId := [
  keywords;
  lexical;
  literals;
  basics;
  expressions;
  statements;
  declarations;
  modules;
  classes;
  overloading;
  templates;
  exceptions;
  preprocessing
].

Definition SECTION_RULES (s : SectionId) : list string :=
  match s with
  | keywords => [
      "typedef-name";
      "namespace-name";
      "namespace-alias";
      "class-name";
      "enum-name";
      "template-name"
    ]
  | lexical => [
      "n-char";
      "n-char-sequence";
      "named-universal-character";
      "hex-quad";
      "simple-hexadecimal-digit-sequence";
      "universal-character-name";
      "preprocessing-token";
      "token";
      "header-name";
      "h-char-sequence";
      "h-char";
      "q-char-sequence";
      "q-char";
      "pp-number";
      "identifier";
      "identifier-start";
      "identifier-continue";
      "nondigit";
      "digit";
      "keyword";
      "preprocessing-op-or-punc";
      "preprocessing-operator";
      "operator-or-punctuator"
    ]
  | literals => [
      "literal";
      "integer-literal";
      "binary-literal";
      "octal-literal";
      "decimal-literal";
      "hexadecimal-literal";
      "binary-digit";
      "octal-digit";
      "nonzero-digit";
      "hexadecimal-prefix";
      "hexadecimal-digit-sequence";
      "hexadecimal-digit";
      "integer-suffix";
      "unsigned-suffix";
      "long-suffix";
      "long-long-suffix";
      "size-suffix";
      "character-literal";
      "encoding-prefix";
      "c-char-sequence";
      "c-char";
      "basic-c-char";
      "escape-sequence";
      "simple-escape-sequence";
      "simple-escape-sequence-char";
      "numeric-escape-sequence";
      "simple-octal-digit-sequence";
      "octal-escape-sequence";
      "hexadecimal-escape-sequence";
      "conditional-escape-sequence";
      "conditional-escape-sequence-char";
      "floating-point-literal";
      "decimal-floating-point-literal";
      "hexadecimal-floating-point-literal";
      "fractional-constant";
      "hexadecimal-fractional-constant";
      "exponent-part";
      "binary-exponent-part";
      "sign";
      "digit-sequence";
      "floating-point-suffix";
      "string-literal";
      "s-char-sequence";
      "s-char";
      "basic-s-char";
      "raw-string";
      "r-char-sequence";
      "r-char";
      "d-char-sequence";
      "d-char";
      "boolean-literal";
      "pointer-literal";
      "user-defined-literal";
      "user-defined-integer-literal";
      "user-defined-floating-point-literal";
      "user-defined-string-literal";
      "user-defined-character-literal";
      "ud-suffix"
    ]
  | basics => [
      "translation-unit"
    ]
  | expressions => [
      "primary-expression";
      "id-expression";
      "unqualified-id";
      "qualified-id";
      "nested-name-specifier";
      "lambda-expression";
      "lambda-introducer";
      "lambda-declarator";
      "lambda-specifier";
      "lambda-specifier-seq";
      "lambda-capture";
      "capture-default";
      "capture-list";
      "capture";
      "simple-capture";
      "init-capture";
      "fold-expression";
      "fold-operator";
      "requires-expression";
      "requirement-parameter-list";
      "requirement-body";
      "requirement-seq";
      "requirement";
      "simple-requirement";
      "type-requirement";
      "compound-requirement";
      "return-type-requirement";
      "nested-requirement";
      "postfix-expression";
      "expression-list";
      "unary-expression";
      "unary-operator";
      "await-expression";
      "noexcept-expression";
      "new-expression";
      "new-placement";
      "new-type-id";
      "new-declarator";
      "noptr-new-declarator";
      "new-initializer";
      "delete-expression";
      "cast-expression";
      "pm-expression";
      "multiplicative-expression";
      "additive-expression";
      "shift-expression";
      "compare-expression";
      "relational-expression";
      "equality-expression";
      "and-expression";
      "exclusive-or-expression";
      "inclusive-or-expression";
      "logical-and-expression";
      "logical-or-expression";
      "conditional-expression";
      "yield-expression";
      "throw-expression";
      "assignment-expression";
      "assignment-operator";
      "expression";
      "constant-expression"
    ]
  | statements => [
      "statement";
      "init-statement";
      "condition";
      "label";
      "labeled-statement";
      "expression-statement";
      "compound-statement";
      "statement-seq";
      "label-seq";
      "selection-statement";
      "iteration-statement";
      "for-range-declaration";
      "for-range-initializer";
      "jump-statement";
      "coroutine-return-statement";
      "declaration-statement"
    ]
  | declarations => [
      "declaration-seq";
      "declaration";
      "name-declaration";
      "special-declaration";
      "block-declaration";
      "nodeclspec-function-declaration";
      "alias-declaration";
      "simple-declaration";
      "static_assert-declaration";
      "empty-declaration";
      "attribute-declaration";
      "decl-specifier";
      "decl-specifier-seq";
      "storage-class-specifier";
      "function-specifier";
      "explicit-specifier";
      "type-specifier";
      "type-specifier-seq";
      "defining-type-specifier";
      "defining-type-specifier-seq";
      "simple-type-specifier";
      "type-name";
      "elaborated-type-specifier";
      "decltype-specifier";
      "placeholder-type-specifier";
      "init-declarator-list";
      "init-declarator";
      "declarator";
      "ptr-declarator";
      "noptr-declarator";
      "parameters-and-qualifiers";
      "trailing-return-type";
      "ptr-operator";
      "cv-qualifier-seq";
      "cv-qualifier";
      "ref-qualifier";
      "declarator-id";
      "type-id";
      "defining-type-id";
      "abstract-declarator";
      "ptr-abstract-declarator";
      "noptr-abstract-declarator";
      "abstract-pack-declarator";
      "noptr-abstract-pack-declarator";
      "parameter-declaration-clause";
      "parameter-declaration-list";
      "parameter-declaration";
      "initializer";
      "brace-or-equal-initializer";
      "initializer-clause";
      "braced-init-list";
      "initializer-list";
      "designated-initializer-list";
      "designated-initializer-clause";
      "designator";
      "expr-or-braced-init-list";
      "function-definition";
      "function-body";
      "enum-specifier";
      "enum-head";
      "enum-head-name";
      "opaque-enum-declaration";
      "enum-key";
      "enum-base";
      "enumerator-list";
      "enumerator-definition";
      "enumerator";
      "using-enum-declaration";
      "using-enum-declarator";
      "namespace-definition";
      "named-namespace-definition";
      "unnamed-namespace-definition";
      "nested-namespace-definition";
      "enclosing-namespace-specifier";
      "namespace-body";
      "namespace-alias-definition";
      "qualified-namespace-specifier";
      "using-directive";
      "using-declaration";
      "using-declarator-list";
      "using-declarator";
      "asm-declaration";
      "linkage-specification";
      "attribute-specifier-seq";
      "attribute-specifier";
      "alignment-specifier";
      "attribute-using-prefix";
      "attribute-list";
      "attribute";
      "attribute-token";
      "attribute-scoped-token";
      "attribute-namespace";
      "attribute-argument-clause";
      "balanced-token-seq";
      "balanced-token"
    ]
  | modules => [
      "module-declaration";
      "module-name";
      "module-partition";
      "module-name-qualifier";
      "export-declaration";
      "module-import-declaration";
      "global-module-fragment";
      "private-module-fragment"
    ]
  | classes => [
      "class-specifier";
      "class-head";
      "class-head-name";
      "class-virt-specifier";
      "class-key";
      "member-specification";
      "member-declaration";
      "member-declarator-list";
      "member-declarator";
      "virt-specifier-seq";
      "virt-specifier";
      "pure-specifier";
      "conversion-function-id";
      "conversion-type-id";
      "conversion-declarator";
      "base-clause";
      "base-specifier-list";
      "base-specifier";
      "class-or-decltype";
      "access-specifier";
      "ctor-initializer";
      "mem-initializer-list";
      "mem-initializer";
      "mem-initializer-id"
    ]
  | overloading => [
      "operator-function-id";
      "operator";
      "literal-operator-id"
    ]
  | templates => [
      "template-declaration";
      "template-head";
      "template-parameter-list";
      "requires-clause";
      "constraint-logical-or-expression";
      "constraint-logical-and-expression";
      "template-parameter";
      "type-parameter";
      "type-parameter-key";
      "type-constraint";
      "simple-template-id";
      "template-id";
      "template-argument-list";
      "template-argument";
      "constraint-expression";
      "deduction-guide";
      "concept-definition";
      "concept-name";
      "typename-specifier";
      "explicit-instantiation";
      "explicit-specialization"
    ]
  | exceptions => [
      "try-block";
      "function-try-block";
      "handler-seq";
      "handler";
      "exception-declaration";
      "noexcept-specifier"
    ]
  | preprocessing => [
      "preprocessing-file";
      "module-file";
      "pp-global-module-fragment";
      "pp-private-module-fragment";
      "group";
      "group-part";
      "control-line";
      "if-section";
      "if-group";
      "elif-groups";
      "elif-group";
      "else-group";
      "endif-line";
      "text-line";
      "conditionally-supported-directive";
      "lparen";
      "identifier-list";
      "replacement-list";
      "pp-tokens";
      "new-line";
      "defined-macro-expression";
      "h-preprocessing-token";
      "h-pp-tokens";
      "header-name-tokens";
      "has-include-expression";
      "has-attribute-expression";
      "pp-module";
      "pp-import";
      "va-opt-replacement"
    ]
  end.

(** Every name listed by some section, in section order. *)
Definition section_names : list string :=
  concat (map SECTION_RULES SECTION_ORDER).

(** [undefined] or a diagram object. *)
Inductive result : Type :=
| undefined
| object (a : addr).

Section Accessors.

Variable lib : Library.

Definition createRuleDiagram (name : string) : H result :=
  let factory := JsMap.get name rules in
  match factory with
  | Some factory => bind (invoke lib factory) (fun a => ret (object a))
  | None => ret undefined
  end.

End Accessors.

Definition getRuleNames (_ : unit) : list string :=
  JsMap.keys rules.

End CppGrammar.


(** ** [ebnfDefinitions.ts] *)

Module Ebnf.
Import Text.

Definition RuleName : Type := string.

(** The own properties of the object literal, in source order. *)
Definition EBNF_DEFINITIONS : JsMap.t string :=
  JsMap.sets [

  (* ===== A.2 Keywords [gram.key] ===== *)

  ("typedef-name", "typedef-name:
    identifier
    simple-template-id");

  ("namespace-name", "namespace-name:
    identifier
    namespace-alias");

  ("namespace-alias", "namespace-alias:
    identifier");

  ("class-name", "class-name:
    identifier
    simple-template-id");

  ("enum-name", "enum-name:
    identifier");

  ("template-name", "template-name:
    identifier");

  (* ===== A.3 Lexical conventions [gram.lex] ===== *)

  ("n-char", "n-char:
    any member of the translation character set except } or new-line");

  ("n-char-sequence", "n-char-sequence:
    n-char
    n-char-sequence n-char");

  ("named-universal-character", "named-universal-character:
    \N{ n-char-sequence }");

  ("hex-quad", "hex-quad:
    hexadecimal-digit hexadecimal-digit hexadecimal-digit hexadecimal-digit");

  ("simple-hexadecimal-digit-sequence", "simple-hexadecimal-digit-sequence:
    hexadecimal-digit
    simple-hexadecimal-digit-sequence hexadecimal-digit");

  ("universal-character-name", "universal-character-name:
    \u hex-quad
    \U hex-quad hex-quad
    \u{ simple-hexadecimal-digit-sequence }
    named-universal-character");

  ("preprocessing-token", "preprocessing-token:
    header-name
    import-keyword
    module-keyword
    export-keyword
    identifier
    pp-number
    character-literal
    user-defined-character-literal
    string-literal
    user-defined-string-literal
    preprocessing-op-or-punc
    each non-whitespace character that cannot be one of the above");

  ("token", "token:
    identifier
    keyword
    literal
    operator-or-punctuator");

  ("header-name", ("header-name:
    < h-char-sequence >
    " ++ dq ++ " q-char-sequence " ++ dq));

  ("h-char-sequence", "h-char-sequence:
    h-char
    h-char-sequence h-char");

  ("h-char", "h-char:
    any member of the translation character set except new-line and >");

  ("q-char-sequence", "q-char-sequence:
    q-char
    q-char-sequence q-char");

  ("q-char", ("q-char:
    any member of the translation character set except new-line and " ++ dq));

  ("pp-number", "pp-number:
    digit
    . digit
    pp-number identifier-continue
    pp-number ' digit
    pp-number ' nondigit
    pp-number e sign
    pp-number E sign
    pp-number p sign
    pp-number P sign
    pp-number .");

  ("identifier", "identifier:
    identifier-start
    identifier identifier-continue");

  ("identifier-start", "identifier-start:
    nondigit
    an element of the translation character set with the Unicode property XID_Start");

  ("identifier-continue", "identifier-continue:
    digit
    nondigit
    an element of the translation character set with the Unicode property XID_Continue");

  ("nondigit", "nondigit: one of
    a b c d e f g h i j k l m
    n o p q r s t u v w x y z
    A B C D E F G H I J K L M
    N O P Q R S T U V W X Y Z _");

  ("digit", "digit: one of
    0 1 2 3 4 5 6 7 8 9");

  ("keyword", "keyword:
    any identifier listed in Table 5
    import-keyword
    module-keyword
    export-keyword");

  ("preprocessing-op-or-punc", "preprocessing-op-or-punc:
    preprocessing-operator
    operator-or-punctuator");

  ("preprocessing-operator", "preprocessing-operator: one of
    # ## %: %:%:");

  ("operator-or-punctuator", "operator-or-punctuator: one of
    { } [ ] ( )
    <: :> <% %> ; : ...
    ? :: . .* -> ->* ~
    ! + - * / % ^ & |
    = += -= *= /= %= ^= &= |=
    == != < > <= >= <=> && ||
    << >> <<= >>= ++ -- ,
    and or xor not bitand bitor compl
    and_eq or_eq xor_eq not_eq");

  (* ===== A.3 Literals ===== *)

  ("literal", "literal:
    integer-literal
    character-literal
    floating-point-literal
    string-literal
    boolean-literal
    pointer-literal
    user-defined-literal");

  ("integer-literal", "integer-literal:
    binary-literal integer-suffix_opt
    octal-literal integer-suffix_opt
    decimal-literal integer-suffix_opt
    hexadecimal-literal integer-suffix_opt");

  ("binary-literal", "binary-literal:
    0b binary-digit
    0B binary-digit
    binary-literal '_opt binary-digit");

  ("octal-literal", "octal-literal:
    0
    octal-literal '_opt octal-digit");

  ("decimal-literal", "decimal-literal:
    nonzero-digit
    decimal-literal '_opt digit");

  ("hexadecimal-literal", "hexadecimal-literal:
    hexadecimal-prefix hexadecimal-digit-sequence");

  ("binary-digit", "binary-digit: one of
    0 1");

  ("octal-digit", "octal-digit: one of
    0 1 2 3 4 5 6 7");

  ("nonzero-digit", "nonzero-digit: one of
    1 2 3 4 5 6 7 8 9");

  ("hexadecimal-prefix", "hexadecimal-prefix: one of
    0x 0X");

  ("hexadecimal-digit-sequence", "hexadecimal-digit-sequence:
    hexadecimal-digit
    hexadecimal-digit-sequence '_opt hexadecimal-digit");

  ("hexadecimal-digit", "hexadecimal-digit: one of
    0 1 2 3 4 5 6 7 8 9
    a b c d e f
    A B C D E F");

  ("integer-suffix", "integer-suffix:
    unsigned-suffix long-suffix_opt
    unsigned-suffix long-long-suffix_opt
    unsigned-suffix size-suffix_opt
    long-suffix unsigned-suffix_opt
    long-long-suffix unsigned-suffix_opt
    size-suffix unsigned-suffix_opt");

  ("unsigned-suffix", "unsigned-suffix: one of
    u U");

  ("long-suffix", "long-suffix: one of
    l L");

  ("long-long-suffix", "long-long-suffix: one of
    ll LL");

  ("size-suffix", "size-suffix: one of
    z Z");

  ("character-literal", "character-literal:
    encoding-prefix_opt ' c-char-sequence '");

  ("encoding-prefix", "encoding-prefix: one of
    u8 u U L");

  ("c-char-sequence", "c-char-sequence:
    c-char
    c-char-sequence c-char");

  ("c-char", "c-char:
    basic-c-char
    escape-sequence
    universal-character-name");

  ("basic-c-char", "basic-c-char:
    any member of the translation character set except ', \, or new-line");

  ("escape-sequence", "escape-sequence:
    simple-escape-sequence
    numeric-escape-sequence
    conditional-escape-sequence");

  ("simple-escape-sequence", "simple-escape-sequence:
    \ simple-escape-sequence-char");

  ("simple-escape-sequence-char", ("simple-escape-sequence-char: one of
    ' " ++ dq ++ " ? \ a b f n r t v"));

  ("numeric-escape-sequence", "numeric-escape-sequence:
    octal-escape-sequence
    hexadecimal-escape-sequence");

  ("simple-octal-digit-sequence", "simple-octal-digit-sequence:
    octal-digit
    simple-octal-digit-sequence octal-digit");

  ("octal-escape-sequence", "octal-escape-sequence:
    \ octal-digit
    \ octal-digit octal-digit
    \ octal-digit octal-digit octal-digit
    \o{ simple-octal-digit-sequence }");

  ("hexadecimal-escape-sequence", "hexadecimal-escape-sequence:
    \x simple-hexadecimal-digit-sequence
    \x{ simple-hexadecimal-digit-sequence }");

  ("conditional-escape-sequence", "conditional-escape-sequence:
    \ conditional-escape-sequence-char");

  ("conditional-escape-sequence-char", "conditional-escape-sequence-char:
    any member of the basic character set that is not an octal-digit,
    a simple-escape-sequence-char, or the characters N, o, u, U, or x");

  ("floating-point-literal", "floating-point-literal:
    decimal-floating-point-literal
    hexadecimal-floating-point-literal");

  ("decimal-floating-point-literal", "decimal-floating-point-literal:
    fractional-constant exponent-part_opt floating-point-suffix_opt
    digit-sequence exponent-part floating-point-suffix_opt");

  ("hexadecimal-floating-point-literal", "hexadecimal-floating-point-literal:
    hexadecimal-prefix hexadecimal-fractional-constant binary-exponent-part floating-point-suffix_opt
    hexadecimal-prefix hexadecimal-digit-sequence binary-exponent-part floating-point-suffix_opt");

  ("fractional-constant", "fractional-constant:
    digit-sequence_opt . digit-sequence
    digit-sequence .");

  ("hexadecimal-fractional-constant", "hexadecimal-fractional-constant:
    hexadecimal-digit-sequence_opt . hexadecimal-digit-sequence
    hexadecimal-digit-sequence .");

  ("exponent-part", "exponent-part:
    e sign_opt digit-sequence
    E sign_opt digit-sequence");

  ("binary-exponent-part", "binary-exponent-part:
    p sign_opt digit-sequence
    P sign_opt digit-sequence");

  ("sign", "sign: one of
    + -");

  ("digit-sequence", "digit-sequence:
    digit
    digit-sequence '_opt digit");

  ("floating-point-suffix", "floating-point-suffix: one of
    f l f16 f32 f64 f128 bf16 F L F16 F32 F64 F128 BF16");

  ("string-literal", ("string-literal:
    encoding-prefix_opt " ++ dq ++ " s-char-sequence_opt " ++ dq ++ "
    encoding-prefix_opt R raw-string"));

  ("s-char-sequence", "s-char-sequence:
    s-char
    s-char-sequence s-char");

  ("s-char", "s-char:
    basic-s-char
    escape-sequence
    universal-character-name");

  ("basic-s-char", ("basic-s-char:
    any member of the translation character set except " ++ dq ++ ", \, or new-line"));

  ("raw-string", ("raw-string:
    " ++ dq ++ " d-char-sequence_opt ( r-char-sequence_opt ) d-char-sequence_opt " ++ dq));

  ("r-char-sequence", "r-char-sequence:
    r-char
    r-char-sequence r-char");

  ("r-char", ("r-char:
    any member of the translation character set, except ) followed by
    the initial d-char-sequence followed by " ++ dq));

  ("d-char-sequence", "d-char-sequence:
    d-char
    d-char-sequence d-char");

  ("d-char", "d-char:
    any member of the basic character set except:
    space, (, ), \, horizontal tab, vertical tab, form feed, and new-line");

  ("boolean-literal", "boolean-literal:
    false
    true");

  ("pointer-literal", "pointer-literal:
    nullptr");

  ("user-defined-literal", "user-defined-literal:
    user-defined-integer-literal
    user-defined-floating-point-literal
    user-defined-string-literal
    user-defined-character-literal");

  ("user-defined-integer-literal", "user-defined-integer-literal:
    decimal-literal ud-suffix
    octal-literal ud-suffix
    hexadecimal-literal ud-suffix
    binary-literal ud-suffix");

  ("user-defined-floating-point-literal", "user-defined-floating-point-literal:
    fractional-constant exponent-part_opt ud-suffix
    digit-sequence exponent-part ud-suffix
    hexadecimal-prefix hexadecimal-fractional-constant binary-exponent-part ud-suffix
    hexadecimal-prefix hexadecimal-digit-sequence binary-exponent-part ud-suffix");

  ("user-defined-string-literal", "user-defined-string-literal:
    string-literal ud-suffix");

  ("user-defined-character-literal", "user-defined-character-literal:
    character-literal ud-suffix");

  ("ud-suffix", "ud-suffix:
    identifier");

  (* ===== A.4 Basics [gram.basic] ===== *)

  ("translation-unit", "translation-unit:
    declaration-seq_opt
    global-module-fragment_opt module-declaration declaration-seq_opt private-module-fragment_opt");

  (* ===== A.5 Expressions [gram.expr] ===== *)

  ("primary-expression", "primary-expression:
    literal
    this
    ( expression )
    id-expression
    lambda-expression
    fold-expression
    requires-expression");

  ("id-expression", "id-expression:
    unqualified-id
    qualified-id");

  ("unqualified-id", "unqualified-id:
    identifier
    operator-function-id
    conversion-function-id
    literal-operator-id
    ~ type-name
    ~ decltype-specifier
    template-id");

  ("qualified-id", "qualified-id:
    nested-name-specifier template_opt unqualified-id");

  ("nested-name-specifier", "nested-name-specifier:
    ::
    type-name ::
    namespace-name ::
    decltype-specifier ::
    nested-name-specifier identifier ::
    nested-name-specifier template_opt simple-template-id ::");

  ("lambda-expression", "lambda-expression:
    lambda-introducer attribute-specifier-seq_opt lambda-declarator compound-statement
    lambda-introducer < template-parameter-list > requires-clause_opt attribute-specifier-seq_opt
        lambda-declarator compound-statement");

  ("lambda-introducer", "lambda-introducer:
    [ lambda-capture_opt ]");

  ("lambda-declarator", "lambda-declarator:
    lambda-specifier-seq noexcept-specifier_opt attribute-specifier-seq_opt trailing-return-type_opt
    noexcept-specifier attribute-specifier-seq_opt trailing-return-type_opt
    trailing-return-type_opt
    ( parameter-declaration-clause ) lambda-specifier-seq_opt noexcept-specifier_opt
        attribute-specifier-seq_opt trailing-return-type_opt requires-clause_opt");

  ("lambda-specifier", "lambda-specifier:
    consteval
    constexpr
    mutable
    static");

  ("lambda-specifier-seq", "lambda-specifier-seq:
    lambda-specifier
    lambda-specifier lambda-specifier-seq");

  ("lambda-capture", "lambda-capture:
    capture-default
    capture-list
    capture-default , capture-list");

  ("capture-default", "capture-default:
    &
    =");

  ("capture-list", "capture-list:
    capture
    capture-list , capture");

  ("capture", "capture:
    simple-capture
    init-capture");

  ("simple-capture", "simple-capture:
    identifier ..._opt
    & identifier ..._opt
    this
    * this");

  ("init-capture", "init-capture:
    ..._opt identifier initializer
    & ..._opt identifier initializer");

  ("fold-expression", "fold-expression:
    ( cast-expression fold-operator ... )
    ( ... fold-operator cast-expression )
    ( cast-expression fold-operator ... fold-operator cast-expression )");

  ("fold-operator", "fold-operator: one of
    + - * / % ^ & | << >>
    += -= *= /= %= ^= &= |= <<= >>= =
    == != < > <= >= && || , .* ->*");

  ("requires-expression", "requires-expression:
    requires requirement-parameter-list_opt requirement-body");

  ("requirement-parameter-list", "requirement-parameter-list:
    ( parameter-declaration-clause )");

  ("requirement-body", "requirement-body:
    { requirement-seq }");

  ("requirement-seq", "requirement-seq:
    requirement
    requirement requirement-seq");

  ("requirement", "requirement:
    simple-requirement
    type-requirement
    compound-requirement
    nested-requirement");

  ("simple-requirement", "simple-requirement:
    expression ;");

  ("type-requirement", "type-requirement:
    typename nested-name-specifier_opt type-name ;");

  ("compound-requirement", "compound-requirement:
    { expression } noexcept_opt return-type-requirement_opt ;");

  ("return-type-requirement", "return-type-requirement:
    -> type-constraint");

  ("nested-requirement", "nested-requirement:
    requires constraint-expression ;");

  ("postfix-expression", "postfix-expression:
    primary-expression
    postfix-expression [ expression-list_opt ]
    postfix-expression ( expression-list_opt )
    simple-type-specifier ( expression-list_opt )
    typename-specifier ( expression-list_opt )
    simple-type-specifier braced-init-list
    typename-specifier braced-init-list
    postfix-expression . template_opt id-expression
    postfix-expression -> template_opt id-expression
    postfix-expression ++
    postfix-expression --
    dynamic_cast < type-id > ( expression )
    static_cast < type-id > ( expression )
    reinterpret_cast < type-id > ( expression )
    const_cast < type-id > ( expression )
    typeid ( expression )
    typeid ( type-id )");

  ("expression-list", "expression-list:
    initializer-list");

  ("unary-expression", "unary-expression:
    postfix-expression
    unary-operator cast-expression
    ++ cast-expression
    -- cast-expression
    await-expression
    sizeof unary-expression
    sizeof ( type-id )
    sizeof ... ( identifier )
    alignof ( type-id )
    noexcept-expression
    new-expression
    delete-expression");

  ("unary-operator", "unary-operator: one of
    * & + - ! ~");

  ("await-expression", "await-expression:
    co_await cast-expression");

  ("noexcept-expression", "noexcept-expression:
    noexcept ( expression )");

  ("new-expression", "new-expression:
    ::_opt new new-placement_opt new-type-id new-initializer_opt
    ::_opt new new-placement_opt ( type-id ) new-initializer_opt");

  ("new-placement", "new-placement:
    ( expression-list )");

  ("new-type-id", "new-type-id:
    type-specifier-seq new-declarator_opt");

  ("new-declarator", "new-declarator:
    ptr-operator new-declarator_opt
    noptr-new-declarator");

  ("noptr-new-declarator", "noptr-new-declarator:
    [ expression_opt ] attribute-specifier-seq_opt
    noptr-new-declarator [ constant-expression ] attribute-specifier-seq_opt");

  ("new-initializer", "new-initializer:
    ( expression-list_opt )
    braced-init-list");

  ("delete-expression", "delete-expression:
    ::_opt delete cast-expression
    ::_opt delete [ ] cast-expression");

  ("cast-expression", "cast-expression:
    unary-expression
    ( type-id ) cast-expression");

  ("pm-expression", "pm-expression:
    cast-expression
    pm-expression .* cast-expression
    pm-expression ->* cast-expression");

  ("multiplicative-expression", "multiplicative-expression:
    pm-expression
    multiplicative-expression * pm-expression
    multiplicative-expression / pm-expression
    multiplicative-expression % pm-expression");

  ("additive-expression", "additive-expression:
    multiplicative-expression
    additive-expression + multiplicative-expression
    additive-expression - multiplicative-expression");

  ("shift-expression", "shift-expression:
    additive-expression
    shift-expression << additive-expression
    shift-expression >> additive-expression");

  ("compare-expression", "compare-expression:
    shift-expression
    compare-expression <=> shift-expression");

  ("relational-expression", "relational-expression:
    compare-expression
    relational-expression < compare-expression
    relational-expression > compare-expression
    relational-expression <= compare-expression
    relational-expression >= compare-expression");

  ("equality-expression", "equality-expression:
    relational-expression
    equality-expression == relational-expression
    equality-expression != relational-expression");

  ("and-expression", "and-expression:
    equality-expression
    and-expression & equality-expression");

  ("exclusive-or-expression", "exclusive-or-expression:
    and-expression
    exclusive-or-expression ^ and-expression");

  ("inclusive-or-expression", "inclusive-or-expression:
    exclusive-or-expression
    inclusive-or-expression | exclusive-or-expression");

  ("logical-and-expression", "logical-and-expression:
    inclusive-or-expression
    logical-and-expression && inclusive-or-expression");

  ("logical-or-expression", "logical-or-expression:
    logical-and-expression
    logical-or-expression || logical-and-expression");

  ("conditional-expression", "conditional-expression:
    logical-or-expression
    logical-or-expression ? expression : assignment-expression");

  ("yield-expression", "yield-expression:
    co_yield assignment-expression
    co_yield braced-init-list");

  ("throw-expression", "throw-expression:
    throw assignment-expression_opt");

  ("assignment-expression", "assignment-expression:
    conditional-expression
    yield-expression
    throw-expression
    logical-or-expression assignment-operator initializer-clause");

  ("assignment-operator", "assignment-operator: one of
    = *= /= %= += -= >>= <<= &= ^= |=");

  ("expression", "expression:
    assignment-expression
    expression , assignment-expression");

  ("constant-expression", "constant-expression:
    conditional-expression");

  (* ===== A.6 Statements [gram.stmt] ===== *)

  ("statement", "statement:
    labeled-statement
    attribute-specifier-seq_opt expression-statement
    attribute-specifier-seq_opt compound-statement
    attribute-specifier-seq_opt selection-statement
    attribute-specifier-seq_opt iteration-statement
    attribute-specifier-seq_opt jump-statement
    declaration-statement
    attribute-specifier-seq_opt try-block");

  ("init-statement", "init-statement:
    expression-statement
    simple-declaration
    alias-declaration");

  ("condition", "condition:
    expression
    attribute-specifier-seq_opt decl-specifier-seq declarator brace-or-equal-initializer");

  ("label", "label:
    attribute-specifier-seq_opt identifier :
    attribute-specifier-seq_opt case constant-expression :
    attribute-specifier-seq_opt default :");

  ("labeled-statement", "labeled-statement:
    label statement");

  ("expression-statement", "expression-statement:
    expression_opt ;");

  ("compound-statement", "compound-statement:
    { statement-seq_opt label-seq_opt }");

  ("statement-seq", "statement-seq:
    statement
    statement-seq statement");

  ("label-seq", "label-seq:
    label
    label-seq label");

  ("selection-statement", "selection-statement:
    if constexpr_opt ( init-statement_opt condition ) statement
    if constexpr_opt ( init-statement_opt condition ) statement else statement
    if !_opt consteval compound-statement
    if !_opt consteval compound-statement else statement
    switch ( init-statement_opt condition ) statement");

  ("iteration-statement", "iteration-statement:
    while ( condition ) statement
    do statement while ( expression ) ;
    for ( init-statement condition_opt ; expression_opt ) statement
    for ( init-statement_opt for-range-declaration : for-range-initializer ) statement");

  ("for-range-declaration", "for-range-declaration:
    attribute-specifier-seq_opt decl-specifier-seq declarator
    attribute-specifier-seq_opt decl-specifier-seq ref-qualifier_opt [ identifier-list ]");

  ("for-range-initializer", "for-range-initializer:
    expr-or-braced-init-list");

  ("jump-statement", "jump-statement:
    break ;
    continue ;
    return expr-or-braced-init-list_opt ;
    coroutine-return-statement
    goto identifier ;");

  ("coroutine-return-statement", "coroutine-return-statement:
    co_return expr-or-braced-init-list_opt ;");

  ("declaration-statement", "declaration-statement:
    block-declaration");

  (* ===== A.7 Declarations [gram.dcl] ===== *)

  ("declaration-seq", "declaration-seq:
    declaration
    declaration-seq declaration");

  ("declaration", "declaration:
    name-declaration
    special-declaration");

  ("name-declaration", "name-declaration:
    block-declaration
    nodeclspec-function-declaration
    function-definition
    template-declaration
    deduction-guide
    linkage-specification
    namespace-definition
    empty-declaration
    attribute-declaration
    module-import-declaration");

  ("special-declaration", "special-declaration:
    explicit-instantiation
    explicit-specialization
    export-declaration");

  ("block-declaration", "block-declaration:
    simple-declaration
    asm-declaration
    namespace-alias-definition
    using-declaration
    using-enum-declaration
    using-directive
    static_assert-declaration
    alias-declaration
    opaque-enum-declaration");

  ("nodeclspec-function-declaration", "nodeclspec-function-declaration:
    attribute-specifier-seq_opt declarator ;");

  ("alias-declaration", "alias-declaration:
    using identifier attribute-specifier-seq_opt = defining-type-id ;");

  ("simple-declaration", "simple-declaration:
    decl-specifier-seq init-declarator-list_opt ;
    attribute-specifier-seq decl-specifier-seq init-declarator-list ;
    attribute-specifier-seq_opt decl-specifier-seq ref-qualifier_opt [ identifier-list ] initializer ;");

  ("static_assert-declaration", "static_assert-declaration:
    static_assert ( constant-expression ) ;
    static_assert ( constant-expression , string-literal ) ;");

  ("empty-declaration", "empty-declaration:
    ;");

  ("attribute-declaration", "attribute-declaration:
    attribute-specifier-seq ;");

  ("decl-specifier", "decl-specifier:
    storage-class-specifier
    defining-type-specifier
    function-specifier
    friend
    typedef
    constexpr
    consteval
    constinit
    inline");

  ("decl-specifier-seq", "decl-specifier-seq:
    decl-specifier attribute-specifier-seq_opt
    decl-specifier decl-specifier-seq");

  ("storage-class-specifier", "storage-class-specifier:
    static
    thread_local
    extern
    mutable");

  ("function-specifier", "function-specifier:
    virtual
    explicit-specifier");

  ("explicit-specifier", "explicit-specifier:
    explicit ( constant-expression )
    explicit");

  ("type-specifier", "type-specifier:
    simple-type-specifier
    elaborated-type-specifier
    typename-specifier
    cv-qualifier");

  ("type-specifier-seq", "type-specifier-seq:
    type-specifier attribute-specifier-seq_opt
    type-specifier type-specifier-seq");

  ("defining-type-specifier", "defining-type-specifier:
    type-specifier
    class-specifier
    enum-specifier");

  ("defining-type-specifier-seq", "defining-type-specifier-seq:
    defining-type-specifier attribute-specifier-seq_opt
    defining-type-specifier defining-type-specifier-seq");

  ("simple-type-specifier", "simple-type-specifier:
    nested-name-specifier_opt type-name
    nested-name-specifier template simple-template-id
    decltype-specifier
    placeholder-type-specifier
    nested-name-specifier_opt template-name
    char
    char8_t
    char16_t
    char32_t
    wchar_t
    bool
    short
    int
    long
    signed
    unsigned
    float
    double
    void");

  ("type-name", "type-name:
    class-name
    enum-name
    typedef-name");

  ("elaborated-type-specifier", "elaborated-type-specifier:
    class-key attribute-specifier-seq_opt nested-name-specifier_opt identifier
    class-key simple-template-id
    class-key nested-name-specifier template_opt simple-template-id
    enum nested-name-specifier_opt identifier");

  ("decltype-specifier", "decltype-specifier:
    decltype ( expression )");

  ("placeholder-type-specifier", "placeholder-type-specifier:
    type-constraint_opt auto
    type-constraint_opt decltype ( auto )");

  ("init-declarator-list", "init-declarator-list:
    init-declarator
    init-declarator-list , init-declarator");

  ("init-declarator", "init-declarator:
    declarator initializer_opt
    declarator requires-clause");

  ("declarator", "declarator:
    ptr-declarator
    noptr-declarator parameters-and-qualifiers trailing-return-type");

  ("ptr-declarator", "ptr-declarator:
    noptr-declarator
    ptr-operator ptr-declarator");

  ("noptr-declarator", "noptr-declarator:
    declarator-id attribute-specifier-seq_opt
    noptr-declarator parameters-and-qualifiers
    noptr-declarator [ constant-expression_opt ] attribute-specifier-seq_opt
    ( ptr-declarator )");

  ("parameters-and-qualifiers", "parameters-and-qualifiers:
    ( parameter-declaration-clause ) cv-qualifier-seq_opt
        ref-qualifier_opt noexcept-specifier_opt attribute-specifier-seq_opt");

  ("trailing-return-type", "trailing-return-type:
    -> type-id");

  ("ptr-operator", "ptr-operator:
    * attribute-specifier-seq_opt cv-qualifier-seq_opt
    & attribute-specifier-seq_opt
    && attribute-specifier-seq_opt
    nested-name-specifier * attribute-specifier-seq_opt cv-qualifier-seq_opt");

  ("cv-qualifier-seq", "cv-qualifier-seq:
    cv-qualifier cv-qualifier-seq_opt");

  ("cv-qualifier", "cv-qualifier:
    const
    volatile");

  ("ref-qualifier", "ref-qualifier:
    &
    &&");

  ("declarator-id", "declarator-id:
    ..._opt id-expression");

  ("type-id", "type-id:
    type-specifier-seq abstract-declarator_opt");

  ("defining-type-id", "defining-type-id:
    defining-type-specifier-seq abstract-declarator_opt");

  ("abstract-declarator", "abstract-declarator:
    ptr-abstract-declarator
    noptr-abstract-declarator_opt parameters-and-qualifiers trailing-return-type
    abstract-pack-declarator");

  ("ptr-abstract-declarator", "ptr-abstract-declarator:
    noptr-abstract-declarator
    ptr-operator ptr-abstract-declarator_opt");

  ("noptr-abstract-declarator", "noptr-abstract-declarator:
    noptr-abstract-declarator_opt parameters-and-qualifiers
    noptr-abstract-declarator_opt [ constant-expression_opt ] attribute-specifier-seq_opt
    ( ptr-abstract-declarator )");

  ("abstract-pack-declarator", "abstract-pack-declarator:
    noptr-abstract-pack-declarator
    ptr-operator abstract-pack-declarator");

  ("noptr-abstract-pack-declarator", "noptr-abstract-pack-declarator:
    noptr-abstract-pack-declarator parameters-and-qualifiers
    noptr-abstract-pack-declarator [ constant-expression_opt ] attribute-specifier-seq_opt
    ...");

  ("parameter-declaration-clause", "parameter-declaration-clause:
    parameter-declaration-list_opt ..._opt
    parameter-declaration-list , ...");

  ("parameter-declaration-list", "parameter-declaration-list:
    parameter-declaration
    parameter-declaration-list , parameter-declaration");

  ("parameter-declaration", "parameter-declaration:
    attribute-specifier-seq_opt this_opt decl-specifier-seq declarator
    attribute-specifier-seq_opt decl-specifier-seq declarator = initializer-clause
    attribute-specifier-seq_opt this_opt decl-specifier-seq abstract-declarator_opt
    attribute-specifier-seq_opt decl-specifier-seq abstract-declarator_opt = initializer-clause");

  ("initializer", "initializer:
    brace-or-equal-initializer
    ( expression-list )");

  ("brace-or-equal-initializer", "brace-or-equal-initializer:
    = initializer-clause
    braced-init-list");

  ("initializer-clause", "initializer-clause:
    assignment-expression
    braced-init-list");

  ("braced-init-list", "braced-init-list:
    { initializer-list ,_opt }
    { designated-initializer-list ,_opt }
    { }");

  ("initializer-list", "initializer-list:
    initializer-clause ..._opt
    initializer-list , initializer-clause ..._opt");

  ("designated-initializer-list", "designated-initializer-list:
    designated-initializer-clause
    designated-initializer-list , designated-initializer-clause");

  ("designated-initializer-clause", "designated-initializer-clause:
    designator brace-or-equal-initializer");

  ("designator", "designator:
    . identifier");

  ("expr-or-braced-init-list", "expr-or-braced-init-list:
    expression
    braced-init-list");

  ("function-definition", "function-definition:
    attribute-specifier-seq_opt decl-specifier-seq_opt declarator virt-specifier-seq_opt function-body
    attribute-specifier-seq_opt decl-specifier-seq_opt declarator requires-clause function-body");

  ("function-body", "function-body:
    ctor-initializer_opt compound-statement
    function-try-block
    = default ;
    = delete ;");

  ("enum-specifier", "enum-specifier:
    enum-head { enumerator-list_opt }
    enum-head { enumerator-list , }");

  ("enum-head", "enum-head:
    enum-key attribute-specifier-seq_opt enum-head-name_opt enum-base_opt");

  ("enum-head-name", "enum-head-name:
    nested-name-specifier_opt identifier");

  ("opaque-enum-declaration", "opaque-enum-declaration:
    enum-key attribute-specifier-seq_opt enum-head-name enum-base_opt ;");

  ("enum-key", "enum-key:
    enum
    enum class
    enum struct");

  ("enum-base", "enum-base:
    : type-specifier-seq");

  ("enumerator-list", "enumerator-list:
    enumerator-definition
    enumerator-list , enumerator-definition");

  ("enumerator-definition", "enumerator-definition:
    enumerator
    enumerator = constant-expression");

  ("enumerator", "enumerator:
    identifier attribute-specifier-seq_opt");

  ("using-enum-declaration", "using-enum-declaration:
    using enum using-enum-declarator ;");

  ("using-enum-declarator", "using-enum-declarator:
    nested-name-specifier_opt identifier
    nested-name-specifier_opt simple-template-id");

  ("namespace-definition", "namespace-definition:
    named-namespace-definition
    unnamed-namespace-definition
    nested-namespace-definition");

  ("named-namespace-definition", "named-namespace-definition:
    inline_opt namespace attribute-specifier-seq_opt identifier { namespace-body }");

  ("unnamed-namespace-definition", "unnamed-namespace-definition:
    inline_opt namespace attribute-specifier-seq_opt { namespace-body }");

  ("nested-namespace-definition", "nested-namespace-definition:
    namespace enclosing-namespace-specifier :: inline_opt identifier { namespace-body }");

  ("enclosing-namespace-specifier", "enclosing-namespace-specifier:
    identifier
    enclosing-namespace-specifier :: inline_opt identifier");

  ("namespace-body", "namespace-body:
    declaration-seq_opt");

  ("namespace-alias-definition", "namespace-alias-definition:
    namespace identifier = qualified-namespace-specifier ;");

  ("qualified-namespace-specifier", "qualified-namespace-specifier:
    nested-name-specifier_opt namespace-name");

  ("using-directive", "using-directive:
    attribute-specifier-seq_opt using namespace nested-name-specifier_opt namespace-name ;");

  ("using-declaration", "using-declaration:
    using using-declarator-list ;");

  ("using-declarator-list", "using-declarator-list:
    using-declarator ..._opt
    using-declarator-list , using-declarator ..._opt");

  ("using-declarator", "using-declarator:
    typename_opt nested-name-specifier unqualified-id");

  ("asm-declaration", "asm-declaration:
    attribute-specifier-seq_opt asm ( string-literal ) ;");

  ("linkage-specification", "linkage-specification:
    extern string-literal { declaration-seq_opt }
    extern string-literal name-declaration");

  ("attribute-specifier-seq", "attribute-specifier-seq:
    attribute-specifier-seq_opt attribute-specifier");

  ("attribute-specifier", "attribute-specifier:
    [ [ attribute-using-prefix_opt attribute-list ] ]
    alignment-specifier");

  ("alignment-specifier", "alignment-specifier:
    alignas ( type-id ..._opt )
    alignas ( constant-expression ..._opt )");

  ("attribute-using-prefix", "attribute-using-prefix:
    using attribute-namespace :");

  ("attribute-list", "attribute-list:
    attribute_opt
    attribute-list , attribute_opt
    attribute ...
    attribute-list , attribute ...");

  ("attribute", "attribute:
    attribute-token attribute-argument-clause_opt");

  ("attribute-token", "attribute-token:
    identifier
    attribute-scoped-token");

  ("attribute-scoped-token", "attribute-scoped-token:
    attribute-namespace :: identifier");

  ("attribute-namespace", "attribute-namespace:
    identifier");

  ("attribute-argument-clause", "attribute-argument-clause:
    ( balanced-token-seq_opt )");

  ("balanced-token-seq", "balanced-token-seq:
    balanced-token
    balanced-token-seq balanced-token");

  ("balanced-token", "balanced-token:
    ( balanced-token-seq_opt )
    [ balanced-token-seq_opt ]
    { balanced-token-seq_opt }
    any token other than a parenthesis, a bracket, or a brace");

  (* ===== A.8 Modules [gram.module] ===== *)

  ("module-declaration", "module-declaration:
    export-keyword_opt module-keyword module-name module-partition_opt attribute-specifier-seq_opt ;");

  ("module-name", "module-name:
    module-name-qualifier_opt identifier");

  ("module-partition", "module-partition:
    : module-name-qualifier_opt identifier");

  ("module-name-qualifier", "module-name-qualifier:
    identifier .
    module-name-qualifier identifier .");

  ("export-declaration", "export-declaration:
    export name-declaration
    export { declaration-seq_opt }
    export-keyword module-import-declaration");

  ("module-import-declaration", "module-import-declaration:
    import-keyword module-name attribute-specifier-seq_opt ;
    import-keyword module-partition attribute-specifier-seq_opt ;
    import-keyword header-name attribute-specifier-seq_opt ;");

  ("global-module-fragment", "global-module-fragment:
    module-keyword ; declaration-seq_opt");

  ("private-module-fragment", "private-module-fragment:
    module-keyword : private ; declaration-seq_opt");

  (* ===== A.9 Classes [gram.class] ===== *)

  ("class-specifier", "class-specifier:
    class-head { member-specification_opt }");

  ("class-head", "class-head:
    class-key attribute-specifier-seq_opt class-head-name class-virt-specifier_opt base-clause_opt
    class-key attribute-specifier-seq_opt base-clause_opt");

  ("class-head-name", "class-head-name:
    nested-name-specifier_opt class-name");

  ("class-virt-specifier", "class-virt-specifier:
    final");

  ("class-key", "class-key:
    class
    struct
    union");

  ("member-specification", "member-specification:
    member-declaration member-specification_opt
    access-specifier : member-specification_opt");

  ("member-declaration", "member-declaration:
    attribute-specifier-seq_opt decl-specifier-seq_opt member-declarator-list_opt ;
    function-definition
    using-declaration
    using-enum-declaration
    static_assert-declaration
    template-declaration
    explicit-specialization
    deduction-guide
    alias-declaration
    opaque-enum-declaration
    empty-declaration");

  ("member-declarator-list", "member-declarator-list:
    member-declarator
    member-declarator-list , member-declarator");

  ("member-declarator", "member-declarator:
    declarator virt-specifier-seq_opt pure-specifier_opt
    declarator requires-clause
    declarator brace-or-equal-initializer_opt
    identifier_opt attribute-specifier-seq_opt : constant-expression brace-or-equal-initializer_opt");

  ("virt-specifier-seq", "virt-specifier-seq:
    virt-specifier
    virt-specifier-seq virt-specifier");

  ("virt-specifier", "virt-specifier:
    override
    final");

  ("pure-specifier", "pure-specifier:
    = 0");

  ("conversion-function-id", "conversion-function-id:
    operator conversion-type-id");

  ("conversion-type-id", "conversion-type-id:
    type-specifier-seq conversion-declarator_opt");

  ("conversion-declarator", "conversion-declarator:
    ptr-operator conversion-declarator_opt");

  ("base-clause", "base-clause:
    : base-specifier-list");

  ("base-specifier-list", "base-specifier-list:
    base-specifier ..._opt
    base-specifier-list , base-specifier ..._opt");

  ("base-specifier", "base-specifier:
    attribute-specifier-seq_opt class-or-decltype
    attribute-specifier-seq_opt virtual access-specifier_opt class-or-decltype
    attribute-specifier-seq_opt access-specifier virtual_opt class-or-decltype");

  ("class-or-decltype", "class-or-decltype:
    nested-name-specifier_opt type-name
    nested-name-specifier template simple-template-id
    decltype-specifier");

  ("access-specifier", "access-specifier:
    private
    protected
    public");

  ("ctor-initializer", "ctor-initializer:
    : mem-initializer-list");

  ("mem-initializer-list", "mem-initializer-list:
    mem-initializer ..._opt
    mem-initializer-list , mem-initializer ..._opt");

  ("mem-initializer", "mem-initializer:
    mem-initializer-id ( expression-list_opt )
    mem-initializer-id braced-init-list");

  ("mem-initializer-id", "mem-initializer-id:
    class-or-decltype
    identifier");

  (* ===== A.10 Overloading [gram.over] ===== *)

  ("operator-function-id", "operator-function-id:
    operator operator");

  ("operator", "operator: one of
    new delete new[] delete[] co_await ( ) [ ] -> ->*
    ~ ! + - * / % ^ &
    | = += -= *= /= %= ^= &=
    |= == != < > <= >= <=> &&
    || << >> <<= >>= ++ -- ,");

  ("literal-operator-id", "literal-operator-id:
    operator string-literal identifier
    operator user-defined-string-literal");

  (* ===== A.11 Templates [gram.temp] ===== *)

  ("template-declaration", "template-declaration:
    template-head declaration
    template-head concept-definition");

  ("template-head", "template-head:
    template < template-parameter-list > requires-clause_opt");

  ("template-parameter-list", "template-parameter-list:
    template-parameter
    template-parameter-list , template-parameter");

  ("requires-clause", "requires-clause:
    requires constraint-logical-or-expression");

  ("constraint-logical-or-expression", "constraint-logical-or-expression:
    constraint-logical-and-expression
    constraint-logical-or-expression || constraint-logical-and-expression");

  ("constraint-logical-and-expression", "constraint-logical-and-expression:
    primary-expression
    constraint-logical-and-expression && primary-expression");

  ("template-parameter", "template-parameter:
    type-parameter
    parameter-declaration");

  ("type-parameter", "type-parameter:
    type-parameter-key ..._opt identifier_opt
    type-parameter-key identifier_opt = type-id
    type-constraint ..._opt identifier_opt
    type-constraint identifier_opt = type-id
    template-head type-parameter-key ..._opt identifier_opt
    template-head type-parameter-key identifier_opt = id-expression");

  ("type-parameter-key", "type-parameter-key:
    class
    typename");

  ("type-constraint", "type-constraint:
    nested-name-specifier_opt concept-name
    nested-name-specifier_opt concept-name < template-argument-list_opt >");

  ("simple-template-id", "simple-template-id:
    template-name < template-argument-list_opt >");

  ("template-id", "template-id:
    simple-template-id
    operator-function-id < template-argument-list_opt >
    literal-operator-id < template-argument-list_opt >");

  ("template-argument-list", "template-argument-list:
    template-argument ..._opt
    template-argument-list , template-argument ..._opt");

  ("template-argument", "template-argument:
    constant-expression
    type-id
    id-expression");

  ("constraint-expression", "constraint-expression:
    logical-or-expression");

  ("deduction-guide", "deduction-guide:
    explicit-specifier_opt template-name ( parameter-declaration-clause ) -> simple-template-id ;");

  ("concept-definition", "concept-definition:
    concept concept-name attribute-specifier-seq_opt = constraint-expression ;");

  ("concept-name", "concept-name:
    identifier");

  ("typename-specifier", "typename-specifier:
    typename nested-name-specifier identifier
    typename nested-name-specifier template_opt simple-template-id");

  ("explicit-instantiation", "explicit-instantiation:
    extern_opt template declaration");

  ("explicit-specialization", "explicit-specialization:
    template < > declaration");

  (* ===== A.12 Exception handling [gram.except] ===== *)

  ("try-block", "try-block:
    try compound-statement handler-seq");

  ("function-try-block", "function-try-block:
    try ctor-initializer_opt compound-statement handler-seq");

  ("handler-seq", "handler-seq:
    handler handler-seq_opt");

  ("handler", "handler:
    catch ( exception-declaration ) compound-statement");

  ("exception-declaration", "exception-declaration:
    attribute-specifier-seq_opt type-specifier-seq declarator
    attribute-specifier-seq_opt type-specifier-seq abstract-declarator_opt
    ...");

  ("noexcept-specifier", "noexcept-specifier:
    noexcept ( constant-expression )
    noexcept");

  (* ===== A.13 Preprocessing directives [gram.cpp] ===== *)

  ("preprocessing-file", "preprocessing-file:
    group_opt
    module-file");

  ("module-file", "module-file:
    pp-global-module-fragment_opt pp-module group_opt pp-private-module-fragment_opt");

  ("pp-global-module-fragment", "pp-global-module-fragment:
    module ; new-line group_opt");

  ("pp-private-module-fragment", "pp-private-module-fragment:
    module : private ; new-line group_opt");

  ("group", "group:
    group-part
    group group-part");

  ("group-part", "group-part:
    control-line
    if-section
    text-line
    # conditionally-supported-directive");

  ("control-line", "control-line:
    # include pp-tokens new-line
    pp-import
    # define identifier replacement-list new-line
    # define identifier lparen identifier-list_opt ) replacement-list new-line
    # define identifier lparen ... ) replacement-list new-line
    # define identifier lparen identifier-list , ... ) replacement-list new-line
    # undef identifier new-line
    # line pp-tokens new-line
    # error pp-tokens_opt new-line
    # warning pp-tokens_opt new-line
    # pragma pp-tokens_opt new-line
    # new-line");

  ("if-section", "if-section:
    if-group elif-groups_opt else-group_opt endif-line");

  ("if-group", "if-group:
    # if constant-expression new-line group_opt
    # ifdef identifier new-line group_opt
    # ifndef identifier new-line group_opt");

  ("elif-groups", "elif-groups:
    elif-group
    elif-groups elif-group");

  ("elif-group", "elif-group:
    # elif constant-expression new-line group_opt
    # elifdef identifier new-line group_opt
    # elifndef identifier new-line group_opt");

  ("else-group", "else-group:
    # else new-line group_opt");

  ("endif-line", "endif-line:
    # endif new-line");

  ("text-line", "text-line:
    pp-tokens_opt new-line");

  ("conditionally-supported-directive", "conditionally-supported-directive:
    pp-tokens new-line");

  ("lparen", "lparen:
    a ( character not immediately preceded by whitespace");

  ("identifier-list", "identifier-list:
    identifier
    identifier-list , identifier");

  ("replacement-list", "replacement-list:
    pp-tokens_opt");

  ("pp-tokens", "pp-tokens:
    preprocessing-token
    pp-tokens preprocessing-token");

  ("new-line", "new-line:
    the new-line character");

  ("defined-macro-expression", "defined-macro-expression:
    defined identifier
    defined ( identifier )");

  ("h-preprocessing-token", "h-preprocessing-token:
    any preprocessing-token other than >");

  ("h-pp-tokens", "h-pp-tokens:
    h-preprocessing-token
    h-pp-tokens h-preprocessing-token");

  ("header-name-tokens", "header-name-tokens:
    string-literal
    < h-pp-tokens >");

  ("has-include-expression", "has-include-expression:
    __has_include ( header-name )
    __has_include ( header-name-tokens )");

  ("has-attribute-expression", "has-attribute-expression:
    __has_cpp_attribute ( pp-tokens )");

  ("pp-module", "pp-module:
    export_opt module pp-tokens_opt ; new-line");

  ("pp-import", "pp-import:
    export_opt import header-name pp-tokens_opt ; new-line
    export_opt import header-name-tokens pp-tokens_opt ; new-line
    export_opt import pp-tokens ; new-line");

  ("va-opt-replacement", "va-opt-replacement:
    __VA_OPT__ ( pp-tokens_opt )")
  ] JsMap.empty.

(** The properties every object literal inherits from [Object.prototype]. *)
Definition Object_prototype : list string := [
  "constructor";
  "__defineGetter__";
  "__defineSetter__";
  "hasOwnProperty";
  "__lookupGetter__";
  "__lookupSetter__";
  "isPrototypeOf";
  "propertyIsEnumerable";
  "toString";
  "valueOf";
  "__proto__";
  "toLocaleString"
].

(** What reading a property of the object literal gives. *)
Inductive property : Type :=
| undefined
| text (s : string)
| inherited (member : string).
    (* the member of [Object.prototype] of that name: a function, or the
       prototype itself for [__proto__] *)

(** [o[k]] on an object literal with string values: an own property first,
    then the prototype. *)
Definition object_get (o : JsMap.t string) (k : string) : property :=
  match JsMap.get k o with
  | Some s => text s
  | None =>
      if existsb (String.eqb k) Object_prototype then inherited k
      else undefined
  end.

Definition getEbnfDefinition (name : RuleName) : property :=
  object_get EBNF_DEFINITIONS name.

(** [Object.keys]: the own keys, none of which is an array index, in
    insertion order. *)
Definition getEbnfRuleNames (_ : unit) : list string :=
  JsMap.keys EBNF_DEFINITIONS.

End Ebnf.


(** ** Checks on lists of names *)

Module Names.

(** How many times a name is listed. *)
Definition occurrences (name : string) (l : list string) : nat :=
  length (List.filter (String.eqb name) l).

Definition listed (name : string) (l : list string) : bool :=
  existsb (String.eqb name) l.

(** Modelled from the spec: the coverage check
    (scripts/check-grammar-coverage.mjs, not under src/) reports the names
    present in one list but not the other. *)
Definition missing_from (l1 l2 : list string) : list string :=
  List.filter (fun name => negb (listed name l2)) l1.

Definition coverage_report (diagrams ebnf : list string)
  : list string * list string :=
  (missing_from diagrams ebnf, missing_from ebnf diagrams).

End Names.


(** ** [App.tsx]: the filtered lists of the sections *)

Module AppView.
Import JsString.

(** The property key a section id is: the id itself. *)
Definition key (s : CppGrammar.SectionId) : string :=
  match s with
  | CppGrammar.keywords => "keywords"
  | CppGrammar.lexical => "lexical"
  | CppGrammar.literals => "literals"
  | CppGrammar.basics => "basics"
  | CppGrammar.expressions => "expressions"
  | CppGrammar.statements => "statements"
  | CppGrammar.declarations => "declarations"
  | CppGrammar.modules => "modules"
  | CppGrammar.classes => "classes"
  | CppGrammar.overloading => "overloading"
  | CppGrammar.templates => "templates"
  | CppGrammar.exceptions => "exceptions"
  | CppGrammar.preprocessing => "preprocessing"
  end.

(** The array [SECTION_RULES[s]], its literals as string values. *)
Definition SECTION_RULES (s : CppGrammar.SectionId) : list jsstring :=
  map units (CppGrammar.SECTION_RULES s).

(** Every name listed by some section, in section order. *)
Definition section_names : list jsstring :=
  map units CppGrammar.section_names.

(** [filteredBySection]: the object the [useMemo] callback builds,
    [out[s] = filterNames(SECTION_RULES[s])] for each [s] of
    [SECTION_ORDER], starting from [{}]. *)
Definition filteredBySection (unicode : jsstring -> jsstring)
  (query : jsstring) : JsMap.t (list jsstring) :=
  fold_left
    (fun out s =>
       JsMap.set (key s) (App.filterNames unicode query (SECTION_RULES s)) out)
    CppGrammar.SECTION_ORDER JsMap.empty.

(** The names the page shows, section after section: [filteredBySection[s]]
    for each [s] of [SECTION_ORDER], a missing property showing nothing. *)
Definition shown (unicode : jsstring -> jsstring) (query : jsstring)
  : list jsstring :=
  concat
    (map (fun s =>
            match JsMap.get (key s) (filteredBySection unicode query) with
            | Some names => names
            | None => []
            end)
         CppGrammar.SECTION_ORDER).

End AppView.

(** ** References between rules *)

Module References.
Import Railroad.

(** The rule names a diagram refers to through [NonTerminal], left to
    right. *)
Fixpoint references (t : DiagramNode) : list string :=
  match t with
  | Diagram a | Sequence a | Stack a | Choice _ a => flat_map references a
  | Optional item | OneOrMore item | ZeroOrMore item => references item
  | NonTerminal text => [text]
  | Terminal _ | Comment _ => []
  end.

(** Every reference made by some factory of a catalog. *)
Definition all_references (rules : JsMap.t (unit -> DiagramNode))
  : list string :=
  flat_map (fun e => references (snd e tt)) rules.

Definition is_Diagram (t : DiagramNode) : bool :=
  match t with Diagram _ => true | _ => false end.

(** The rules the revised catalog dropped. *)
Definition dropped_rules : list string :=
  ["import-keyword"; "module-keyword"; "export-keyword"].

End References.

(** * Properties *)

(** ** Literals *)

Section TextFacts.
Import Text.

Lemma prefix_app q s :
  String.prefix q s = true <-> exists suf, s = q ++ suf.
Proof.
  revert s. induction q as [|c q IH]; intros s.
  - destruct s; simpl; split; eauto.
  - destruct s as [|d s]; simpl.
    + split; [discriminate|]. intros [suf H]. discriminate.
    + destruct (ascii_dec c d) as [->|Hne].
      * rewrite IH. split; intros [suf H]; exists suf.
        -- now rewrite H.
        -- now injection H.
      * split; [discriminate|]. intros [suf H]. injection H as -> _.
        now contradiction Hne.
Qed.

End TextFacts.

(** ** Strings *)

Section StringFacts.
Import JsString.
Local Open Scope list_scope.

Implicit Types (s q n : jsstring) (c : N).

Lemma trimEnd_cons_keep c s :
  isWhiteSpace c = false -> trimEnd (c :: s) = c :: trimEnd s.
Proof.
  intros Hc. simpl. rewrite Hc. now destruct (trimEnd s).
Qed.

Lemma trimEnd_cons_ws c s :
  isWhiteSpace c = true ->
  trimEnd (c :: s) = match trimEnd s with [] => [] | t => c :: t end.
Proof. intros Hc. simpl. now rewrite Hc. Qed.

Lemma trimStart_idem s : trimStart (trimStart s) = trimStart s.
Proof.
  induction s as [|c s IH]; simpl; [reflexivity|].
  destruct (isWhiteSpace c) eqn:Hc; [exact IH|].
  simpl. now rewrite Hc.
Qed.

Lemma trimEnd_idem s : trimEnd (trimEnd s) = trimEnd s.
Proof.
  induction s as [|c s IH]; [reflexivity|].
  destruct (isWhiteSpace c) eqn:Hc.
  - rewrite (trimEnd_cons_ws _ _ Hc).
    destruct (trimEnd s) as [|d t] eqn:Ht; [reflexivity|].
    rewrite (trimEnd_cons_ws _ _ Hc), IH. reflexivity.
  - rewrite (trimEnd_cons_keep _ _ Hc), (trimEnd_cons_keep _ _ Hc), IH.
    reflexivity.
Qed.

Lemma trimEnd_trimStart s : trimEnd (trimStart s) = trimStart (trimEnd s).
Proof.
  induction s as [|c s IH]; [reflexivity|].
  destruct (isWhiteSpace c) eqn:Hc.
  - rewrite (trimEnd_cons_ws _ _ Hc). simpl trimStart at 1. rewrite Hc, IH.
    destruct (trimEnd s); [reflexivity|]. simpl. now rewrite Hc.
  - rewrite (trimEnd_cons_keep _ _ Hc). simpl. rewrite Hc.
    apply (trimEnd_cons_keep _ _ Hc).
Qed.

Lemma trim_idem s : trim (trim s) = trim s.
Proof.
  unfold trim.
  rewrite trimEnd_trimStart, trimEnd_idem, trimStart_idem. reflexivity.
Qed.

Lemma trimEnd_blank s : blank s = true -> trimEnd s = [].
Proof.
  induction s as [|c s IH]; [reflexivity|]. simpl.
  intros H. apply andb_true_iff in H as [Hc Hs].
  now rewrite (IH Hs), Hc.
Qed.

Lemma trimEnd_empty_blank s : trimEnd s = [] -> blank s = true.
Proof.
  induction s as [|c s IH]; [reflexivity|]. simpl.
  destruct (trimEnd s); [|discriminate].
  destruct (isWhiteSpace c); [|discriminate].
  intros _. now rewrite IH.
Qed.

(** [trim] leaves nothing exactly of the strings that are empty or only
    white space. *)
Lemma trim_blank s : trim s = [] <-> blank s = true.
Proof.
  unfold trim. split.
  - intros H. rewrite <- trimEnd_trimStart in H.
    apply trimEnd_empty_blank in H.
    revert H. clear. induction s as [|c s IH]; [reflexivity|]. simpl.
    destruct (isWhiteSpace c) eqn:Hc; [exact IH|].
    simpl. now rewrite Hc.
  - intros H. now rewrite (trimEnd_blank _ H).
Qed.

Lemma startsWith_app s q :
  startsWith s q = true <-> exists suf, s = q ++ suf.
Proof.
  revert s. induction q as [|c q IH]; intros s.
  - simpl. split; eauto.
  - destruct s as [|d s]; simpl.
    + split; [discriminate|]. intros [suf H]. discriminate.
    + rewrite andb_true_iff, N.eqb_eq, IH. split.
      * intros [-> [suf ->]]. now exists suf.
      * intros [suf H]. injection H as -> ->. eauto.
Qed.

(** [includes] is the search for a contiguous run. *)
Lemma includes_app s q :
  includes s q = true <-> exists pre suf, s = pre ++ q ++ suf.
Proof.
  induction s as [|c s IH].
  - cbn [includes]. rewrite orb_false_r, startsWith_app. split.
    + intros [suf H]. now exists [], suf.
    + intros (pre & suf & H). destruct pre; [now exists suf|discriminate].
  - cbn [includes]. rewrite orb_true_iff, startsWith_app, IH. split.
    + intros [[suf H]|(pre & suf & H)].
      * now exists [], suf.
      * exists (c :: pre), suf. simpl. now rewrite H.
    + intros (pre & suf & H). destruct pre as [|d pre].
      * left. now exists suf.
      * right. injection H as _ H. now exists pre, suf.
Qed.

Lemma truthy_false s : truthy s = false <-> s = [].
Proof. destruct s; simpl; split; congruence. Qed.

Lemma toLowerCase_empty unicode : toLowerCase unicode [] = [].
Proof. reflexivity. Qed.

(** The test the filter runs is the spec's case-insensitive containment. *)
Lemma includes_contains_ci unicode n q :
  includes (toLowerCase unicode n) (toLowerCase unicode q) = true
  <-> App.contains_ci unicode n q.
Proof. apply includes_app. Qed.

End StringFacts.

(** ** The filter *)

Section FilterFacts.
Import JsString App.
Local Open Scope list_scope.

Variable unicode : jsstring -> jsstring.

Lemma filter_sublist {A} (f : A -> bool) (l : list A) :
  sublist (List.filter f l) l.
Proof.
  induction l as [|x l IH]; simpl; [constructor|].
  destruct (f x); now constructor.
Qed.

Lemma copies_filter (f : jsstring -> bool) names n :
  copies n (List.filter f names) = if f n then copies n names else 0.
Proof.
  unfold copies. induction names as [|x names IH]; simpl.
  - now destruct (f n).
  - destruct (f x) eqn:Ex; simpl; destruct (bool_decide_reflect (x = n)) as [->|Hne];
      simpl; rewrite IH; try reflexivity.
    + now rewrite Ex.
    + now rewrite Ex.
Qed.

(** C2 (amended): the filter returns an order-preserving subsequence of its
    input in which every name contains the trimmed query
    case-insensitively; it keeps exactly those names, each as often as the
    input holds it, and a query that is empty or only white space returns
    the input list itself. *)
Theorem filterNames_correct (q : jsstring) (names : list jsstring) :
  sublist (filterNames unicode q names) names /\
  Forall (fun n => contains_ci unicode n (trim q))
         (filterNames unicode q names) /\
  (forall n, In n (filterNames unicode q names) <->
             In n names /\ contains_ci unicode n (trim q)) /\
  (forall n, copies n (filterNames unicode q names)
             = if includes (toLowerCase unicode n)
                           (toLowerCase unicode (trim q))
               then copies n names else 0) /\
  (blank q = true -> filterNames unicode q names = names).
Proof.
  rewrite <- trim_blank.
  unfold filterNames.
  destruct (truthy (toLowerCase unicode (trim q))) eqn:Hq; simpl.
  - assert (Hne : trim q <> []).
    { intros E. rewrite E in Hq. discriminate. }
    split; [|split; [|split; [|split]]].
    + apply filter_sublist.
    + apply List.Forall_forall. intros n Hn.
      apply List.filter_In in Hn. now apply includes_contains_ci.
    + intros n. rewrite List.filter_In, includes_contains_ci. reflexivity.
    + intros n.
      exact (copies_filter
               (fun n => includes (toLowerCase unicode n)
                                  (toLowerCase unicode (trim q))) names n).
    + intros E. contradiction.
  - apply truthy_false in Hq.
    assert (Hall : forall n, includes (toLowerCase unicode n)
                                      (toLowerCase unicode (trim q)) = true).
    { intros n. rewrite Hq. apply includes_app.
      now exists [], (toLowerCase unicode n). }
    split; [|split; [|split; [|split]]].
    + reflexivity.
    + apply List.Forall_forall. intros n _.
      now apply includes_contains_ci.
    + intros n. rewrite <- includes_contains_ci, Hall. tauto.
    + intros n. now rewrite Hall.
    + reflexivity.
Qed.

(** C10: the filter cannot tell a query from its trimmed form. *)
Theorem filterNames_trim_invariant (q : jsstring) (names : list jsstring) :
  filterNames unicode q names = filterNames unicode (trim q) names.
Proof. unfold filterNames. now rewrite trim_idem. Qed.

End FilterFacts.

Section FilterExamples.
Import JsString App.

(** C2, as stated, fails: the query is trimmed before it is compared, so a
    query typed with a space before and after keeps a name that does not
    contain it.  (The strings are ASCII: the engine's case mapping is not
    consulted.) *)
Lemma filterNames_untrimmed_query_counterexample :
  let unicode := fun s : jsstring => s in
  filterNames unicode (units " class ") [units "class-name"]
  = [units "class-name"] /\
  ~ Forall (fun n => contains_ci unicode n (units " class "))
           (filterNames unicode (units " class ") [units "class-name"]).
Proof.
  cbv zeta. split; [vm_compute; reflexivity|]. intros HF.
  apply Forall_inv in HF. apply includes_contains_ci in HF.
  vm_compute in HF. discriminate.
Qed.

End FilterExamples.


(** ** The export boundary *)

Section SvgFacts.
Import Svg.

Context {World : Type}.
Variable host : Host World.
Implicit Types (d v e f svg : value World) (w : World).

Lemma Get_read v k w :
  nullish v = false -> Get host v k w = (inl (read v k), w).
Proof. intros H. unfold Svg.Get. now rewrite H. Qed.

Lemma bind_Get {B} v k (f : value World -> M World B) w :
  nullish v = false -> bind (Get host v k) f w = f (read v k) w.
Proof. intros H. unfold bind. now rewrite (Get_read _ _ _ H). Qed.

Lemma truthy_not_nullish v :
  truthy v = true -> nullish v = false.
Proof. now destruct v. Qed.

Lemma typeof_function_inv f :
  typeof f = "function" ->
  exists get has body, f = VObject get has (Some body).
Proof.
  destruct f as [| | b | nz t | s | sym | nz t | get has [body|]];
    try discriminate.
  intros _. now exists get, has, body.
Qed.

Lemma ToString_primitive v w :
  is_primitive v = true -> is_symbol v = false ->
  ToString host v w = (inl (prim_text v), w).
Proof.
  intros H Hs. unfold Svg.ToString, bind. rewrite H. unfold ret at 1.
  now rewrite Hs.
Qed.

(** [String(v)] never fails on a primitive. *)
Lemma String_primitive v w :
  is_primitive v = true -> String_ host v w = (inl (prim_text v), w).
Proof.
  intros H. unfold Svg.String_. destruct (is_symbol v) eqn:Hs; [reflexivity|].
  now apply ToString_primitive.
Qed.

(** The [catch] block on a conventional error. *)
Lemma renderError_conventional e w :
  conventional_error e = true ->
  renderError host e w =
    (inl (VString ("<!-- Render error: " ++ error_text e ++ " -->")), w).
Proof.
  unfold conventional_error, error_text, Svg.renderError. intros H.
  destruct (is_primitive e) eqn:He.
  - assert (Hm : nullish (read e "message") = true).
    { destruct e; try reflexivity; discriminate. }
    unfold bind.
    destruct (nullish e) eqn:Hn.
    + unfold ret at 1. cbn [nullish]. rewrite (String_primitive _ _ He).
      unfold ret at 1.
      now rewrite (ToString_primitive (VString _) _ eq_refl eq_refl).
    + rewrite (Get_read _ _ _ Hn), Hm, (String_primitive _ _ He).
      unfold ret at 1.
      now rewrite (ToString_primitive (VString _) _ eq_refl eq_refl).
  - simpl in H. apply andb_true_iff in H as [H Hs].
    apply andb_true_iff in H as [Hp Hn].
    apply negb_true_iff in Hn. apply negb_true_iff in Hs.
    assert (Hne : nullish e = false) by now destruct e.
    unfold bind. rewrite Hne, (Get_read _ _ _ Hne), Hn.
    unfold ret at 1. now rewrite (ToString_primitive _ _ Hp Hs).
Qed.

(** C9: [null] and [undefined] give the sentinel at once; the state is handed
    back untouched, nothing having been read or called. *)
Theorem diagramToSvgString_null_undefined w :
  diagramToSvgString host VNull w = (inl (VString "<!-- empty diagram -->"), w) /\
  diagramToSvgString host VUndefined w = (inl (VString "<!-- empty diagram -->"), w).
Proof. split; reflexivity. Qed.

(** Every falsy argument is treated alike. *)
Lemma diagramToSvgString_falsy d w :
  truthy d = false ->
  diagramToSvgString host d w = (inl (VString "<!-- empty diagram -->"), w).
Proof. intros H. unfold Svg.diagramToSvgString. now rewrite H. Qed.

Lemma diagramToSvgString_truthy d w :
  truthy d = true ->
  diagramToSvgString host d w = try_catch (exportSvg host d) (renderError host) w.
Proof. intros H. unfold Svg.diagramToSvgString. now rewrite H. Qed.

(** The [try] block when [toSVG] is a function. *)
Lemma exportSvg_toSVG d w :
  truthy d = true ->
  typeof (read d "toSVG") = "function" ->
  exportSvg host d w =
    match Call host (read d "toSVG") w with
    | (inl svg, w') =>
        if String.eqb (typeof svg) "string" then (inl svg, w')
        else if looks_like_node svg then
          if nullish (read svg "outerHTML")
          then serializeToString host svg w'
          else (inl (read svg "outerHTML"), w')
        else (inl (VString "<!-- toSVG() returned unexpected value -->"), w')
    | (inr e, w') => (inr e, w')
    end.
Proof.
  intros Ht Hf. pose proof (truthy_not_nullish _ Ht) as Hn.
  unfold exportSvg. rewrite (bind_Get _ _ _ _ Hn), Hf, String.eqb_refl.
  unfold bind at 1. rewrite (bind_Get _ _ _ _ Hn).
  destruct (Call host (read d "toSVG") w) as [[svg|e] w']; [|reflexivity].
  destruct (String.eqb (typeof svg) "string"); [reflexivity|].
  unfold looks_like_node.
  destruct (truthy svg && String.eqb (typeof svg) "object"
            && HasProperty svg "nodeType") eqn:Hnode; [|reflexivity].
  apply andb_true_iff in Hnode as [Hnode _].
  apply andb_true_iff in Hnode as [Hsvg _].
  rewrite (bind_Get _ _ _ _ (truthy_not_nullish _ Hsvg)).
  now destruct (nullish (read svg "outerHTML")).
Qed.

(** The [try] block when [toSVG] is not a function. *)
Lemma exportSvg_toString d w :
  truthy d = true ->
  typeof (read d "toSVG") <> "function" ->
  exportSvg host d w =
    if String.eqb (typeof (read d "toString")) "function" then
      match Call host (read d "toString") w with
      | (inl r, w') =>
          match String_ host r w' with
          | (inl s, w'') => (inl (VString s), w'')
          | (inr e, w'') => (inr e, w'')
          end
      | (inr e, w') => (inr e, w')
      end
    else (inl (VString "<!-- Diagram does not support toSVG/toString -->"), w).
Proof.
  intros Ht Hf. pose proof (truthy_not_nullish _ Ht) as Hn.
  apply String.eqb_neq in Hf.
  unfold exportSvg. rewrite (bind_Get _ _ _ _ Hn), Hf.
  rewrite (bind_Get _ _ _ _ Hn).
  destruct (String.eqb (typeof (read d "toString")) "function");
    [|reflexivity].
  unfold bind at 1. rewrite (bind_Get _ _ _ _ Hn).
  destruct (Call host (read d "toString") w) as [[r|e] w']; [|reflexivity].
  unfold bind. now destruct (String_ host r w') as [[s|e] w''].
Qed.

Lemma diagramToSvgString_error d w e w' :
  truthy d = true ->
  exportSvg host d w = (inr e, w') ->
  conventional_error e = true ->
  diagramToSvgString host d w =
    (inl (VString ("<!-- Render error: " ++ error_text e ++ " -->")), w').
Proof.
  intros Ht He Hc. rewrite (diagramToSvgString_truthy _ _ Ht).
  unfold try_catch. rewrite He. now apply renderError_conventional.
Qed.

Lemma diagramToSvgString_value d w v w' :
  truthy d = true ->
  exportSvg host d w = (inl v, w') ->
  diagramToSvgString host d w = (inl v, w').
Proof.
  intros Ht He. rewrite (diagramToSvgString_truthy _ _ Ht).
  unfold try_catch. now rewrite He.
Qed.

Lemma conventional_error_object r :
  conventional_error (error_object host r) = true.
Proof. reflexivity. Qed.

Lemma error_text_error_object r :
  error_text (error_object host r) = wording host r.
Proof. reflexivity. Qed.

(** C4 (amended): the order of the fallbacks.  A falsy argument gives the
    empty-diagram sentinel.  When [toSVG] is a function its result decides
    alone: a string is returned as it is, what looks like a DOM node is
    serialized ([outerHTML], else [XMLSerializer]), and any other result
    gives the marker [toSVG() returned unexpected value] without [toString]
    being consulted.  Only when [toSVG] is not a function is [toString]
    called and its result converted to a string; when neither is a function
    the marker [Diagram does not support toSVG/toString] is returned.  An
    exception thrown on the way that is a conventional error value (a
    primitive, or an object whose [message] is a primitive other than
    [null], [undefined] and a Symbol) is caught and returned as the
    [Render error] marker, so that the function returns normally whenever
    whatever the export throws is conventional. *)
Theorem diagramToSvgString_fallback_chain d w :
  let toSVG := read d "toSVG" in
  let toString := read d "toString" in
  let result := diagramToSvgString host d w in
  (truthy d = false ->
     result = (inl (VString "<!-- empty diagram -->"), w)) /\
  (truthy d = true -> typeof toSVG = "function" ->
     forall svg w', Call host toSVG w = (inl svg, w') ->
       (typeof svg = "string" -> result = (inl svg, w')) /\
       (looks_like_node svg = true ->
        nullish (read svg "outerHTML") = false ->
        result = (inl (read svg "outerHTML"), w')) /\
       (looks_like_node svg = true ->
        nullish (read svg "outerHTML") = true ->
        forall serialize v w'',
          XMLSerializer host = Some serialize ->
          serialize svg w' = (Return v, w'') ->
          result = (inl v, w'')) /\
       (looks_like_node svg = true ->
        nullish (read svg "outerHTML") = true ->
        XMLSerializer host = None ->
        result =
          (inl (VString ("<!-- Render error: "
                         ++ wording host (NotDefined "XMLSerializer")
                         ++ " -->")), w')) /\
       (typeof svg <> "string" -> looks_like_node svg = false ->
        result =
          (inl (VString "<!-- toSVG() returned unexpected value -->"), w'))) /\
  (truthy d = true -> typeof toSVG <> "function" ->
   typeof toString = "function" ->
     forall r w' s w'',
       Call host toString w = (inl r, w') ->
       String_ host r w' = (inl s, w'') ->
       result = (inl (VString s), w'')) /\
  (truthy d = true -> typeof toSVG <> "function" ->
   typeof toString <> "function" ->
     result =
       (inl (VString "<!-- Diagram does not support toSVG/toString -->"), w)) /\
  (truthy d = true ->
     forall e w', exportSvg host d w = (inr e, w') ->
       conventional_error e = true ->
       result =
         (inl (VString ("<!-- Render error: " ++ error_text e ++ " -->")), w')) /\
  ((forall e w', exportSvg host d w = (inr e, w') ->
                 conventional_error e = true) ->
     exists v w', result = (inl v, w')).
Proof.
  cbv zeta. split; [apply diagramToSvgString_falsy|].
  split.
  { intros Ht Hf svg w' Hcall.
    pose proof (exportSvg_toSVG _ w Ht Hf) as E. rewrite Hcall in E.
    split; [|split; [|split; [|split]]].
    - intros Hs. apply diagramToSvgString_value; [exact Ht|].
      now rewrite E, Hs.
    - intros Hnode Hout. apply diagramToSvgString_value; [exact Ht|].
      rewrite E, Hnode, Hout.
      destruct (String.eqb (typeof svg) "string") eqn:Hs; [|reflexivity].
      apply String.eqb_eq in Hs. unfold looks_like_node in Hnode.
      rewrite Hs in Hnode. simpl in Hnode.
      now rewrite andb_false_r in Hnode.
    - intros Hnode Hout serialize v w'' Hser Hrun.
      apply diagramToSvgString_value; [exact Ht|].
      rewrite E, Hnode, Hout.
      destruct (String.eqb (typeof svg) "string") eqn:Hs.
      + apply String.eqb_eq in Hs. unfold looks_like_node in Hnode.
        rewrite Hs in Hnode. simpl in Hnode.
        now rewrite andb_false_r in Hnode.
      + unfold serializeToString. now rewrite Hser, Hrun.
    - intros Hnode Hout Hser.
      rewrite <- (error_text_error_object (NotDefined "XMLSerializer")).
      apply diagramToSvgString_error; [exact Ht| |reflexivity].
      rewrite E, Hnode, Hout.
      destruct (String.eqb (typeof svg) "string") eqn:Hs.
      + apply String.eqb_eq in Hs. unfold looks_like_node in Hnode.
        rewrite Hs in Hnode. simpl in Hnode.
        now rewrite andb_false_r in Hnode.
      + unfold serializeToString. now rewrite Hser.
    - intros Hs Hnode. apply diagramToSvgString_value; [exact Ht|].
      apply String.eqb_neq in Hs. now rewrite E, Hs, Hnode. }
  split.
  { intros Ht Hf Hts r w' s w'' Hcall Hstr.
    apply diagramToSvgString_value; [exact Ht|].
    rewrite (exportSvg_toString _ w Ht Hf), Hts, String.eqb_refl.
    now rewrite Hcall, Hstr. }
  split.
  { intros Ht Hf Hts. apply diagramToSvgString_value; [exact Ht|].
    rewrite (exportSvg_toString _ w Ht Hf).
    apply String.eqb_neq in Hts. now rewrite Hts. }
  split.
  { intros Ht e w' He Hc. now apply diagramToSvgString_error. }
  intros Hall. destruct (truthy d) eqn:Ht.
  - destruct (exportSvg host d w) as [[v|e] w'] eqn:He.
    + exists v, w'. now apply diagramToSvgString_value.
    + eexists _, w'. apply diagramToSvgString_error; eauto.
  - eexists _, w. now apply diagramToSvgString_falsy.
Qed.

(** *** Determinism *)

Lemma steady_ret {A} (P : A -> Prop) a : P a -> steady P (ret (World:=World) a).
Proof. intros H. now exists (inl a). Qed.

Lemma steady_throw {A} (P : A -> Prop) e :
  stateless e -> steady P (throw (World:=World) e).
Proof. intros H. now exists (inr e). Qed.

Lemma steady_bind {A B} (P : A -> Prop) (Q : B -> Prop)
      (m : M World A) (k : A -> M World B) :
  steady P m -> (forall a, P a -> steady Q (k a)) -> steady Q (bind m k).
Proof.
  intros ([a|e] & Hm & Hr) Hk.
  - destruct (Hk a Hr) as (r & Hka & Hq). exists r. split; [|exact Hq].
    intros w. unfold bind. now rewrite Hm.
  - exists (inr e). split; [|exact Hr]. intros w. unfold bind. now rewrite Hm.
Qed.

Lemma steady_try_catch {A} (P : A -> Prop)
      (m : M World A) (h : value World -> M World A) :
  steady P m -> (forall e, stateless e -> steady P (h e)) ->
  steady P (try_catch m h).
Proof.
  intros ([a|e] & Hm & Hr) Hh.
  - exists (inl a). split; [|exact Hr].
    intros w. unfold try_catch. now rewrite Hm.
  - destruct (Hh e Hr) as (r & Hhe & Hq). exists r. split; [|exact Hq].
    intros w. unfold try_catch. now rewrite Hm.
Qed.

Lemma steady_weaken {A} (P Q : A -> Prop) (m : M World A) :
  (forall a, P a -> Q a) -> steady P m -> steady Q m.
Proof.
  intros HPQ (r & Hm & Hr). exists r. split; [exact Hm|].
  destruct r; auto.
Qed.

Lemma stateless_function_returning s :
  stateless (function_returning (World:=World) s).
Proof.
  eapply stateless_function.
  - intros k. now constructor.
  - reflexivity.
  - constructor. now constructor.
Qed.

Lemma stateless_error_object r : stateless (error_object host r).
Proof.
  apply stateless_object. intros k.
  destruct (String.eqb k "message"); [now constructor|].
  destruct (String.eqb k "name"); [now constructor|].
  destruct (String.eqb k "toString"); [apply stateless_function_returning|].
  now constructor.
Qed.

Lemma stateless_read v k : stateless v -> stateless (read v k).
Proof.
  intros H. destruct H as [v Hp | get has Hg | get has body r Hg Hb Hr].
  - destruct v; try discriminate; simpl;
      try (now constructor);
      (destruct (String.eqb k "toString");
       [apply stateless_function_returning|now constructor]).
  - apply Hg.
  - apply Hg.
Qed.

Lemma steady_Get v k : stateless v -> steady stateless (Get host v k).
Proof.
  intros H. unfold Get. destruct (nullish v).
  - apply steady_throw, stateless_error_object.
  - apply steady_ret. now apply stateless_read.
Qed.

Lemma steady_Call f : stateless f -> steady stateless (Call host f).
Proof.
  intros H. destruct H as [v Hp | get has Hg | get has body r Hg Hb Hr].
  - destruct v; try discriminate;
      apply steady_throw, stateless_error_object.
  - apply steady_throw, stateless_error_object.
  - destruct Hr as [v Hv | e He].
    + exists (inl v). split; [|exact Hv]. intros w. simpl. now rewrite Hb.
    + exists (inr e). split; [|exact He]. intros w. simpl. now rewrite Hb.
Qed.

Lemma steady_try_method o k otherwise :
  stateless o -> steady stateless otherwise ->
  steady stateless (try_method host o k otherwise).
Proof.
  intros Ho Hother. unfold try_method.
  eapply steady_bind; [now apply steady_Get|]. intros method Hm.
  destruct (String.eqb (typeof method) "function"); [|exact Hother].
  eapply steady_bind; [now apply steady_Call|]. intros r Hr.
  destruct (is_primitive r); [now apply steady_ret|exact Hother].
Qed.

Lemma steady_ToString v :
  stateless v -> steady (fun _ => True) (ToString host v).
Proof.
  intros Hv. unfold ToString.
  eapply steady_bind with (P := stateless).
  - destruct (is_primitive v); [now apply steady_ret|].
    unfold ToPrimitive. apply steady_try_method; [exact Hv|].
    apply steady_try_method; [exact Hv|].
    apply steady_throw, stateless_error_object.
  - intros p _. destruct (is_symbol p).
    + apply steady_throw, stateless_error_object.
    + now apply steady_ret.
Qed.

Lemma steady_String v :
  stateless v -> steady (fun _ => True) (String_ host v).
Proof.
  intros Hv. unfold String_. destruct (is_symbol v).
  - now apply steady_ret.
  - now apply steady_ToString.
Qed.

Lemma steady_serializeToString el :
  stateless_serializer host -> stateless el ->
  steady stateless (serializeToString host el).
Proof.
  unfold stateless_serializer, serializeToString. intros Hser Hel.
  destruct (XMLSerializer host) as [serialize|].
  - destruct (Hser el Hel) as (r & Hrun & Hr).
    destruct Hr as [v Hv | e He].
    + exists (inl v). split; [|exact Hv]. intros w. now rewrite Hrun.
    + exists (inr e). split; [|exact He]. intros w. now rewrite Hrun.
  - apply steady_throw, stateless_error_object.
Qed.

Lemma stateless_VString s : stateless (VString (World:=World) s).
Proof. now constructor. Qed.

Lemma steady_exportSvg d :
  stateless_serializer host -> stateless d ->
  steady stateless (exportSvg host d).
Proof.
  intros Hser Hd. unfold exportSvg.
  eapply steady_bind; [now apply steady_Get|]. intros toSVG _.
  destruct (String.eqb (typeof toSVG) "function").
  - eapply steady_bind.
    + eapply steady_bind; [now apply steady_Get|]. intros f Hf.
      now apply steady_Call.
    + intros svg Hsvg.
      destruct (String.eqb (typeof svg) "string"); [now apply steady_ret|].
      destruct (truthy svg && String.eqb (typeof svg) "object"
                && HasProperty svg "nodeType").
      * eapply steady_bind; [now apply steady_Get|]. intros out Hout.
        destruct (nullish out); [now apply steady_serializeToString|].
        now apply steady_ret.
      * apply steady_ret, stateless_VString.
  - eapply steady_bind; [now apply steady_Get|]. intros toString _.
    destruct (String.eqb (typeof toString) "function").
    + eapply steady_bind.
      * eapply steady_bind; [now apply steady_Get|]. intros f Hf.
        now apply steady_Call.
      * intros r Hr. eapply steady_bind; [now apply steady_String|].
        intros s _. apply steady_ret, stateless_VString.
    + apply steady_ret, stateless_VString.
Qed.

Lemma steady_renderError e :
  stateless e -> steady stateless (renderError host e).
Proof.
  intros He. unfold renderError.
  eapply steady_bind with (P := stateless).
  { destruct (nullish e); [apply steady_ret; now constructor|].
    now apply steady_Get. }
  intros message Hm.
  eapply steady_bind with (P := stateless).
  { destruct (nullish message); [|now apply steady_ret].
    eapply steady_bind; [now apply steady_String|].
    intros s _. apply steady_ret, stateless_VString. }
  intros shown Hs.
  eapply steady_bind; [now apply steady_ToString|].
  intros s _. apply steady_ret, stateless_VString.
Qed.

Lemma steady_diagramToSvgString d :
  stateless_serializer host -> stateless d ->
  steady stateless (diagramToSvgString host d).
Proof.
  intros Hser Hd. unfold diagramToSvgString.
  destruct (negb (truthy d)); [apply steady_ret, stateless_VString|].
  apply steady_try_catch; [now apply steady_exportSvg|].
  intros e He. now apply steady_renderError.
Qed.


End SvgFacts.


(** ** Building diagrams *)

Section JsMapFacts.

Context {V : Type}.

Lemma JsMap_get_In (m : JsMap.t V) k v :
  JsMap.get k m = Some v -> In (k, v) m.
Proof.
  induction m as [|[k' v'] m IH]; simpl; [discriminate|].
  destruct (String.eqb k' k) eqn:E.
  - apply String.eqb_eq in E. intros [= ->]. left. now rewrite E.
  - intros H. right. now apply IH.
Qed.

Lemma JsMap_get_keys (m : JsMap.t V) k :
  In k (JsMap.keys m) <-> exists v, JsMap.get k m = Some v.
Proof.
  unfold JsMap.keys. induction m as [|[k' v'] m IH]; simpl.
  - split; [contradiction|]. intros [v H]. discriminate.
  - destruct (String.eqb k' k) eqn:E.
    + apply String.eqb_eq in E. split; [eauto|auto].
    + apply String.eqb_neq in E. rewrite IH. split; [|tauto].
      intros [H|H]; [contradiction|exact H].
Qed.

Lemma JsMap_get_None (m : JsMap.t V) k :
  JsMap.get k m = None <-> ~ In k (JsMap.keys m).
Proof.
  rewrite JsMap_get_keys. destruct (JsMap.get k m) as [v|].
  - split; [discriminate|]. intros H. exfalso. eauto.
  - split; [|reflexivity]. intros _ [v H]. discriminate.
Qed.

End JsMapFacts.

Section RailroadFacts.
Import Text Railroad.
Local Open Scope list_scope.

Variable lib : Library.

Lemma run_constructor_throws p args e h h' :
  run_constructor lib p args h = (inr e, h') -> h' = h.
Proof.
  unfold run_constructor. destruct (check_arguments lib p args).
  - unfold throw. now intros [= _ <-].
  - discriminate.
Qed.

Lemma run_constructor_returns p args a h h' :
  run_constructor lib p args h = (inl a, h') ->
  a = length h /\ h' = h ++ [Cell p args].
Proof.
  unfold run_constructor. destruct (check_arguments lib p args).
  - discriminate.
  - now intros [= <- <-].
Qed.

Lemma run_constructor_accepts p args h :
  check_arguments lib p args = None ->
  run_constructor lib p args h = (inl (length h), h ++ [Cell p args]).
Proof. intros H. unfold run_constructor. now rewrite H. Qed.

(** What [callOrNew] comes to: the constructor is run, once, when it can be
    reached; if not, the engine's [TypeError] is thrown again. *)
Lemma callOrNew_run p args h :
  callOrNew lib p args h =
    if callable lib p then run_constructor lib p args h
    else (inr (TypeError (class_call_message lib p)), h).
Proof.
  unfold callOrNew, try_catch, call_plain, call_new, callable.
  destruct (build lib).
  - destruct (run_constructor lib p args h) as [[a|e] h'] eqn:E;
      [reflexivity|].
    pose proof (run_constructor_throws _ _ _ _ _ E) as ->.
    destruct e as [message|message]; [|reflexivity].
    destruct (includes message "without 'new'"); [exact E|reflexivity].
  - unfold throw at 1.
    now destruct (includes (class_call_message lib p) "without 'new'").
Qed.

Lemma callOrNew_returns p args a h h' :
  callOrNew lib p args h = (inl a, h') ->
  a = length h /\ h' = h ++ [Cell p args].
Proof.
  rewrite callOrNew_run. destruct (callable lib p); [|discriminate].
  apply run_constructor_returns.
Qed.

Lemma callOrNew_usable p args h :
  usable lib -> ordinary p args = true ->
  callOrNew lib p args h = (inl (length h), h ++ [Cell p args]).
Proof.
  intros [Hc Ha] Ho. rewrite callOrNew_run, Hc.
  apply run_constructor_accepts. now apply Ha.
Qed.

Lemma construct_all_eq ts :
  (fix construct_all (ts : list DiagramNode) : H (list arg) :=
     match ts with
     | [] => ret []
     | t :: ts =>
         bind (construct lib t) (fun a =>
         bind (construct_all ts) (fun rest => ret (AObject a :: rest)))
     end) ts = construct_all lib ts.
Proof. induction ts as [|t ts IH]; simpl; [reflexivity|now rewrite IH]. Qed.

Lemma built_extend h x a t : built h a t -> built (h ++ x) a t.
Proof. intros Hb more fuel Hf. rewrite <- app_assoc. now apply Hb. Qed.

Lemma built_read_tree h a t :
  built h a t -> size t <= length h -> read_tree h a = Some t.
Proof.
  intros Hb Hs. unfold read_tree.
  specialize (Hb [] (length h) Hs). now rewrite app_nil_r in Hb.
Qed.

Lemma size_le_sum t ts : In t ts -> size t <= list_sum (map size ts).
Proof.
  induction ts as [|x ts IH]; simpl; [contradiction|].
  intros [->|Hin]; [lia|]. specialize (IH Hin). lia.
Qed.

Lemma children_built h more fuel addrs ts :
  Forall2 (built h) addrs ts ->
  list_sum (map size ts) <= fuel ->
  all_some
    (map (fun x => match x with
                   | AObject b => reify fuel (h ++ more) b
                   | _ => None
                   end) (map AObject addrs)) = Some ts.
Proof.
  induction 1 as [|a t addrs ts Hb _ IH]; simpl; [reflexivity|].
  intros Hf. rewrite (Hb more fuel) by lia. now rewrite IH by lia.
Qed.

Lemma forallb_is_object addrs : forallb is_object (map AObject addrs) = true.
Proof. induction addrs; simpl; auto. Qed.

Lemma construct_all_correct ts :
  Forall (construct_spec lib) ts -> construct_all_spec lib ts.
Proof.
  induction 1 as [|t ts Ht _ IH]; intros h args h' E.
  - injection E as <- <-. exists [], []. rewrite app_nil_r.
    repeat split. constructor.
  - simpl in E. unfold bind in E.
    destruct (construct lib t h) as [[a|e] h1] eqn:E1; [|discriminate].
    destruct (construct_all lib ts h1) as [[rest|e] h2] eqn:E2;
      [|discriminate].
    injection E as <- <-.
    destruct (Ht _ _ _ E1) as (c1 & -> & L1 & _ & B1).
    destruct (IH _ _ _ E2) as (addrs & c2 & -> & -> & L2 & B2).
    exists (a :: addrs), (c1 ++ c2). rewrite <- app_assoc.
    split; [reflexivity|]. split; [reflexivity|].
    split; [simpl; rewrite length_app; lia|].
    rewrite app_assoc. constructor; [|exact B2].
    now apply built_extend.
Qed.

Lemma lookup_root (h c : heap) x more :
  (h ++ (c ++ [x]) ++ more) !! length (h ++ c) = Some x.
Proof.
  rewrite <- (app_assoc c), app_assoc. now apply list_lookup_middle.
Qed.

Lemma heap_regroup (h c : heap) x more :
  h ++ (c ++ [x]) ++ more = (h ++ c) ++ ([x] ++ more).
Proof. now rewrite <- !app_assoc. Qed.

Lemma lookup_leaf (h : heap) x more :
  ((h ++ [x]) ++ more) !! length h = Some x.
Proof. rewrite <- app_assoc. now apply list_lookup_middle. Qed.

Ltac leaf_case :=
  intros h r h' E; simpl in E;
  apply callOrNew_returns in E as [-> ->];
  eexists; split; [reflexivity|]; split; [reflexivity|];
  split; [rewrite length_app; simpl; lia|];
  intros more [|fuel] Hf; [simpl in Hf; lia|];
  cbn [reify]; now rewrite lookup_leaf.

Ltac unary_case p IH :=
  let a := fresh "a" in
  let E1 := fresh "Eargs" in
  intros h r h' E; simpl in E; unfold bind in E;
  match type of E with
  | context [construct lib ?t h] =>
      destruct (construct lib t h) as [[a|?] ?] eqn:E1; [|discriminate E]
  end;
  destruct (IH _ _ _ E1) as (c & -> & L & R & B);
  apply callOrNew_returns in E as [-> ->];
  exists (c ++ [Cell p [AObject a]]); rewrite <- app_assoc;
  split; [reflexivity|]; split; [rewrite length_app; simpl; lia|];
  split; [rewrite !length_app; simpl; lia|];
  intros more [|fuel] Hf; [simpl in Hf; lia|];
  cbn [reify]; rewrite <- app_assoc, lookup_root;
  cbn [option_map]; rewrite heap_regroup;
  rewrite (B _ fuel) by (simpl in Hf; lia); reflexivity.

Ltac list_case p a IH :=
  let E1 := fresh "Eargs" in
  intros h r h' E; cbn [construct] in E; rewrite construct_all_eq in E;
  unfold bind in E;
  destruct (construct_all lib a h) as [[args|?] ?] eqn:E1;
    [|discriminate E];
  destruct (construct_all_correct _ IH _ _ _ E1)
    as (addrs & c & -> & -> & L & B);
  apply callOrNew_returns in E as [-> ->];
  match goal with
  | |- context [Cell _ ?args] =>
      exists (c ++ [Cell p args])
  end;
  rewrite <- app_assoc;
  split; [reflexivity|]; split; [rewrite length_app; simpl; lia|];
  split; [rewrite !length_app; simpl; lia|];
  intros more [|fuel] Hf; [simpl in Hf; lia|];
  cbn [reify]; rewrite <- app_assoc, lookup_root;
  rewrite heap_regroup;
  rewrite (children_built _ _ _ _ _ B) by (simpl in Hf; lia);
  reflexivity.

(** Whatever the library, a call of [construct] that returns has built the
    tree it was given. *)
Lemma construct_correct t : construct_spec lib t.
Proof.
  induction t as [a IH|a IH|n a IH|t IH|t IH|t IH|s|s|a IH|s]
    using DiagramNode_nested_ind.
  - list_case RR_Diagram a IH.
  - list_case RR_Sequence a IH.
  - list_case RR_Choice a IH.
  - unary_case RR_Optional IH.
  - unary_case RR_OneOrMore IH.
  - unary_case RR_ZeroOrMore IH.
  - leaf_case.
  - leaf_case.
  - list_case RR_Stack a IH.
  - leaf_case.
Qed.

Lemma construct_read_tree t h a h' :
  construct lib t h = (inl a, h') -> read_tree h' a = Some t.
Proof.
  intros E. destruct (construct_correct t _ _ _ E) as (c & -> & L & _ & B).
  apply built_read_tree; [exact B|]. rewrite length_app. lia.
Qed.

(** *** A usable library *)

Lemma construct_all_returns ts :
  Forall (construct_returns lib) ts -> forallb valid ts = true ->
  forall h, exists addrs h',
    construct_all lib ts h = (inl (map AObject addrs), h') /\
    length addrs = length ts.
Proof.
  induction 1 as [|t ts Ht _ IH]; intros Hv h.
  - now exists [], h.
  - simpl in Hv. apply andb_true_iff in Hv as [Hvt Hvs].
    destruct (Ht Hvt h) as (a & h1 & E1).
    destruct (IH Hvs h1) as (addrs & h2 & E2 & L).
    exists (a :: addrs), h2. simpl. unfold bind. rewrite E1, E2.
    split; [reflexivity|]. now rewrite L.
Qed.

Lemma ordinary_nodes p addrs :
  p = RR_Diagram \/ p = RR_Sequence \/ p = RR_Stack ->
  addrs <> [] ->
  ordinary p (map AObject addrs) = true.
Proof.
  intros Hp Hne. destruct addrs as [|a addrs]; [contradiction|].
  destruct Hp as [-> | [-> | ->]]; simpl; apply forallb_is_object.
Qed.

Lemma valid_nodes (a : list DiagramNode) :
  match a with [] => false | _ => forallb valid a end = true ->
  a <> [] /\ forallb valid a = true.
Proof. destruct a; [discriminate|]. intros H. split; [discriminate|exact H]. Qed.

Ltac returns_list Hu a IH :=
  intros Hv h; simpl in Hv; apply valid_nodes in Hv as [Hne Hv];
  destruct (construct_all_returns _ IH Hv h) as (addrs & h1 & E & L);
  eexists _, _; cbn [construct]; rewrite construct_all_eq; unfold bind;
  rewrite E; apply (callOrNew_usable _ _ _ Hu);
  apply ordinary_nodes; [auto|];
  intros ->; apply Hne; now destruct a.

Ltac returns_unary Hu IH :=
  intros Hv h; simpl in Hv; destruct (IH Hv h) as (r & h1 & E);
  eexists _, _; simpl; unfold bind; rewrite E;
  now apply (callOrNew_usable _ _ _ Hu).

Ltac returns_leaf Hu :=
  intros _ h; eexists _, _; simpl; now apply (callOrNew_usable _ _ _ Hu).

(** With a usable library, a tree of documented calls is built. *)
Lemma construct_usable_returns t : usable lib -> construct_returns lib t.
Proof.
  intros Hu.
  induction t as [a IH|a IH|n a IH|t IH|t IH|t IH|s|s|a IH|s]
    using DiagramNode_nested_ind.
  - returns_list Hu a IH.
  - returns_list Hu a IH.
  - intros Hv h. simpl in Hv. apply andb_true_iff in Hv as [Hn Hv].
    destruct (construct_all_returns _ IH Hv h) as (addrs & h1 & E & L).
    eexists _, _. cbn [construct]. rewrite construct_all_eq. unfold bind.
    rewrite E. apply (callOrNew_usable _ _ _ Hu). simpl.
    now rewrite forallb_is_object, length_map, L.
  - returns_unary Hu IH.
  - returns_unary Hu IH.
  - returns_unary Hu IH.
  - returns_leaf Hu.
  - returns_leaf Hu.
  - returns_list Hu a IH.
  - returns_leaf Hu.
Qed.

Lemma construct_usable t h :
  usable lib -> valid t = true ->
  exists a cells,
    construct lib t h = (inl a, h ++ cells) /\
    length cells = size t /\
    length h <= a < length (h ++ cells) /\
    built (h ++ cells) a t.
Proof.
  intros Hu Hv. destruct (construct_usable_returns t Hu Hv h) as (a & h' & E).
  destruct (construct_correct t _ _ _ E) as (c & -> & L & R & B).
  now exists a, c.
Qed.

(** *** A library of classes on an engine with another wording *)

Section Unreachable.

Variable message : string.
Hypothesis Hclasses : build lib = ClassConstructors.
Hypothesis Hmessage : forall p, class_call_message lib p = message.
Hypothesis Hwording : includes message "without 'new'" = false.

Lemma callOrNew_unreachable p args h :
  callOrNew lib p args h = (inr (TypeError message), h).
Proof.
  rewrite callOrNew_run. unfold callable.
  now rewrite Hclasses, Hmessage, Hwording.
Qed.

Lemma construct_all_unreachable ts :
  Forall (fun t => forall h, construct lib t h = (inr (TypeError message), h))
         ts ->
  forall h, construct_all lib ts h =
            match ts with
            | [] => (inl [], h)
            | _ => (inr (TypeError message), h)
            end.
Proof.
  intros HF h. destruct HF as [|t ts Ht _]; [reflexivity|].
  simpl. unfold bind. now rewrite Ht.
Qed.

Ltac unreachable_list a IH :=
  intros h; cbn [construct]; rewrite construct_all_eq; unfold bind;
  rewrite (construct_all_unreachable _ IH);
  destruct a; [apply callOrNew_unreachable|reflexivity].

Ltac unreachable_unary IH :=
  intros h; simpl; unfold bind; now rewrite IH.

(** The first call of the tree throws, and nothing is built. *)
Lemma construct_unreachable t h :
  construct lib t h = (inr (TypeError message), h).
Proof.
  revert h.
  induction t as [a IH|a IH|n a IH|t IH|t IH|t IH|s|s|a IH|s]
    using DiagramNode_nested_ind.
  - unreachable_list a IH.
  - unreachable_list a IH.
  - unreachable_list a IH.
  - unreachable_unary IH.
  - unreachable_unary IH.
  - unreachable_unary IH.
  - intros h. apply callOrNew_unreachable.
  - intros h. apply callOrNew_unreachable.
  - unreachable_list a IH.
  - intros h. apply callOrNew_unreachable.
Qed.

End Unreachable.

End RailroadFacts.


(** ** Lists of names *)

Section NamesFacts.
Import Names.

Lemma listed_In name l : listed name l = true <-> In name l.
Proof.
  unfold listed. rewrite existsb_exists. split.
  - intros (x & Hx & E). apply String.eqb_eq in E. now subst.
  - intros H. exists name. split; [exact H|apply String.eqb_refl].
Qed.

Lemma listed_not_In name l : listed name l = false <-> ~ In name l.
Proof.
  rewrite <- listed_In. destruct (listed name l); split; congruence.
Qed.

Lemma missing_from_nil l1 l2 :
  missing_from l1 l2 = [] -> forall name, In name l1 -> In name l2.
Proof.
  unfold missing_from. intros H name Hin. apply listed_In.
  destruct (listed name l2) eqn:E; [reflexivity|].
  assert (Hf : In name (List.filter (fun n => negb (listed n l2)) l1)).
  { apply List.filter_In. now rewrite E. }
  rewrite H in Hf. contradiction.
Qed.

Lemma occurrences_cons name x l :
  occurrences name (x :: l)
  = ((if String.eqb name x then 1 else 0) + occurrences name l)%nat.
Proof. unfold occurrences. simpl. now destruct (String.eqb name x). Qed.

Lemma occurrences_In name l : In name l -> (1 <= occurrences name l)%nat.
Proof.
  induction l as [|x l IH]; [contradiction|].
  rewrite occurrences_cons. intros [->|Hin].
  - rewrite String.eqb_refl. lia.
  - specialize (IH Hin). lia.
Qed.

Lemma occurrences_once_NoDup l :
  (forall name, In name l -> occurrences name l = 1%nat) -> List.NoDup l.
Proof.
  induction l as [|x l IH]; intros H; constructor.
  - intros Hin. pose proof (H x (or_introl eq_refl)) as Hx.
    rewrite occurrences_cons, String.eqb_refl in Hx.
    pose proof (occurrences_In _ _ Hin). lia.
  - apply IH. intros name Hin.
    pose proof (H name (or_intror Hin)) as Hn.
    rewrite occurrences_cons in Hn.
    pose proof (occurrences_In _ _ Hin).
    destruct (String.eqb name x); lia.
Qed.

Lemma once_everywhere l l' :
  forallb (fun name => Nat.eqb (occurrences name l') 1) l = true ->
  forall name, In name l -> occurrences name l' = 1%nat.
Proof.
  intros H name Hin. rewrite forallb_forall in H.
  now apply Nat.eqb_eq, H.
Qed.

Lemma JsMap_In_get {V} (m : JsMap.t V) k v :
  List.NoDup (JsMap.keys m) -> In (k, v) m -> JsMap.get k m = Some v.
Proof.
  unfold JsMap.keys. induction m as [|[k' v'] m IH]; simpl; [contradiction|].
  intros Hnd [E|Hin].
  - injection E as -> ->. now rewrite String.eqb_refl.
  - apply List.NoDup_cons_iff in Hnd as [Hk Hnd].
    destruct (String.eqb k' k) eqn:E; [|now apply IH].
    apply String.eqb_eq in E. subst k'. exfalso. apply Hk.
    apply in_map_iff. now exists (k, v).
Qed.

End NamesFacts.

(** ** The catalogs *)

Section CatalogFacts.
Import Text Railroad Names.
Local Open Scope list_scope.

Variable lib : Library.

(** Every factory of either catalog spells a tree of documented calls. *)
Lemma v1_rules_valid :
  forallb (fun e => valid (snd e tt)) CppSyntaxDiagrams.rules = true.
Proof. vm_compute. reflexivity. Qed.

Lemma rules_valid :
  forallb (fun e => valid (snd e tt)) CppGrammar.rules = true.
Proof. vm_compute. reflexivity. Qed.

Lemma v1_rules_not_placeholders :
  forallb (fun e => negb (CppSyntaxDiagrams.is_placeholder (snd e tt)))
          CppSyntaxDiagrams.rules = true.
Proof. vm_compute. reflexivity. Qed.

Lemma v1_factory_valid name factory :
  JsMap.get name CppSyntaxDiagrams.rules = Some factory ->
  valid (factory tt) = true.
Proof.
  intros H. apply JsMap_get_In in H.
  pose proof v1_rules_valid as Hv. rewrite forallb_forall in Hv.
  exact (Hv _ H).
Qed.

Lemma factory_valid name factory :
  JsMap.get name CppGrammar.rules = Some factory ->
  valid (factory tt) = true.
Proof.
  intros H. apply JsMap_get_In in H.
  pose proof rules_valid as Hv. rewrite forallb_forall in Hv.
  exact (Hv _ H).
Qed.

Lemma v1_factory_not_placeholder name factory :
  JsMap.get name CppSyntaxDiagrams.rules = Some factory ->
  CppSyntaxDiagrams.is_placeholder (factory tt) = false.
Proof.
  intros H. apply JsMap_get_In in H.
  pose proof v1_rules_not_placeholders as Hv. rewrite forallb_forall in Hv.
  apply negb_true_iff. exact (Hv _ H).
Qed.

Lemma placeholder_recognized name :
  CppSyntaxDiagrams.is_placeholder
    (Diagram [Comment ("No factory defined for " ++ name)%string]) = true.
Proof.
  simpl. apply prefix_app. now exists name.
Qed.

(** Calling a factory of documented calls with a usable library. *)
Lemma invoke_correct factory h :
  usable lib -> valid (factory tt) = true ->
  exists a cells,
    invoke lib factory h = (inl a, h ++ cells) /\
    length cells = size (factory tt) /\
    length h <= a < length (h ++ cells) /\
    built (h ++ cells) a (factory tt).
Proof. intros Hu Hv. exact (construct_usable lib (factory tt) h Hu Hv). Qed.

(** Whatever the library, a factory that returns has built its tree. *)
Lemma invoke_read_tree factory h a h' :
  invoke lib factory h = (inl a, h') ->
  read_tree h' a = Some (factory tt).
Proof. apply construct_read_tree. Qed.

Lemma object_not_undefined (m : H addr) h0 r0 h0' :
  bind m (fun a => ret (CppGrammar.object a)) h0 = (inl r0, h0') ->
  r0 <> CppGrammar.undefined.
Proof.
  unfold bind. destruct (m h0) as [[a0|e] h1]; [|discriminate].
  intros [= <- _]. discriminate.
Qed.

(** X22: with a usable library [createRuleDiagram] returns for every name,
    in both versions of the catalog.  In the first version the object it
    returns is the root of the tree of the registered factory, or of the
    placeholder [No factory defined for <name>] when there is none, and
    the placeholder is what tells the two apart.  In the revised version it
    returns a diagram for a registered name and [undefined], building
    nothing, for any other. *)
Theorem createRuleDiagram_returns (name : string) (h : heap) :
  usable lib ->
  (exists a h' t,
     CppSyntaxDiagrams.createRuleDiagram lib name h = (inl a, h') /\
     read_tree h' a = Some t /\
     (forall factory, CppSyntaxDiagrams.getRuleFactory name = Some factory ->
                      t = factory tt) /\
     (CppSyntaxDiagrams.getRuleFactory name = None ->
      t = Diagram [Comment ("No factory defined for " ++ name)%string]) /\
     (CppSyntaxDiagrams.is_placeholder t = true
      <-> ~ In name (JsMap.keys CppSyntaxDiagrams.rules))) /\
  (exists r h',
     CppGrammar.createRuleDiagram lib name h = (inl r, h') /\
     (forall factory, JsMap.get name CppGrammar.rules = Some factory ->
        exists a, r = CppGrammar.object a /\
                  read_tree h' a = Some (factory tt)) /\
     (r = CppGrammar.undefined <-> ~ In name (CppGrammar.getRuleNames tt)) /\
     (r = CppGrammar.undefined -> h' = h)).
Proof.
  intros Hu. split.
  - unfold CppSyntaxDiagrams.createRuleDiagram, CppSyntaxDiagrams.getRuleFactory.
    destruct (JsMap.get name CppSyntaxDiagrams.rules) as [factory|] eqn:G.
    + destruct (invoke_correct factory h Hu (v1_factory_valid _ _ G))
        as (a & c & E & _).
      exists a, (h ++ c), (factory tt). split; [exact E|].
      split; [exact (invoke_read_tree _ _ _ _ E)|].
      split; [now intros f [= <-]|]. split; [discriminate|].
      rewrite (v1_factory_not_placeholder _ _ G). split; [discriminate|].
      intros Hn. exfalso. apply Hn, JsMap_get_keys. eauto.
    + set (placeholder :=
             Diagram [Comment ("No factory defined for " ++ name)%string]).
      destruct (construct_usable lib placeholder h Hu eq_refl)
        as (a & c & E & _).
      exists a, (h ++ c), placeholder. split; [exact E|].
      split; [exact (construct_read_tree lib _ _ _ _ E)|].
      split; [discriminate|]. split; [reflexivity|].
      unfold placeholder. rewrite placeholder_recognized.
      split; [|reflexivity]. intros _. now apply JsMap_get_None.
  - unfold CppGrammar.createRuleDiagram, CppGrammar.getRuleNames.
    destruct (JsMap.get name CppGrammar.rules) as [factory|] eqn:G.
    + destruct (invoke_correct factory h Hu (factory_valid _ _ G))
        as (a & c & E & _).
      exists (CppGrammar.object a), (h ++ c). split.
      { unfold bind. now rewrite E. }
      split.
      { intros f [= <-]. exists a. split; [reflexivity|].
        exact (invoke_read_tree _ _ _ _ E). }
      split; [|discriminate].
      split; [discriminate|].
      intros Hn. exfalso. apply Hn, JsMap_get_keys. eauto.
    + exists CppGrammar.undefined, h. split; [reflexivity|].
      split; [discriminate|]. split; [|reflexivity].
      split; [|reflexivity]. intros _. now apply JsMap_get_None.
Qed.


(** The revised catalog behaves alike. *)
Lemma createRuleDiagram_revised_reproduces_factory name factory :
  JsMap.get name CppGrammar.rules = Some factory ->
  (forall h r1 h1 r2 h2,
     CppGrammar.createRuleDiagram lib name h = (inl r1, h1) ->
     CppGrammar.createRuleDiagram lib name h1 = (inl r2, h2) ->
     exists a1 a2,
       r1 = CppGrammar.object a1 /\
       r2 = CppGrammar.object a2 /\
       a1 <> a2 /\
       read_tree h2 a1 = Some (factory tt) /\
       read_tree h2 a2 = Some (factory tt)) /\
  (usable lib ->
   forall h, exists r1 h1 r2 h2,
     CppGrammar.createRuleDiagram lib name h = (inl r1, h1) /\
     CppGrammar.createRuleDiagram lib name h1 = (inl r2, h2)).
Proof.
  intros G. pose proof (factory_valid _ _ G) as Hv.
  unfold CppGrammar.createRuleDiagram. rewrite G. unfold bind. split.
  - intros h r1 h1 r2 h2 E1 E2.
    destruct (invoke lib factory h) as [[a1|e] h1'] eqn:I1; [|discriminate].
    injection E1 as <- <-.
    destruct (invoke lib factory h1') as [[a2|e] h2'] eqn:I2; [|discriminate].
    injection E2 as <- <-.
    exists a1, a2. split; [reflexivity|]. split; [reflexivity|].
    destruct (construct_correct lib _ _ _ _ I1) as (c1 & -> & L1 & R1 & B1).
    destruct (construct_correct lib _ _ _ _ I2) as (c2 & -> & L2 & R2 & B2).
    split; [lia|]. split.
    + apply built_read_tree; [now apply built_extend|].
      rewrite !length_app. lia.
    + exact (invoke_read_tree _ _ _ _ I2).
  - intros Hu h.
    destruct (invoke_correct factory h Hu Hv) as (a1 & c1 & E1 & _).
    destruct (invoke_correct factory (h ++ c1) Hu Hv) as (a2 & c2 & E2 & _).
    exists (CppGrammar.object a1), (h ++ c1), (CppGrammar.object a2),
      ((h ++ c1) ++ c2).
    rewrite E1, E2. split; reflexivity.
Qed.

End CatalogFacts.

Section EngineFacts.
Import Text Railroad Names.

Lemma v8_library_usable b : usable (library b v8_message).
Proof.
  split.
  - intros p. destruct b, p; reflexivity.
  - intros p args Ho. simpl. unfold documented_calls. now rewrite Ho.
Qed.

Lemma factory_library_usable message :
  usable (library FactoryFunctions message).
Proof.
  split; [reflexivity|].
  intros p args Ho. simpl. unfold documented_calls. now rewrite Ho.
Qed.

(** C1, where the code departs from it: the library being built as classes
    and the engine wording its error as SpiderMonkey does, the message does
    not match [/without 'new'/], [callOrNew] throws the [TypeError] again,
    and [createRuleDiagram] throws, having built nothing: in the first
    version for every name, since the placeholder too is made of wrapped
    primitives; in the revised version for every registered name. *)
Theorem createRuleDiagram_rethrows_class_error :
  let e := TypeError "class constructors must be invoked with 'new'" in
  (forall name h,
     CppSyntaxDiagrams.createRuleDiagram classes_on_spidermonkey name h
     = (inr e, h)) /\
  (forall name h,
     In name (CppGrammar.getRuleNames tt) ->
     CppGrammar.createRuleDiagram classes_on_spidermonkey name h
     = (inr e, h)).
Proof.
  cbv zeta.
  assert (U : forall t h,
             construct classes_on_spidermonkey t h
             = (inr (TypeError "class constructors must be invoked with 'new'"),
                h)).
  { intros t h. now apply construct_unreachable. }
  split.
  - intros name h. unfold CppSyntaxDiagrams.createRuleDiagram, invoke.
    destruct (JsMap.get name CppSyntaxDiagrams.rules); apply U.
  - intros name h Hn. unfold CppGrammar.createRuleDiagram, invoke.
    destruct (proj1 (JsMap_get_keys _ _) Hn) as [factory ->].
    unfold bind. rewrite U. reflexivity.
Qed.

End EngineFacts.

(** ** Coverage *)

Section CoverageFacts.
Import Names.

Lemma coverage_report_clean :
  coverage_report (CppGrammar.getRuleNames tt) (Ebnf.getEbnfRuleNames tt)
  = ([], []).
Proof. vm_compute. reflexivity. Qed.

(** C7: the names with a diagram factory in the shipped catalog are the
    names with an EBNF definition. *)
Theorem diagram_names_are_ebnf_names (name : string) :
  In name (CppGrammar.getRuleNames tt) <-> In name (Ebnf.getEbnfRuleNames tt).
Proof.
  split; apply missing_from_nil; vm_compute; reflexivity.
Qed.

(** The first version of the catalog registers three factories more, which
    have no EBNF definition. *)
Lemma v1_names_without_ebnf :
  missing_from (JsMap.keys CppSyntaxDiagrams.rules) (Ebnf.getEbnfRuleNames tt)
  = ["import-keyword"; "module-keyword"; "export-keyword"] /\
  missing_from (Ebnf.getEbnfRuleNames tt) (JsMap.keys CppSyntaxDiagrams.rules)
  = [].
Proof. vm_compute. split; reflexivity. Qed.

Lemma v1_sections_cover s : In s CppSyntaxDiagrams.SECTION_ORDER.
Proof. destruct s; simpl; tauto. Qed.

Lemma sections_cover s : In s CppGrammar.SECTION_ORDER.
Proof. destruct s; simpl; tauto. Qed.

Lemma v1_section_names_spec name :
  In name CppSyntaxDiagrams.section_names
  <-> exists s, In name (CppSyntaxDiagrams.SECTION_RULES s).
Proof.
  unfold CppSyntaxDiagrams.section_names. rewrite in_concat. split.
  - intros (l & Hl & Hn). apply in_map_iff in Hl as (s & <- & _). eauto.
  - intros (s & Hn). exists (CppSyntaxDiagrams.SECTION_RULES s).
    split; [|exact Hn]. apply in_map, v1_sections_cover.
Qed.

Lemma section_names_spec name :
  In name CppGrammar.section_names
  <-> exists s, In name (CppGrammar.SECTION_RULES s).
Proof.
  unfold CppGrammar.section_names. rewrite in_concat. split.
  - intros (l & Hl & Hn). apply in_map_iff in Hl as (s & <- & _). eauto.
  - intros (s & Hn). exists (CppGrammar.SECTION_RULES s).
    split; [|exact Hn]. apply in_map, sections_cover.
Qed.

(** C8: in both versions of the catalog, the section lists put end to end
    hold no name twice, and every registered rule name is in them exactly
    once. *)
Theorem sections_list_each_rule_once :
  (List.NoDup CppSyntaxDiagrams.section_names /\
   forall name, In name (JsMap.keys CppSyntaxDiagrams.rules) ->
                occurrences name CppSyntaxDiagrams.section_names = 1%nat) /\
  (List.NoDup CppGrammar.section_names /\
   forall name, In name (CppGrammar.getRuleNames tt) ->
                occurrences name CppGrammar.section_names = 1%nat).
Proof.
  split; split.
  - apply occurrences_once_NoDup, once_everywhere. vm_compute. reflexivity.
  - apply once_everywhere. vm_compute. reflexivity.
  - apply occurrences_once_NoDup, once_everywhere. vm_compute. reflexivity.
  - apply once_everywhere. vm_compute. reflexivity.
Qed.

End CoverageFacts.

(** ** EBNF lookup *)

Section EbnfFacts.
Import Names Ebnf.

Lemma ebnf_keys_NoDup : List.NoDup (JsMap.keys EBNF_DEFINITIONS).
Proof.
  apply occurrences_once_NoDup, once_everywhere. vm_compute. reflexivity.
Qed.

Lemma prototype_members_unregistered :
  forallb (fun k => negb (listed k (getEbnfRuleNames tt))) Object_prototype
  = true.
Proof. vm_compute. reflexivity. Qed.

Lemma object_get_own o k s :
  List.NoDup (JsMap.keys o) -> In (k, s) o -> object_get o k = text s.
Proof.
  intros Hnd H. unfold object_get. rewrite (JsMap_In_get _ _ _ Hnd H).
  reflexivity.
Qed.

Lemma object_get_listed o k :
  In k (JsMap.keys o) -> exists s, object_get o k = text s.
Proof.
  intros H. destruct (proj1 (JsMap_get_keys _ _) H) as [s G]. exists s.
  unfold object_get. rewrite G. reflexivity.
Qed.

Lemma object_get_unlisted o k :
  ~ In k (JsMap.keys o) ->
  object_get o k = if listed k Object_prototype then inherited k else undefined.
Proof.
  intros H. apply JsMap_get_None in H. unfold object_get. rewrite H.
  reflexivity.
Qed.

(** A registered name gives the authored text, unchanged. *)
Lemma getEbnfDefinition_registered name s :
  In (name, s) EBNF_DEFINITIONS -> getEbnfDefinition name = text s.
Proof. exact (object_get_own EBNF_DEFINITIONS name s ebnf_keys_NoDup). Qed.

Lemma getEbnfDefinition_listed name :
  In name (getEbnfRuleNames tt) -> exists s, getEbnfDefinition name = text s.
Proof. exact (object_get_listed EBNF_DEFINITIONS name). Qed.

(** A name that is neither registered nor a member of [Object.prototype]
    gives [undefined]. *)
Lemma getEbnfDefinition_unknown name :
  ~ In name (getEbnfRuleNames tt) -> ~ In name Object_prototype ->
  getEbnfDefinition name = undefined.
Proof.
  intros Hn Hp. unfold getEbnfDefinition.
  rewrite (object_get_unlisted _ _ Hn).
  apply listed_not_In in Hp. rewrite Hp. reflexivity.
Qed.

(** A member of [Object.prototype] is not a registered name, and yet the
    lookup does not give [undefined] for it. *)
Lemma getEbnfDefinition_inherited name :
  In name Object_prototype ->
  ~ In name (getEbnfRuleNames tt) /\ getEbnfDefinition name = inherited name.
Proof.
  intros Hp. pose proof prototype_members_unregistered as H.
  rewrite forallb_forall in H. specialize (H _ Hp).
  apply negb_true_iff, listed_not_In in H. split; [exact H|].
  unfold getEbnfDefinition. rewrite (object_get_unlisted _ _ H).
  apply listed_In in Hp. rewrite Hp. reflexivity.
Qed.

(** C5, at the input where the code departs from it: [constructor] is not a
    registered rule name, and [getEbnfDefinition] returns for it the
    function inherited from [Object.prototype], not [undefined]. *)
Theorem getEbnfDefinition_constructor :
  ~ In "constructor" (getEbnfRuleNames tt) /\
  getEbnfDefinition "constructor" = inherited "constructor" /\
  getEbnfDefinition "constructor" <> undefined.
Proof.
  destruct (getEbnfDefinition_inherited "constructor") as [H1 H2].
  { simpl. tauto. }
  split; [exact H1|]. split; [exact H2|]. rewrite H2. discriminate.
Qed.

End EbnfFacts.


(** ** The properties at concrete inputs *)

Section Examples.
Import JsString Svg Railroad.

(** The filter on the section of literals; the strings being ASCII, the
    engine's case mapping is not consulted. *)
Example filterNames_literals_string unicode :
  App.filterNames unicode (units "string")
    (AppView.SECTION_RULES CppGrammar.literals)
  = map units ["string-literal"; "raw-string"; "user-defined-string-literal"].
Proof. vm_compute. reflexivity. Qed.

Example filterNames_padded_upper_case unicode :
  App.filterNames unicode (units "  STRING ")
    (AppView.SECTION_RULES CppGrammar.literals)
  = map units ["string-literal"; "raw-string"; "user-defined-string-literal"].
Proof. vm_compute. reflexivity. Qed.

(** A no-break space is white space to [trim]: a query of one gives the
    whole list back. *)
Example filterNames_no_break_space unicode names :
  App.filterNames unicode [160%N] names = names.
Proof. reflexivity. Qed.

Example getEbnfDefinition_digit :
  Ebnf.getEbnfDefinition "digit"
  = Ebnf.text (String.append "digit: one of"
                 (String (ascii_of_nat 10) "    0 1 2 3 4 5 6 7 8 9")).
Proof. vm_compute. reflexivity. Qed.

Example getEbnfDefinition_frobnicate :
  Ebnf.getEbnfDefinition "frobnicate-expression" = Ebnf.undefined.
Proof. vm_compute. reflexivity. Qed.

Example createRuleDiagram_digit :
  let run :=
    CppSyntaxDiagrams.createRuleDiagram (library ClassConstructors v8_message)
      "digit" [] in
  run.1 = inl 11 /\
  read_tree run.2 11
  = Some (Diagram [Choice 0 (map Terminal
            ["0"; "1"; "2"; "3"; "4"; "5"; "6"; "7"; "8"; "9"])]).
Proof. vm_compute. split; reflexivity. Qed.

Example createRuleDiagram_frobnicate :
  let lib := library FactoryFunctions v8_message in
  let run := CppSyntaxDiagrams.createRuleDiagram lib "frobnicate-expression" [] in
  run.1 = inl 1 /\
  read_tree run.2 1
  = Some (Diagram [Comment "No factory defined for frobnicate-expression"]) /\
  CppGrammar.createRuleDiagram lib "frobnicate-expression" []
  = (inl CppGrammar.undefined, []).
Proof. vm_compute. repeat split; reflexivity. Qed.

(** With the wording of JavaScriptCore too the retry is missed. *)
Example createRuleDiagram_on_javascriptcore :
  CppSyntaxDiagrams.createRuleDiagram
    (library ClassConstructors javascriptcore_message) "digit" []
  = (inr (TypeError "Cannot call a class constructor without |new|"), []).
Proof. vm_compute. reflexivity. Qed.

Lemma stateless_returning {World} (v : value World) :
  stateless v -> stateless (returning v).
Proof.
  intros Hv. eapply stateless_function.
  - intros k. now constructor.
  - reflexivity.
  - now constructor.
Qed.

Lemma stateless_object_of {World} (props : list (string * value World)) :
  List.Forall (fun p => stateless (snd p)) props -> stateless (object_of props).
Proof.
  intros H. apply stateless_object. intros k.
  induction H as [|p props Hp _ IH]; simpl; [now constructor|].
  destruct (String.eqb (fst p) k); [exact Hp|exact IH].
Qed.

Lemma stateless_rendered_diagram {World} :
  stateless (rendered_diagram (World:=World)).
Proof.
  apply stateless_object_of.
  apply List.Forall_cons; [apply stateless_returning; now constructor|].
  apply List.Forall_cons; [apply stateless_returning; now constructor|].
  apply List.Forall_nil.
Qed.



(** C4, as stated, fails where [toSVG()] returns neither a string nor a DOM
    node: [toString] is a function and would give text, yet it is not used;
    the marker for an unexpected value is returned. *)
Lemma diagramToSvgString_unexpected_value_counterexample :
  let host := node_host unit in
  let d : value unit := odd_diagram in
  typeof (read d "toSVG") = "function" /\
  Call host (read d "toSVG") tt = (inl (VNumber true "42"), tt) /\
  looks_like_node (VNumber (World:=unit) true "42") = false /\
  typeof (read d "toString") = "function" /\
  Call host (read d "toString") tt = (inl (VString "Diagram"), tt) /\
  diagramToSvgString host d tt
  = (inl (VString "<!-- toSVG() returned unexpected value -->"), tt) /\
  diagramToSvgString host d tt <> (inl (VString "Diagram"), tt).
Proof.
  cbv zeta. repeat split; try reflexivity. vm_compute. discriminate.
Qed.

(** An exception that is not a conventional error value escapes: here
    [toSVG()] throws an object without [message], [toString] and
    [valueOf], and the [catch] block itself throws on converting it. *)
Example diagramToSvgString_escaping_exception :
  exists e,
    diagramToSvgString (node_host unit) bare_thrower tt = (inr e, tt) /\
    read e "name" = VString "TypeError" /\
    read e "message" = VString "Cannot convert object to primitive value".
Proof. eexists. repeat split; reflexivity. Qed.

(** So does an error whose [message] is a Symbol: the template literal of
    the [catch] block cannot convert it. *)
Example diagramToSvgString_symbol_message :
  exists e,
    diagramToSvgString (node_host unit) symbol_thrower tt = (inr e, tt) /\
    read e "name" = VString "TypeError" /\
    read e "message" = VString "Cannot convert a Symbol value to a string".
Proof. eexists. repeat split; reflexivity. Qed.

(** A thrown Symbol, though, is shown: [String(e)] describes it. *)
Example diagramToSvgString_thrown_symbol :
  diagramToSvgString (node_host unit)
    (object_of [("toSVG", throwing (VSymbol "why"))]) tt
  = (inl (VString "<!-- Render error: Symbol(why) -->"), tt).
Proof. reflexivity. Qed.

(** A conventional error is caught and shown. *)
Example diagramToSvgString_render_error :
  diagramToSvgString (node_host unit)
    (object_of [("toSVG", throwing (error_object (node_host unit) NotAFunction))])
    tt
  = (inl (VString "<!-- Render error: is not a function -->"), tt).
Proof. reflexivity. Qed.


(** The two calls and the direct call of the factory, run from the empty
    heap: objects 11 and 23 are the roots of the same tree. *)
Example createRuleDiagram_digit_twice :
  let lib := library ClassConstructors v8_message in
  let first := CppSyntaxDiagrams.createRuleDiagram lib "digit" [] in
  let second := CppSyntaxDiagrams.createRuleDiagram lib "digit" first.2 in
  first.1 = inl 11 /\ second.1 = inl 23 /\
  read_tree second.2 11 = read_tree second.2 23 /\
  read_tree second.2 23
  = Some (Diagram [Choice 0 (map Terminal
            ["0"; "1"; "2"; "3"; "4"; "5"; "6"; "7"; "8"; "9"])]).
Proof. vm_compute. repeat split; reflexivity. Qed.

End Examples.

(** ** More on the filter *)

Section MoreFilterFacts.
Import JsString App.
Local Open Scope list_scope.

Variable unicode : jsstring -> jsstring.

Lemma includes_trans (n b a : jsstring) :
  includes n b = true -> includes b a = true -> includes n a = true.
Proof.
  rewrite !includes_app. intros (p & s & ->) (p' & s' & ->).
  exists (p ++ p'), (s' ++ s). now rewrite <- !app_assoc.
Qed.

Lemma includes_nonempty (b a : jsstring) :
  includes b a = true -> truthy a = true -> truthy b = true.
Proof.
  rewrite includes_app. intros (p & s & ->) Ha.
  destruct p; simpl; [|reflexivity]. now destruct a.
Qed.

Lemma sublist_filter_imp {A} (f g : A -> bool) (l : list A) :
  (forall x, f x = true -> g x = true) ->
  sublist (List.filter f l) (List.filter g l).
Proof.
  intros H. induction l as [|x l IH]; simpl; [constructor|].
  destruct (f x) eqn:Ef.
  - rewrite (H _ Ef). now constructor.
  - destruct (g x); [now constructor|exact IH].
Qed.

Lemma filter_filter_same {A} (f : A -> bool) (l : list A) :
  List.filter f (List.filter f l) = List.filter f l.
Proof.
  induction l as [|x l IH]; simpl; [reflexivity|].
  destruct (f x) eqn:E; simpl; [now rewrite E, IH|exact IH].
Qed.

(** X2: filtering twice with the same query changes nothing more. *)
Theorem filterNames_idempotent (q : jsstring) (names : list jsstring) :
  filterNames unicode q (filterNames unicode q names)
  = filterNames unicode q names.
Proof.
  unfold filterNames.
  destruct (negb (truthy (toLowerCase unicode (trim q)))).
  - reflexivity.
  - apply filter_filter_same.
Qed.

Lemma filterNames_concat_lists q (lists : list (list jsstring)) :
  filterNames unicode q (concat lists)
  = concat (map (filterNames unicode q) lists).
Proof.
  unfold filterNames.
  destruct (negb (truthy (toLowerCase unicode (trim q)))).
  - now rewrite map_id.
  - symmetry. apply concat_filter_map.
Qed.

(** X3: the filter works name by name: the result on two lists put end to
    end is the two results put end to end, and so for any number of
    lists. *)
Theorem filterNames_concat (q : jsstring) (lists : list (list jsstring)) :
  filterNames unicode q (concat lists)
  = concat (map (filterNames unicode q) lists).
Proof. apply filterNames_concat_lists. Qed.

(** X4: a longer query narrows the result: when the trimmed query [q2],
    lower-cased, contains the trimmed query [q1], lower-cased, every name
    kept for [q2] is kept for [q1], in the same order. *)
Theorem filterNames_narrows (q1 q2 : jsstring) (names : list jsstring) :
  contains_ci unicode (trim q2) (trim q1) ->
  sublist (filterNames unicode q2 names) (filterNames unicode q1 names).
Proof.
  intros H. apply includes_contains_ci in H. unfold filterNames.
  destruct (truthy (toLowerCase unicode (trim q1))) eqn:E1; simpl.
  - rewrite (includes_nonempty _ _ H E1). simpl.
    apply sublist_filter_imp. intros n Hn. exact (includes_trans _ _ _ Hn H).
  - destruct (negb (truthy (toLowerCase unicode (trim q2)))).
    + reflexivity.
    + apply filter_sublist.
Qed.

Lemma filterNames_sublist q names :
  sublist (filterNames unicode q names) names.
Proof.
  unfold filterNames.
  destruct (negb (truthy (toLowerCase unicode (trim q)))).
  - reflexivity.
  - apply filter_sublist.
Qed.

End MoreFilterFacts.

Section MoreFilterExamples.
Import JsString App.

(** X4 at a padded query in capitals that narrows [cl]: the first keeps one
    name of the three, the second two. *)
Lemma filterNames_narrows_witness :
  let unicode := fun s : jsstring => s in
  let names := map units ["class-name"; "class-key"; "enum-name"] in
  contains_ci unicode (trim (units " CLASS-N ")) (trim (units "Cl")) /\
  filterNames unicode (units " CLASS-N ") names = [units "class-name"] /\
  filterNames unicode (units "Cl") names
  = map units ["class-name"; "class-key"] /\
  sublist (filterNames unicode (units " CLASS-N ") names)
          (filterNames unicode (units "Cl") names).
Proof.
  cbv zeta.
  assert (H : contains_ci (fun s : jsstring => s)
                (trim (units " CLASS-N ")) (trim (units "Cl"))).
  { apply includes_contains_ci. vm_compute. reflexivity. }
  split; [exact H|].
  split; [vm_compute; reflexivity|].
  split; [vm_compute; reflexivity|].
  exact (filterNames_narrows (fun s : jsstring => s)
           (units "Cl") (units " CLASS-N ")
           (map units ["class-name"; "class-key"; "enum-name"]) H).
Defined.

End MoreFilterExamples.

(** ** The filtered sections of the page *)

Section AppViewFacts.
Import JsString App AppView.
Local Open Scope list_scope.

Variable unicode : jsstring -> jsstring.

Lemma JsMap_get_set_eq {V} (m : JsMap.t V) k v :
  JsMap.get k (JsMap.set k v m) = Some v.
Proof.
  induction m as [|[k' v'] m IH]; simpl.
  - now rewrite String.eqb_refl.
  - destruct (String.eqb k' k) eqn:E; simpl; rewrite E; [reflexivity|exact IH].
Qed.

Lemma JsMap_get_set_ne {V} (m : JsMap.t V) k k' v :
  k <> k' -> JsMap.get k' (JsMap.set k v m) = JsMap.get k' m.
Proof.
  intros Hne. induction m as [|[k0 v0] m IH]; simpl.
  - apply String.eqb_neq in Hne. now rewrite Hne.
  - destruct (String.eqb k0 k) eqn:E; simpl.
    + apply String.eqb_eq in E. subst k0.
      apply String.eqb_neq in Hne. now rewrite Hne.
    + destruct (String.eqb k0 k'); [reflexivity|exact IH].
Qed.

Lemma key_injective s s' : key s = key s' -> s = s'.
Proof. destruct s, s'; simpl; intros H; try reflexivity; discriminate H. Qed.

(** A loop of assignments [out[key s] = f s] leaves under each key the
    value of the last [s] with that key. *)
Lemma assignments_get {V} (f : CppGrammar.SectionId -> V) order s :
  In s order ->
  JsMap.get (key s)
    (fold_left (fun out x => JsMap.set (key x) (f x) out) order JsMap.empty)
  = Some (f s).
Proof.
  induction order as [|x order IH] using rev_ind; [contradiction|].
  intros Hin. rewrite fold_left_app. simpl.
  destruct (string_dec (key x) (key s)) as [E|Hne].
  - apply key_injective in E. subst x. apply JsMap_get_set_eq.
  - rewrite (JsMap_get_set_ne _ _ _ _ Hne). apply IH.
    apply in_app_or in Hin as [H|[H|[]]]; [exact H|].
    subst x. contradiction.
Qed.

Lemma all_sections_ordered s : In s CppGrammar.SECTION_ORDER.
Proof. destruct s; simpl; tauto. Qed.

Lemma filteredBySection_get (q : jsstring) (s : CppGrammar.SectionId) :
  JsMap.get (key s) (filteredBySection unicode q)
  = Some (filterNames unicode q (SECTION_RULES s)).
Proof.
  unfold filteredBySection.
  apply (assignments_get
           (fun s => filterNames unicode q (SECTION_RULES s))).
  apply all_sections_ordered.
Qed.

(** X6: for every query and every section, [filteredBySection[s]] is an own
    property set by the loop, the filtered list of that section, so the
    read never misses; and the object has no other keys than the thirteen
    section ids, in the order of [SECTION_ORDER]. *)
Theorem filteredBySection_lookup (q : jsstring) (s : CppGrammar.SectionId) :
  JsMap.get (key s) (filteredBySection unicode q)
  = Some (filterNames unicode q (SECTION_RULES s)) /\
  JsMap.keys (filteredBySection unicode q) = map key CppGrammar.SECTION_ORDER.
Proof.
  split; [apply filteredBySection_get|].
  unfold filteredBySection. generalize (filterNames unicode q). intros f.
  reflexivity.
Qed.

(** Distinct literals are distinct string values. *)
Lemma units_injective (a b : string) : units a = units b -> a = b.
Proof.
  unfold units. intros H.
  rewrite <- (string_of_list_ascii_of_string a).
  rewrite <- (string_of_list_ascii_of_string b).
  f_equal. revert H.
  generalize (list_ascii_of_string a) (list_ascii_of_string b). clear.
  induction l as [|x l IH]; intros [|y l']; simpl; try discriminate;
    [reflexivity|].
  intros [= Hx Hl]. f_equal; [|now apply IH].
  rewrite <- (ascii_N_embedding x), <- (ascii_N_embedding y). now rewrite Hx.
Qed.

Lemma NoDup_map_units (l : list string) :
  List.NoDup l -> List.NoDup (map units l).
Proof.
  induction 1 as [|x l Hx _ IH]; simpl; constructor; [|exact IH].
  intros Hin. apply in_map_iff in Hin as (y & E & Hy).
  apply units_injective in E. now subst y.
Qed.

Lemma section_names_NoDup : List.NoDup CppGrammar.section_names.
Proof.
  apply occurrences_once_NoDup, once_everywhere. vm_compute. reflexivity.
Qed.

Lemma section_names_concat :
  section_names = concat (map SECTION_RULES CppGrammar.SECTION_ORDER).
Proof.
  unfold section_names, CppGrammar.section_names.
  now rewrite concat_map, map_map.
Qed.


End AppViewFacts.


(** ** More on the export boundary *)

Section MoreSvgFacts.
Import Svg.

Context {World : Type}.
Variable host : Host World.
Implicit Types (d v e f svg : value World) (w : World).

Lemma typeof_string_inv v : typeof v = "string" -> exists s, v = VString s.
Proof.
  destruct v as [| | b | nz t | s | sym | nz t | get has [body|]];
    try discriminate.
  intros _. now exists s.
Qed.

Ltac run_step H :=
  match type of H with
  | (let (_, _) := ?x in _) = _ =>
      destruct x as [[?|?] ?] eqn:?; [|discriminate H]
  end.

(** Whenever the [catch] block returns, it returns a string. *)
Lemma renderError_returns_string e w v w' :
  renderError host e w = (inl v, w') -> exists s, v = VString s.
Proof.
  unfold renderError, bind. intros H.
  run_step H. run_step H. run_step H.
  unfold ret in H. injection H as <- _. eauto.
Qed.

(** X8: the declared return type is [string], and it holds on every path
    but one: when the function returns normally, the result is a string
    unless [toSVG()] returned what looks like a DOM node, in which case the
    result is that node's [outerHTML] or what the serializer gave, whatever
    its type. *)
Theorem diagramToSvgString_result_kind d w v w' :
  diagramToSvgString host d w = (inl v, w') ->
  (exists s, v = VString s) \/
  (exists svg w1,
      truthy d = true /\
      typeof (read d "toSVG") = "function" /\
      Call host (read d "toSVG") w = (inl svg, w1) /\
      looks_like_node svg = true /\
      ((nullish (read svg "outerHTML") = false /\ v = read svg "outerHTML") \/
       (nullish (read svg "outerHTML") = true /\
        serializeToString host svg w1 = (inl v, w')))).
Proof.
  intros H. destruct (truthy d) eqn:Ht.
  2:{ rewrite (diagramToSvgString_falsy host _ _ Ht) in H.
      injection H as <- _. left. eauto. }
  rewrite (diagramToSvgString_truthy host _ _ Ht) in H. unfold try_catch in H.
  destruct (exportSvg host d w) as [[v0|e] w0] eqn:E.
  2:{ left. exact (renderError_returns_string _ _ _ _ H). }
  injection H as -> ->.
  destruct (String.eqb (typeof (read d "toSVG")) "function") eqn:Hf.
  - apply String.eqb_eq in Hf. rewrite (exportSvg_toSVG host _ w Ht Hf) in E.
    destruct (Call host (read d "toSVG") w) as [[svg|e] w1] eqn:Hc;
      [|discriminate].
    destruct (String.eqb (typeof svg) "string") eqn:Hs.
    { injection E as <- _. left. apply typeof_string_inv.
      now apply String.eqb_eq. }
    destruct (looks_like_node svg) eqn:Hn.
    2:{ injection E as <- _. left. eauto. }
    right. exists svg, w1. repeat (split; [assumption || reflexivity|]).
    destruct (nullish (read svg "outerHTML")) eqn:Ho.
    + right. now split.
    + left. injection E as <- _. now split.
  - apply String.eqb_neq in Hf.
    rewrite (exportSvg_toString host _ w Ht Hf) in E. left.
    destruct (String.eqb (typeof (read d "toString")) "function").
    + destruct (Call host (read d "toString") w) as [[r|e] w1];
        [|discriminate].
      destruct (String_ host r w1) as [[s|e] w2]; [|discriminate].
      injection E as <- _. eauto.
    + injection E as <- _. eauto.
Qed.

(** X9: a primitive argument never throws and never touches the state: a
    falsy one gives the empty-diagram sentinel, a truthy one its own text.
    In particular a non-empty string, such as any marker or markup the
    function has returned, comes back unchanged. *)
Theorem diagramToSvgString_primitive d w :
  is_primitive d = true ->
  diagramToSvgString host d w
  = (inl (VString (if truthy d then prim_text d
                   else "<!-- empty diagram -->")), w).
Proof.
  intros Hp.
  destruct d as [| | [] | [] t | [|c s] | sym | [] t | get has call];
    try discriminate Hp; reflexivity.
Qed.

End MoreSvgFacts.

(** ** More on building diagrams *)

Section MoreRailroadFacts.
Import Text Railroad References.
Local Open Scope list_scope.

Variable lib : Library.


(** Of the three wordings, only V8's matches the pattern. *)
Lemma wordings_checked p :
  includes (v8_message p) "without 'new'" = true /\
  includes (spidermonkey_message p) "without 'new'" = false /\
  includes (javascriptcore_message p) "without 'new'" = false.
Proof. destruct p; repeat split; reflexivity. Qed.

End MoreRailroadFacts.


(** ** More on the catalogs *)

Section MoreCatalogFacts.
Import Text Railroad References Names.
Local Open Scope list_scope.

Variable lib : Library.

Lemma v1_references_checked :
  forallb (fun e =>
             forallb (fun r => listed r (JsMap.keys CppSyntaxDiagrams.rules))
                     (references (snd e tt)))
          CppSyntaxDiagrams.rules = true.
Proof. vm_compute. reflexivity. Qed.

Lemma references_checked :
  forallb (fun e =>
             forallb (fun r => listed r (CppGrammar.getRuleNames tt)
                               || listed r dropped_rules)
                     (references (snd e tt)))
          CppGrammar.rules = true.
Proof. vm_compute. reflexivity. Qed.

Lemma dropped_rules_unregistered :
  forallb (fun d => negb (listed d (CppGrammar.getRuleNames tt))
                    && negb (listed d (Ebnf.getEbnfRuleNames tt))
                    && negb (listed d Ebnf.Object_prototype)
                    && listed d (all_references CppGrammar.rules)
                    && listed d (JsMap.keys CppSyntaxDiagrams.rules))
          dropped_rules = true.
Proof. vm_compute. reflexivity. Qed.

Lemma roots_are_diagrams :
  forallb (fun e => is_Diagram (snd e tt)) CppSyntaxDiagrams.rules = true /\
  forallb (fun e => is_Diagram (snd e tt)) CppGrammar.rules = true.
Proof. vm_compute. split; reflexivity. Qed.

Lemma is_Diagram_inv t : is_Diagram t = true -> exists items, t = Diagram items.
Proof. destruct t; try discriminate. eauto. Qed.

(** X15: the first version of the catalog is closed under reference: every
    rule name a registered diagram mentions through [NonTerminal] is itself
    registered, so following a reference never meets the placeholder. *)
Theorem v1_references_resolve name factory ref :
  JsMap.get name CppSyntaxDiagrams.rules = Some factory ->
  In ref (references (factory tt)) ->
  exists target, CppSyntaxDiagrams.getRuleFactory ref = Some target.
Proof.
  intros G Hr. apply JsMap_get_In in G.
  pose proof v1_references_checked as Hc. rewrite forallb_forall in Hc.
  specialize (Hc _ G). cbn [snd] in Hc. rewrite forallb_forall in Hc.
  specialize (Hc _ Hr). apply listed_In in Hc.
  exact (proj1 (JsMap_get_keys _ _) Hc).
Qed.

Lemma v1_references_resolve_witness :
  let factory := fun _ : unit => Diagram [NonTerminal "identifier"] in
  JsMap.get "enum-name" CppSyntaxDiagrams.rules = Some factory /\
  In "identifier" (references (factory tt)) /\
  exists target, CppSyntaxDiagrams.getRuleFactory "identifier" = Some target.
Proof.
  cbv zeta.
  assert (G : JsMap.get "enum-name" CppSyntaxDiagrams.rules
              = Some (fun _ : unit => Diagram [NonTerminal "identifier"])).
  { vm_compute. reflexivity. }
  assert (Hr : In "identifier"
                 (references (Diagram [NonTerminal "identifier"]))).
  { simpl. tauto. }
  split; [exact G|]. split; [exact Hr|].
  exact (v1_references_resolve "enum-name" _ "identifier" G Hr).
Defined.

(** X16: the revised catalog is closed under reference but for the three
    rules it dropped: a name a registered diagram mentions is registered,
    or it is [import-keyword], [module-keyword] or [export-keyword], for
    which [createRuleDiagram] gives [undefined] and builds nothing. *)
Theorem references_resolve_or_dropped name factory ref h :
  JsMap.get name CppGrammar.rules = Some factory ->
  In ref (references (factory tt)) ->
  In ref (CppGrammar.getRuleNames tt) \/
  (In ref dropped_rules /\
   CppGrammar.createRuleDiagram lib ref h = (inl CppGrammar.undefined, h)).
Proof.
  intros G Hr. apply JsMap_get_In in G.
  pose proof references_checked as Hc. rewrite forallb_forall in Hc.
  specialize (Hc _ G). cbn [snd] in Hc. rewrite forallb_forall in Hc.
  specialize (Hc _ Hr). clear G Hr.
  apply orb_true_iff in Hc as [Hc|Hc]; apply listed_In in Hc.
  - left. exact Hc.
  - right. split; [exact Hc|].
    pose proof dropped_rules_unregistered as Hd. rewrite forallb_forall in Hd.
    specialize (Hd _ Hc). rewrite !andb_true_iff in Hd.
    destruct Hd as [[[[Hd _] _] _] _].
    apply negb_true_iff, listed_not_In, JsMap_get_None in Hd.
    unfold CppGrammar.createRuleDiagram. rewrite Hd. reflexivity.
Qed.

Lemma v1_listed_are_registered :
  missing_from CppSyntaxDiagrams.section_names
               (JsMap.keys CppSyntaxDiagrams.rules) = [].
Proof. vm_compute. reflexivity. Qed.

Lemma listed_are_registered :
  missing_from CppGrammar.section_names (CppGrammar.getRuleNames tt) = [].
Proof. vm_compute. reflexivity. Qed.

Lemma listed_have_ebnf :
  missing_from CppGrammar.section_names (Ebnf.getEbnfRuleNames tt) = [].
Proof. vm_compute. reflexivity. Qed.

(** X17: every name a section lists is registered, in both versions: for
    a listed name [createRuleDiagram] runs the rule's factory, so that
    whenever it returns, it returns the diagram of the rule, never the
    placeholder and never [undefined]. *)
Theorem listed_rules_have_factories name h :
  (forall s, In name (CppSyntaxDiagrams.SECTION_RULES s) ->
     exists factory,
       CppSyntaxDiagrams.getRuleFactory name = Some factory /\
       CppSyntaxDiagrams.createRuleDiagram lib name h = invoke lib factory h /\
       CppSyntaxDiagrams.is_placeholder (factory tt) = false /\
       forall a h',
         CppSyntaxDiagrams.createRuleDiagram lib name h = (inl a, h') ->
         read_tree h' a = Some (factory tt)) /\
  (forall s, In name (CppGrammar.SECTION_RULES s) ->
     exists factory,
       JsMap.get name CppGrammar.rules = Some factory /\
       forall r h',
         CppGrammar.createRuleDiagram lib name h = (inl r, h') ->
         exists a, r = CppGrammar.object a /\
                   read_tree h' a = Some (factory tt)).
Proof.
  split; intros s Hs.
  - assert (Hn : In name CppSyntaxDiagrams.section_names).
    { apply v1_section_names_spec. eauto. }
    apply (missing_from_nil _ _ v1_listed_are_registered) in Hn.
    destruct (proj1 (JsMap_get_keys _ _) Hn) as [factory G].
    exists factory. split; [exact G|].
    unfold CppSyntaxDiagrams.createRuleDiagram. rewrite G.
    split; [reflexivity|].
    split; [exact (v1_factory_not_placeholder _ _ G)|].
    intros a h'. apply invoke_read_tree.
  - assert (Hn : In name CppGrammar.section_names).
    { apply section_names_spec. eauto. }
    apply (missing_from_nil _ _ listed_are_registered) in Hn.
    destruct (proj1 (JsMap_get_keys _ _) Hn) as [factory G].
    exists factory. split; [exact G|].
    unfold CppGrammar.createRuleDiagram. rewrite G. clear G.
    intros r h'. unfold bind.
    destruct (invoke lib factory h) as [[a|e] h1] eqn:E; [|discriminate].
    intros [= <- <-]. exists a. split; [reflexivity|].
    exact (invoke_read_tree lib _ _ _ _ E).
Qed.

Lemma headings_checked :
  forallb (fun e => String.prefix (fst e ++ ":")%string (snd e))
          Ebnf.EBNF_DEFINITIONS = true.
Proof. vm_compute. reflexivity. Qed.

Lemma object_get_text_In o k t :
  Ebnf.object_get o k = Ebnf.text t -> In (k, t) o.
Proof.
  unfold Ebnf.object_get. destruct (JsMap.get k o) as [s|] eqn:G.
  - intros [= ->]. now apply JsMap_get_In.
  - destruct (existsb _ _); discriminate.
Qed.

Lemma ebnf_heading name t :
  Ebnf.getEbnfDefinition name = Ebnf.text t ->
  String.prefix (name ++ ":")%string t = true.
Proof.
  intros H. apply (object_get_text_In Ebnf.EBNF_DEFINITIONS) in H.
  pose proof headings_checked as Hc. rewrite forallb_forall in Hc.
  exact (Hc _ H).
Qed.

(** X18: in the revised catalog every name a section lists has an EBNF
    definition, and the text shown under the diagram opens with the name of
    the rule followed by a colon. *)
Theorem listed_rules_have_ebnf s name :
  In name (CppGrammar.SECTION_RULES s) ->
  exists t, Ebnf.getEbnfDefinition name = Ebnf.text t /\
            String.prefix (name ++ ":")%string t = true.
Proof.
  intros Hs.
  assert (Hn : In name CppGrammar.section_names).
  { apply section_names_spec. eauto. }
  apply (missing_from_nil _ _ listed_have_ebnf) in Hn.
  destruct (getEbnfDefinition_listed _ Hn) as [t Ht].
  exists t. split; [exact Ht|]. exact (ebnf_heading _ _ Ht).
Qed.

Lemma listed_rules_have_ebnf_witness :
  In "enum-name" (CppGrammar.SECTION_RULES CppGrammar.keywords) /\
  exists t, Ebnf.getEbnfDefinition "enum-name" = Ebnf.text t /\
            String.prefix ("enum-name" ++ ":")%string t = true.
Proof.
  assert (H : In "enum-name" (CppGrammar.SECTION_RULES CppGrammar.keywords)).
  { simpl. tauto. }
  split; [exact H|].
  exact (listed_rules_have_ebnf CppGrammar.keywords "enum-name" H).
Defined.

(** X19: [getEbnfDefinition] returns a string exactly for the registered
    names (for every other name the result is [undefined] or a member of
    [Object.prototype], never a string), and a string it returns opens with
    the name asked for and a colon. *)
Theorem getEbnfDefinition_text_iff name :
  ((exists t, Ebnf.getEbnfDefinition name = Ebnf.text t)
   <-> In name (Ebnf.getEbnfRuleNames tt)) /\
  (forall t, Ebnf.getEbnfDefinition name = Ebnf.text t ->
             String.prefix (name ++ ":")%string t = true).
Proof.
  split; [split|].
  - intros [t Ht]. apply (object_get_text_In Ebnf.EBNF_DEFINITIONS) in Ht.
    apply in_map_iff. exists (name, t). split; [reflexivity|exact Ht].
  - apply getEbnfDefinition_listed.
  - apply ebnf_heading.
Qed.

(** X20: what [createRuleDiagram] returns is always rooted at a [Diagram]:
    in the first version for every name, the placeholder included; in the
    revised version whenever the result is an object. *)
Theorem createRuleDiagram_root_is_Diagram name h :
  (forall a h',
      CppSyntaxDiagrams.createRuleDiagram lib name h = (inl a, h') ->
      exists items, read_tree h' a = Some (Diagram items)) /\
  (forall a h',
      CppGrammar.createRuleDiagram lib name h
      = (inl (CppGrammar.object a), h') ->
      exists items, read_tree h' a = Some (Diagram items)).
Proof.
  destruct roots_are_diagrams as [R1 R2].
  rewrite forallb_forall in R1. rewrite forallb_forall in R2.
  split; intros a h'.
  - unfold CppSyntaxDiagrams.createRuleDiagram.
    destruct (JsMap.get name CppSyntaxDiagrams.rules) as [factory|] eqn:G.
    + intros E. rewrite (invoke_read_tree lib _ _ _ _ E).
      apply JsMap_get_In in G. specialize (R1 _ G). cbn [snd] in R1.
      destruct (is_Diagram_inv _ R1) as [items ->].
      exists items. reflexivity.
    + intros E.
      set (factory := fun _ : unit =>
             Diagram [Comment ("No factory defined for " ++ name)%string]).
      change (invoke lib factory h = (inl a, h')) in E.
      rewrite (invoke_read_tree lib factory _ _ _ E).
      unfold factory. eexists. reflexivity.
  - unfold CppGrammar.createRuleDiagram.
    destruct (JsMap.get name CppGrammar.rules) as [factory|] eqn:G;
      [|discriminate].
    unfold bind. destruct (invoke lib factory h) as [[a0|e] h0] eqn:E;
      [|discriminate].
    intros [= <- <-]. rewrite (invoke_read_tree lib _ _ _ _ E).
    apply JsMap_get_In in G. specialize (R2 _ G). cbn [snd] in R2.
    destruct (is_Diagram_inv _ R2) as [items ->].
    exists items. reflexivity.
Qed.

Lemma v1_listed_ebnf_checked :
  forallb (fun n => listed n (Ebnf.getEbnfRuleNames tt)
                    || listed n dropped_rules)
          CppSyntaxDiagrams.section_names = true.
Proof. vm_compute. reflexivity. Qed.

(** X21: in the first version every listed rule has an EBNF definition but
    the three keyword rules [import-keyword], [module-keyword] and
    [export-keyword], which have a diagram and for which the EBNF lookup
    gives [undefined]. *)
Theorem v1_listed_rules_ebnf s name :
  In name (CppSyntaxDiagrams.SECTION_RULES s) ->
  (exists t, Ebnf.getEbnfDefinition name = Ebnf.text t) \/
  (In name dropped_rules /\
   Ebnf.getEbnfDefinition name = Ebnf.undefined /\
   exists factory, CppSyntaxDiagrams.getRuleFactory name = Some factory).
Proof.
  intros Hs.
  assert (Hn : In name CppSyntaxDiagrams.section_names).
  { apply v1_section_names_spec. eauto. }
  pose proof v1_listed_ebnf_checked as Hc. rewrite forallb_forall in Hc.
  specialize (Hc _ Hn). apply orb_true_iff in Hc as [Hc|Hc];
    apply listed_In in Hc.
  - left. exact (getEbnfDefinition_listed _ Hc).
  - right. split; [exact Hc|].
    pose proof dropped_rules_unregistered as Hd. rewrite forallb_forall in Hd.
    specialize (Hd _ Hc). rewrite !andb_true_iff in Hd.
    destruct Hd as [[[[_ He] Hp] _] Hk].
    apply negb_true_iff, listed_not_In in He.
    apply negb_true_iff, listed_not_In in Hp.
    apply listed_In in Hk. split.
    + exact (getEbnfDefinition_unknown _ He Hp).
    + exact (proj1 (JsMap_get_keys _ _) Hk).
Qed.

Lemma v1_listed_rules_ebnf_witness :
  In "module-keyword"
     (CppSyntaxDiagrams.SECTION_RULES CppSyntaxDiagrams.modules) /\
  ((exists t, Ebnf.getEbnfDefinition "module-keyword" = Ebnf.text t) \/
   (In "module-keyword" dropped_rules /\
    Ebnf.getEbnfDefinition "module-keyword" = Ebnf.undefined /\
    exists factory,
      CppSyntaxDiagrams.getRuleFactory "module-keyword" = Some factory)).
Proof.
  assert (H : In "module-keyword"
                 (CppSyntaxDiagrams.SECTION_RULES CppSyntaxDiagrams.modules)).
  { simpl. tauto. }
  split; [exact H|].
  exact (v1_listed_rules_ebnf CppSyntaxDiagrams.modules "module-keyword" H).
Defined.

End MoreCatalogFacts.

(** ** The further properties at concrete inputs *)

Section MoreExamples.
Import Text Svg Railroad References.

(** X16 at the rule [keyword], which still mentions [module-keyword]. *)
Lemma references_resolve_or_dropped_witness :
  exists factory,
    JsMap.get "keyword" CppGrammar.rules = Some factory /\
    In "module-keyword" (references (factory tt)) /\
    (In "module-keyword" (CppGrammar.getRuleNames tt) \/
     (In "module-keyword" dropped_rules /\
      CppGrammar.createRuleDiagram (library FactoryFunctions v8_message)
        "module-keyword" []
      = (inl CppGrammar.undefined, []))).
Proof.
  destruct (JsMap.get "keyword" CppGrammar.rules) as [factory|] eqn:G;
    [|vm_compute in G; discriminate G].
  exists factory.
  assert (Hr : In "module-keyword" (references (factory tt))).
  { vm_compute in G. injection G as <-. vm_compute. tauto. }
  split; [reflexivity|]. split; [exact Hr|].
  exact (references_resolve_or_dropped (library FactoryFunctions v8_message)
           "keyword" factory "module-keyword" [] G Hr).
Defined.

(** X8 at a diagram the library has rendered. *)
Lemma diagramToSvgString_result_kind_witness :
  let host := node_host unit in
  let d : value unit := rendered_diagram in
  let v : value unit := VString "<svg class=railroad-diagram></svg>" in
  diagramToSvgString host d tt = (inl v, tt) /\
  ((exists s, v = VString s) \/
   (exists svg w1,
       truthy d = true /\
       typeof (read d "toSVG") = "function" /\
       Call host (read d "toSVG") tt = (inl svg, w1) /\
       looks_like_node svg = true /\
       ((nullish (read svg "outerHTML") = false /\ v = read svg "outerHTML") \/
        (nullish (read svg "outerHTML") = true /\
         serializeToString host svg w1 = (inl v, tt))))).
Proof.
  cbv zeta.
  assert (H : diagramToSvgString (node_host unit) rendered_diagram tt
              = (inl (VString "<svg class=railroad-diagram></svg>"), tt)).
  { reflexivity. }
  split; [exact H|].
  exact (diagramToSvgString_result_kind (node_host unit) rendered_diagram tt
           _ tt H).
Defined.

(** The one path that can return something else than a string: a node
    whose [outerHTML] is a number. *)
Example diagramToSvgString_not_a_string :
  diagramToSvgString (node_host unit)
    (object_of
       [("toSVG",
         returning (object_of [("nodeType", VNumber true "1");
                               ("outerHTML", VNumber true "7")]))])
    tt
  = (inl (VNumber true "7"), tt).
Proof. reflexivity. Qed.

(** X9 at a marker the function returns. *)
Lemma diagramToSvgString_primitive_witness :
  let d : value unit := VString "<!-- empty diagram -->" in
  is_primitive d = true /\
  diagramToSvgString (node_host unit) d tt
  = (inl (VString (if truthy d then prim_text d
                   else "<!-- empty diagram -->")), tt).
Proof.
  cbv zeta. split; [reflexivity|].
  exact (diagramToSvgString_primitive (node_host unit)
           (VString "<!-- empty diagram -->") tt eq_refl).
Defined.

(** X22 at a name that is not registered, with the library built as
    classes, on V8. *)
Lemma createRuleDiagram_returns_witness :
  let lib := library ClassConstructors v8_message in
  let name := "frobnicate-expression" in
  usable lib /\
  (exists a h' t,
     CppSyntaxDiagrams.createRuleDiagram lib name [] = (inl a, h') /\
     read_tree h' a = Some t /\
     (forall factory, CppSyntaxDiagrams.getRuleFactory name = Some factory ->
                      t = factory tt) /\
     (CppSyntaxDiagrams.getRuleFactory name = None ->
      t = Diagram [Comment ("No factory defined for " ++ name)%string]) /\
     (CppSyntaxDiagrams.is_placeholder t = true
      <-> ~ In name (JsMap.keys CppSyntaxDiagrams.rules))) /\
  (exists r h',
     CppGrammar.createRuleDiagram lib name [] = (inl r, h') /\
     (forall factory, JsMap.get name CppGrammar.rules = Some factory ->
        exists a, r = CppGrammar.object a /\
                  read_tree h' a = Some (factory tt)) /\
     (r = CppGrammar.undefined <-> ~ In name (CppGrammar.getRuleNames tt)) /\
     (r = CppGrammar.undefined -> h' = [])).
Proof.
  cbv zeta. split; [apply v8_library_usable|].
  exact (createRuleDiagram_returns (library ClassConstructors v8_message)
           "frobnicate-expression" []
           (v8_library_usable ClassConstructors)).
Defined.

(** X17 at the rule [enum-name], listed under the keywords. *)
Example listed_rules_have_factories_enum_name :
  In "enum-name" (CppGrammar.SECTION_RULES CppGrammar.keywords) /\
  exists a h',
    CppGrammar.createRuleDiagram (library ClassConstructors v8_message)
      "enum-name" [] = (inl (CppGrammar.object a), h') /\
    read_tree h' a = Some (Diagram [NonTerminal "identifier"]).
Proof.
  split; [simpl; tauto|]. eexists _, _. vm_compute. split; reflexivity.
Qed.

End MoreExamples.
